(** * monarch.pcf.app: Cloud Foundry application tools

    A shallow embedding of [monarch/pcf/app.py]: the [App] class (topology
    discovery, traffic blocking, service isolation, network shaping, monit
    process control, serialization) and the module-level resolvers
    [find_application_guid], [find_application_instances] and
    [find_application_services].

    Python effects are written out: a method is a function in the monad
    [M], which threads the history of calls made to the collaborators
    (command executor, bosh, logger, instance handles) and the store of
    [App] objects, and which ends in a returned value, a raised exception
    or [sys.exit]. *)

From Stdlib Require Import ZArith String Ascii List Bool Lia.
From stdpp Require Import gmap strings list pretty.
Import ListNotations.

#[local] Set Warnings "-register-all".

(** ** Python values and built-ins

    A [str] is a [string]: a sequence of code points below 256. *)

(** An element of a command line before [map(str, cmd)]: a [str] or an [int]. *)
Inductive pyval :=
| PStr (s : string)
| PInt (z : Z).

(** [str(v)] *)
Definition py_str (v : pyval) : string :=
  match v with
  | PStr s => s
  | PInt z => pretty z
  end.

(** [sep.join(l)] *)
Definition py_join (sep : string) (l : list string) : string :=
  String.concat sep l.

(** [needle in hay] on two [str] *)
Fixpoint py_contains (needle hay : string) : bool :=
  String.prefix needle hay ||
  match hay with
  | EmptyString => false
  | String _ rest => py_contains needle rest
  end.

(** The line boundaries of [str.splitlines] among the code points below 256:
    LF, CR, VT, FF, FS, GS, RS and NEL. *)
Definition is_line_boundary (c : ascii) : bool :=
  let n := nat_of_ascii c in
  (n =? 10)%nat || (n =? 13)%nat || (n =? 11)%nat || (n =? 12)%nat ||
  (n =? 28)%nat || (n =? 29)%nat || (n =? 30)%nat || (n =? 133)%nat.

Definition is_CR (c : ascii) : bool := (nat_of_ascii c =? 13)%nat.
Definition is_LF (c : ascii) : bool := (nat_of_ascii c =? 10)%nat.

(** [cur] is the line being read; a line is closed at each boundary (CR LF
    counts once) and a last line without boundary is kept when not empty. *)
Fixpoint splitlines_from (cur s : string) : list string :=
  match s with
  | EmptyString => match cur with EmptyString => [] | _ => [cur] end
  | String c rest =>
      if is_line_boundary c then
        match rest with
        | String c' rest' =>
            if is_CR c && is_LF c' then cur :: splitlines_from "" rest'
            else cur :: splitlines_from "" rest
        | EmptyString => cur :: splitlines_from "" rest
        end
      else splitlines_from (cur +:+ String c "") rest
  end.

(** [s.splitlines()] *)
Definition splitlines (s : string) : list string := splitlines_from "" s.

(** [s.replace(a, b)] for a one-character [a] *)
Fixpoint py_replace_char (a : ascii) (b : string) (s : string) : string :=
  match s with
  | EmptyString => EmptyString
  | String c rest =>
      (if Ascii.eqb c a then b else String c "") +:+ py_replace_char a b rest
  end.

(** Truth value of an [int] *)
Definition truthy (rcode : Z) : bool := negb (rcode =? 0)%Z.

(** Lookup in an insertion-ordered dictionary. *)
Fixpoint assoc_get {V : Type} (k : string) (d : list (string * V)) : option V :=
  match d with
  | [] => None
  | (k', v) :: rest => if String.eqb k k' then Some v else assoc_get k rest
  end.

(** Values produced by [json.loads]; numbers are integers here.  A
    dictionary keeps its insertion order, which [dict.items()] follows. *)
Inductive json :=
| JNull
| JBool (b : bool)
| JInt (z : Z)
| JStr (s : string)
| JArr (l : list json)
| JObj (kvs : list (string * json)).

Definition pydict := list (string * json).

(** [key in d] *)
Definition dict_has (k : string) (d : pydict) : bool :=
  match assoc_get k d with Some _ => true | None => false end.

(** [a == b]: dictionaries are equal when they hold the same items whatever
    their order; [True == 1] and [False == 0]. *)
Fixpoint json_eqb (a b : json) {struct a} : bool :=
  match a, b with
  | JNull, JNull => true
  | JBool x, JBool y => Bool.eqb x y
  | JBool x, JInt z => (z =? (if x then 1 else 0))%Z
  | JInt z, JBool x => (z =? (if x then 1 else 0))%Z
  | JInt x, JInt y => (x =? y)%Z
  | JStr x, JStr y => String.eqb x y
  | JArr l, JArr l' =>
      (fix go (l l' : list json) : bool :=
         match l, l' with
         | [], [] => true
         | x :: t, y :: t' => json_eqb x y && go t t'
         | _, _ => false
         end) l l'
  | JObj kvs, JObj kvs' =>
      (* every item of [a] is an item of [b] *)
      (fix go (l : list (string * json)) : bool :=
         match l with
         | [] => true
         | (k, v) :: t =>
             match assoc_get k kvs' with
             | Some v' => json_eqb v v'
             | None => false
             end && go t
         end) kvs &&
      (* every item of [b] is an item of [a] *)
      (fix back (l' : list (string * json)) : bool :=
         match l' with
         | [] => true
         | (k', v') :: t' =>
             (fix find (l : list (string * json)) : bool :=
                match l with
                | [] => false
                | (k, v) :: t =>
                    if String.eqb k' k then json_eqb v v' else find t
                end) kvs && back t'
         end) kvs'
  | _, _ => false
  end.

Definition dict_eqb (a b : pydict) : bool := json_eqb (JObj a) (JObj b).

(** ** Data model *)

(** [Service] (monarch.pcf.service), with the fields that
    [add_custom_service] gives to its constructor and that the service
    isolation methods read.  A host is an (address, protocol, port) triple;
    the port is a number or ['all']. *)
Record Service := mkService {
  service_type : string;
  service_name : string;
  service_user : option string;
  service_password : option string;
  service_hosts : list (string * string * pyval)
}.

(** [AppInstance] (monarch.pcf.app_instance), with the fields that
    [find_application_instances] gives to its constructor: one running copy
    of the application. *)
Record AppInstance := mkAppInstance {
  diego_id : string;
  diego_ip : string;
  cont_id : option json;
  cont_ip : string;
  app_ports : gset (Z * Z);
  diego_vi : option string
}.

(** The fields of an [App] object, its [__dict__]. *)
Record App := mkApp {
  org : string;
  space : string;
  name : string;
  guid : option string;
  services : list Service;
  instances : option (list AppInstance)
}.

(** One port mapping of a raw instance reported by [bosh.get_apps()]; the
    TLS-proxy ports are read with [dict.get] and may be missing. *)
Record PortMapping := mkPortMapping {
  host_port : Z;
  container_port : Z;
  host_tls_proxy_port : option Z;
  container_tls_proxy_port : option Z
}.

(** One raw instance reported by [bosh.get_apps()], with the keys that
    [find_application_instances] reads. *)
Record RawInstance := mkRawInstance {
  raw_app_guid : string;
  raw_state : string;
  raw_address : string;
  raw_instance_address : string;
  raw_cell_id : string;
  raw_ports : list PortMapping
}.

(** A custom service declared under ['services'] in the configuration. *)
Record CustomService := mkCustomService {
  custom_name : string;
  custom_host : string;
  custom_ports : list (string * pyval);
  custom_user : option string;
  custom_password : option string
}.

(** [Config()] (monarch.pcf.config): the keys read by this module. *)
Record Config := mkConfig {
  service_whitelist : list string;
  host_port_whitelist : list Z;
  container_port_whitelist : list Z;
  cf_cmd : string;
  cfg_services : option (list CustomService)
}.

(** The [ports] argument of [App.block]: ['env'], ['all'], or a custom
    collection of ports. *)
Inductive Ports :=
| PortsNamed (policy : string)
| PortsCustom (ports : list Z).

(** A command given to an executor: one string or a batch. *)
Inductive cmd_arg :=
| Cmd (c : string)
| Cmds (cs : list string).

(** The output of [util.group_lines_by_hanging_indent]: nested lists of
    lines. *)
Inductive grouping :=
| GLine (s : string)
| GGroup (l : list grouping).

Inductive level := DEBUG | INFO | WARNING | ERROR.

(** ** Calls to the collaborators

    Every call that leaves this module is recorded with its arguments, in
    the order the calls are made.  A logger call is recorded with its level
    and message template, or with the value given to [json.dumps]; an
    optional argument that is not passed is [None]. *)
Inductive Event :=
| CfTarget (o s : string)
| RunCmd (cmd : cmd_arg)
| RunCmdOnDiegoCell (did : string) (cmd : cmd_arg)
    (suppress_output : option bool)
| BoshGetApps
| GetHostByName (host : string)
| InstBlock (i : AppInstance) (direction : string) (ports : Ports)
| InstUnblock (i : AppInstance) (ports : option Ports)
| InstManipulateNetwork (i : AppInstance) (kwargs : list (string * pyval))
| InstShapeNetwork (i : AppInstance) (download_limit upload_limit : option Z)
| InstUnmanipulateNetwork (i : AppInstance)
| InstRunCmd (i : AppInstance) (cmd : cmd_arg)
| Log (lvl : level) (template : string)
| LogJson (lvl : level) (dumped : json).

Definition history := list Event.

(** What the collaborators answer.  The code of [Config], [Service],
    [AppInstance], [monarch.util], [monarch.pcf.util] and [bosh] is outside
    this module: their constants and pure helpers are taken as they are, and
    the answer of a stateful collaborator is a function of the calls made
    before it. *)
Record Collaborators := mkCollaborators {
  cfg : Config;
  TIMES_TO_REMOVE : nat;
  parse_direction : string -> option string;
  extract_json : string -> list pydict;
  from_service_info : string -> json -> option Service;
  group_lines_by_hanging_indent : string -> grouping;
  find_string_in_grouping : grouping -> string -> list nat;
  (* re.match(r'\d+: ([\w-]+)(@[\w-]+)?:', s): group 1 of the match *)
  re_match_interface : string -> option string;
  service_serialize : Service -> json;
  instance_serialize : AppInstance -> json;
  cf_target : history -> string -> string -> Z;
  run_cmd : history -> cmd_arg -> Z * string * string;
  run_cmd_on_diego_cell : history -> string -> cmd_arg -> Z * string * string;
  get_apps : history -> list RawInstance;
  gethostbyname : history -> string -> option string;
  instance_block : history -> AppInstance -> string -> Ports -> Z;
  instance_manipulate_network :
    history -> AppInstance -> list (string * pyval) -> Z;
  instance_shape_network :
    history -> AppInstance -> option Z -> option Z -> Z;
  instance_run_cmd : history -> AppInstance -> cmd_arg -> Z * string * string
}.

(** ** The monad of methods *)

Inductive exn :=
| AssertionError
| IndexError
| KeyError
| TypeError
| AttributeError
| ValueError
| OSError
(* a reference that the store does not hold; no run reaches it *)
| ReferenceError.

(** How a call ends: it returns, raises, or leaves through [sys.exit]. *)
Inductive outcome (A : Type) :=
| Ret (a : A)
| Raise (e : exn)
| Exit (msg : string).
Arguments Ret {A} a.
Arguments Raise {A} e.
Arguments Exit {A} msg.

(** The calls made so far, and the store: an [App] object is a reference to
    its [__dict__], which holds the fields. *)
Record State := mkState {
  hist : history;
  obj_dict : gmap nat nat;
  dicts : gmap nat App
}.

Definition M (A : Type) : Type := State -> outcome A * State.

Definition ret {A} (a : A) : M A := fun st => (Ret a, st).

Definition bind {A B} (m : M A) (k : A -> M B) : M B :=
  fun st =>
    match m st with
    | (Ret a, st') => k a st'
    | (Raise e, st') => (Raise e, st')
    | (Exit msg, st') => (Exit msg, st')
    end.

Definition raise {A} (e : exn) : M A := fun st => (Raise e, st).

(** [sys.exit(msg)] *)
Definition sys_exit {A} (msg : string) : M A := fun st => (Exit msg, st).

Declare Scope py_scope.
Delimit Scope py_scope with py.
Notation "x <- m ;; k" := (bind m (fun x => k))
  (at level 100, m at next level, k at level 200, right associativity,
   format "'[v' x  <-  m  ;; '/' k ']'") : py_scope.
Notation "m ;; k" := (bind m (fun _ => k))
  (at level 100, k at level 200, right associativity) : py_scope.
Local Open Scope py_scope.

(** The state after the calls [es]. *)
Definition emit (es : list Event) (st : State) : State :=
  {| hist := hist st ++ es; obj_dict := obj_dict st; dicts := dicts st |}.

(** A call [e] to a collaborator whose answer is [answer]. *)
Definition call {A} (e : Event) (answer : history -> A) : M A :=
  fun st => (Ret (answer (hist st)), emit [e] st).

(** [logger.<lvl>(template, ...)] *)
Definition log (lvl : level) (template : string) : M unit :=
  fun st => (Ret tt, emit [Log lvl template] st).

(** [logger.<lvl>(json.dumps(j, ...))] *)
Definition log_json (lvl : level) (j : json) : M unit :=
  fun st => (Ret tt, emit [LogJson lvl j] st).

(** [assert b] *)
Definition py_assert (b : bool) : M unit :=
  if b then ret tt else raise AssertionError.

(** A [for] loop whose body may [return]: [None] goes on with the next
    element, [Some r] leaves the loop and the function with [r]. *)
Fixpoint for_in {A R} (l : list A) (body : A -> M (option R)) : M (option R) :=
  match l with
  | [] => ret None
  | x :: rest =>
      r <- body x ;;
      match r with
      | Some v => ret (Some v)
      | None => for_in rest body
      end
  end.

(** A [for] loop that only updates the local variables [acc]. *)
Fixpoint for_acc {A S} (l : list A) (acc : S) (body : S -> A -> M S) : M S :=
  match l with
  | [] => ret acc
  | x :: rest => acc' <- body acc x ;; for_acc rest acc' body
  end.

(** A [for] loop without local variables. *)
Fixpoint for_each {A} (l : list A) (body : A -> M unit) : M unit :=
  match l with
  | [] => ret tt
  | x :: rest => body x ;; for_each rest body
  end.

(** ** class App: the methods that read [self] *)

Section AppMethods.

Context (C : Collaborators).

(** Iterating [self.instances]; [None] is not iterable. *)
Definition self_instances (self : App) : M (list AppInstance) :=
  match instances self with
  | Some l => ret l
  | None => raise TypeError
  end.

(** [App.get_id] *)
Definition get_id (self : App) : string :=
  py_join "_" [org self; space self; name self].

(** [App.unblock] *)
Definition unblock (self : App) (ports : option Ports) : M unit :=
  insts <- self_instances self ;;
  for_each insts (fun app_instance =>
    call (InstUnblock app_instance ports) (fun _ => tt)).

(** [ports if not isinstance(ports, str) else None] *)
Definition explicit_ports (ports : Ports) : option Ports :=
  match ports with
  | PortsNamed _ => None
  | PortsCustom _ => Some ports
  end.

(** [App.block] *)
Definition block (self : App) (direction : string) (ports : Ports) : M Z :=
  insts <- self_instances self ;;
  r <- for_in insts (fun app_instance =>
    rcode <- call (InstBlock app_instance direction ports)
                  (fun h => instance_block C h app_instance direction ports) ;;
    if truthy rcode then
      unblock self (explicit_ports ports) ;;
      ret (Some rcode)
    else ret None) ;;
  ret (match r with Some rcode => rcode | None => 0%Z end).

(** [port != 'all'] *)
Definition port_is_all (port : pyval) : bool :=
  match port with
  | PStr s => String.eqb s "all"
  | PInt _ => false
  end.

(** The rule that drops what [app_instance] sends to a host of a service:
    [action] is [-I FORWARD 1] or [-D FORWARD]. *)
Definition egress_rule (action : list pyval) (app_instance : AppInstance)
    (host : string * string * pyval) : string :=
  let '(sip, protocol, port) := host in
  let cmd := [PStr "sudo"; PStr "iptables"] ++ action ++
             [PStr "-s"; PStr (cont_ip app_instance);
              PStr "-d"; PStr sip; PStr "-p"; PStr protocol] in
  let cmd := if negb (port_is_all port)
             then cmd ++ [PStr "--dport"; port] else cmd in
  let cmd := cmd ++ [PStr "-j"; PStr "DROP"] in
  py_join " " (map py_str cmd).

(** The rule that drops what a host of a service sends to [app_instance]. *)
Definition ingress_rule (action : list pyval) (app_instance : AppInstance)
    (host : string * string * pyval) : string :=
  let '(sip, protocol, port) := host in
  let cmd := [PStr "sudo"; PStr "iptables"] ++ action ++
             [PStr "-d"; PStr (cont_ip app_instance);
              PStr "-s"; PStr sip; PStr "-p"; PStr protocol] in
  let cmd := if negb (port_is_all port)
             then cmd ++ [PStr "--sport"; port] else cmd in
  let cmd := cmd ++ [PStr "-j"; PStr "DROP"] in
  py_join " " (map py_str cmd).

Definition insert_action : list pyval :=
  [PStr "-I"; PStr "FORWARD"; PStr "1"].
Definition delete_action : list pyval :=
  [PStr "-D"; PStr "FORWARD"].

(** [service['type'] in cfg['service-whitelist']] *)
Definition type_whitelisted (service : Service) : bool :=
  bool_decide (service_type service ∈ service_whitelist (cfg C)).

(** [services and service['name'] not in services], with [names] for the
    argument [services] *)
Definition filtered_out (names : option (list string)) (service : Service)
    : bool :=
  match names with
  | None => false
  | Some [] => false
  | Some l => negb (bool_decide (service_name service ∈ l))
  end.

(** [for _ in range(n): cmds.append(c)] *)
Definition append_times (n : nat) (c : string) (cmds : list string)
    : list string :=
  Nat.iter n (fun cmds => cmds ++ [c]) cmds.

(** The loop over [service['hosts']] of [unblock_services]. *)
Definition unblock_hosts (app_instance : AppInstance) (service : Service)
    (cmds : list string) : list string :=
  fold_left (fun cmds host =>
      let cmds := append_times (TIMES_TO_REMOVE C)
                    (egress_rule delete_action app_instance host) cmds in
      append_times (TIMES_TO_REMOVE C)
        (ingress_rule delete_action app_instance host) cmds)
    (service_hosts service) cmds.

(** The loop over [self.services] of [unblock_services]. *)
Definition unblock_cmds (self : App) (names : option (list string))
    (app_instance : AppInstance) : M (list string) :=
  for_acc (services self) [] (fun cmds service =>
    if type_whitelisted service then ret cmds
    else if filtered_out names service then ret cmds
    else
      log INFO "Unblocking %s for %s:%s" ;;
      ret (unblock_hosts app_instance service cmds)).

(** [App.unblock_services] *)
Definition unblock_services (self : App) (names : option (list string))
    : M unit :=
  insts <- self_instances self ;;
  for_each insts (fun app_instance =>
    cmds <- unblock_cmds self names app_instance ;;
    match cmds with
    | [] => ret tt
    | _ =>
        call (RunCmdOnDiegoCell (diego_id app_instance) (Cmds cmds) (Some true))
             (fun _ => tt)
    end).

(** [direction in {'egress', 'both'}] and [direction in {'ingress', 'both'}] *)
Definition is_egress (direction : string) : bool :=
  String.eqb direction "egress" || String.eqb direction "both".
Definition is_ingress (direction : string) : bool :=
  String.eqb direction "ingress" || String.eqb direction "both".

(** The loop over [service['hosts']] of [block_services]. *)
Definition block_hosts (direction : string) (app_instance : AppInstance)
    (service : Service) (cmds : list string) : list string :=
  fold_left (fun cmds host =>
      let cmds := if is_egress direction
                  then cmds ++ [egress_rule insert_action app_instance host]
                  else cmds in
      if is_ingress direction
      then cmds ++ [ingress_rule insert_action app_instance host]
      else cmds)
    (service_hosts service) cmds.

(** The loop over [self.services] of [block_services]. *)
Definition block_cmds (self : App) (names : option (list string))
    (direction : string) (app_instance : AppInstance) : M (list string) :=
  for_acc (services self) [] (fun cmds service =>
    if type_whitelisted service then ret cmds
    else if filtered_out names service then ret cmds
    else
      log INFO "Blocking %s for %s:%s" ;;
      ret (block_hosts direction app_instance service cmds)).

(** [App.block_services] *)
Definition block_services (self : App) (names : option (list string))
    (direction : string) : M Z :=
  let direction := parse_direction C direction in
  py_assert (match direction with
             | Some d => negb (String.eqb d "")
             | None => false
             end) ;;
  let direction := default ""%string direction in
  insts <- self_instances self ;;
  r <- for_in insts (fun app_instance =>
    cmds <- block_cmds self names direction app_instance ;;
    match cmds with
    | [] => ret None
    | _ =>
        res <- call (InstRunCmd app_instance (Cmds cmds))
                    (fun h => instance_run_cmd C h app_instance (Cmds cmds)) ;;
        let rcode := res.1.1 in
        if truthy rcode then
          log ERROR "Received return code %d from iptables call." ;;
          unblock_services self names ;;
          ret (Some rcode)
        else ret None
    end) ;;
  ret (match r with Some rcode => rcode | None => 0%Z end).

(** [App.unmanipulate_network] *)
Definition unmanipulate_network (self : App) : M unit :=
  insts <- self_instances self ;;
  for_each insts (fun app_instance =>
    call (InstUnmanipulateNetwork app_instance) (fun _ => tt)).

(** [App.manipulate_network] *)
Definition manipulate_network (self : App) (kwargs : list (string * pyval))
    : M Z :=
  insts <- self_instances self ;;
  r <- for_in insts (fun app_instance =>
    rcode <- call (InstManipulateNetwork app_instance kwargs)
               (fun h => instance_manipulate_network C h app_instance kwargs) ;;
    if truthy rcode then
      unmanipulate_network self ;;
      ret (Some rcode)
    else ret None) ;;
  ret (match r with Some rcode => rcode | None => 0%Z end).

(** Truth value of a limit: [None] and [0] are false. *)
Definition limit_truthy (limit : option Z) : bool :=
  match limit with
  | Some z => truthy z
  | None => false
  end.

(** [App.shape_network] *)
Definition shape_network (self : App) (download_limit upload_limit : option Z)
    : M Z :=
  if negb (limit_truthy download_limit || limit_truthy upload_limit) then
    ret 0%Z
  else
    insts <- self_instances self ;;
    r <- for_in insts (fun app_instance =>
      rcode <- call (InstShapeNetwork app_instance download_limit upload_limit)
                 (fun h => instance_shape_network C h app_instance
                             download_limit upload_limit) ;;
      if truthy rcode then
        unmanipulate_network self ;;
        ret (Some rcode)
      else ret None) ;;
    ret (match r with Some rcode => rcode | None => 0%Z end).

(** [App.start_monit_process] *)
Definition start_monit_process (self : App) (process : string) : M unit :=
  insts <- self_instances self ;;
  for_each insts (fun app_instance =>
    call (InstRunCmd app_instance
            (Cmd ("sudo /var/vcap/bosh/bin/monit start " +:+ process)))
         (fun _ => tt)).

(** The lines of the remote output that name a PID file. *)
Definition pid_files_of (stdout : string) : list string :=
  List.filter
    (fun l => py_contains "/var/vcap/sys/run" l &&
              negb (py_contains "find /var/vcap/sys/run" l))
    (splitlines stdout).

(** [App.kill_monit_process]; the result is [None] when the loop ends
    without a [return]. *)
Definition kill_monit_process (self : App) (process : string)
    : M (option Z) :=
  insts <- self_instances self ;;
  for_in insts (fun app_instance =>
    let find := Cmd ("find /var/vcap/sys/run | grep " +:+ process +:+
                     " | grep --color=never pid") in
    res <- call (InstRunCmd app_instance find)
                (fun h => instance_run_cmd C h app_instance find) ;;
    let rcode := res.1.1 in
    let stdout := res.1.2 in
    let pid_files := pid_files_of stdout in
    if truthy rcode || bool_decide (pid_files = []) then
      log ERROR "Encountered error when discovering monit process." ;;
      ret (Some rcode)
    else
      log DEBUG "Found pid files %s for %s on %s." ;;
      let cmds := ("sudo /var/vcap/bosh/bin/monit unmonitor " +:+ process) ::
                  map (fun pf => "sudo kill $(cat " +:+ pf +:+ ")") pid_files in
      res <- call (InstRunCmd app_instance (Cmds cmds))
                  (fun h => instance_run_cmd C h app_instance (Cmds cmds)) ;;
      let rcode := res.1.1 in
      if truthy rcode then
        log ERROR "Encountered error killing monit processes!" ;;
        start_monit_process self process ;;
        ret (Some rcode)
      else ret (Some 0%Z)).

(** [App.undo_all] *)
Definition undo_all (self : App) : M unit :=
  unblock self None ;;
  unblock_services self None ;;
  unmanipulate_network self.

(** [App.serialize] *)
Definition serialize (self : App) : M json :=
  let ss := map (service_serialize C) (services self) in
  insts <- self_instances self ;;
  ret (JObj [("org", JStr (org self));
             ("space", JStr (space self));
             ("name", JStr (name self));
             ("guid", match guid self with Some g => JStr g | None => JNull end);
             ("services", JArr ss);
             ("instances", JArr (map (instance_serialize C) insts))]).

(** [App.get_service_by_name] *)
Definition get_service_by_name (self : App) (sname : string)
    : option Service :=
  List.find (fun service => String.eqb (service_name service) sname)
            (services self).

End AppMethods.

(** ** The module-level resolvers *)

Section Resolvers.

Context (C : Collaborators).

(** [find_application_guid] *)
Definition find_application_guid (appname : string) : M string :=
  py_assert (negb (String.eqb appname "")) ;;
  let cmd := cf_cmd (cfg C) +:+ " app " +:+ appname +:+ " --guid" in
  res <- call (RunCmd (Cmd cmd)) (fun h => run_cmd C h (Cmd cmd)) ;;
  let rcode := res.1.1 in
  let stdout := res.1.2 in
  match splitlines stdout with
  | [] => raise IndexError
  | guid :: _ =>
      if truthy rcode then
        sys_exit ("Failed retrieving the GUID for the specified app. Make sure "
                  +:+ appname +:+ " is in this space!")
      else
        log DEBUG guid ;;
        ret guid
  end.

(** [x not in whitelist] *)
Definition not_whitelisted (x : Z) (whitelist : list Z) : bool :=
  negb (bool_decide (x ∈ whitelist)).

(** The body of the loop over [instance['ports']]. *)
Definition add_ports (app_ports : gset (Z * Z)) (ports : PortMapping)
    : M (gset (Z * Z)) :=
  let diego_port := host_port ports in
  let cont_port := container_port ports in
  let add_diego_port := not_whitelisted diego_port (host_port_whitelist (cfg C)) in
  let add_cont_port :=
    not_whitelisted cont_port (container_port_whitelist (cfg C)) in
  app_ports <-
    (if add_diego_port && add_cont_port then
       log DEBUG "Found application at %s:%d with container port %d" ;;
       ret (app_ports ∪ {[ (diego_port, cont_port) ]})
     else ret app_ports) ;;
  let diego_tls_port := host_tls_proxy_port ports in
  let cont_tls_port := container_tls_proxy_port ports in
  match diego_tls_port, cont_tls_port with
  | Some dp, Some cp =>
      if not_whitelisted dp (host_port_whitelist (cfg C)) &&
         not_whitelisted cp (container_port_whitelist (cfg C))
      then
        log DEBUG "Found application at %s:%d with tls container port %d" ;;
        ret (app_ports ∪ {[ (dp, cp) ]})
      else ret app_ports
  | _, _ => ret app_ports
  end.

(** [g[i]] on the output of [group_lines_by_hanging_indent] *)
Definition grouping_item (g : grouping) (i : nat) : M grouping :=
  match g with
  | GGroup l =>
      match nth_error l i with
      | Some x => ret x
      | None => raise IndexError
      end
  | GLine s =>
      match String.get i s with
      | Some c => ret (GLine (String c ""))
      | None => raise IndexError
      end
  end.

(** The lookup of the virtual network interface of a container. *)
Definition find_virtual_interface (diego_id cont_ip : string)
    : M (option string) :=
  res <- call (RunCmdOnDiegoCell diego_id (Cmd "ip a") None)
              (fun h => run_cmd_on_diego_cell C h diego_id (Cmd "ip a")) ;;
  let stdout := group_lines_by_hanging_indent C res.1.2 in
  let index := find_string_in_grouping C stdout
                 (py_replace_char "." "\." cont_ip) in
  match index with
  | [] =>
      log WARNING "Could not find virtual interface!" ;;
      ret None
  | i0 :: _ =>
      group <- grouping_item stdout i0 ;;
      parent <- grouping_item group 0 ;;
      match parent with
      | GGroup _ => raise TypeError
      | GLine diego_vi =>
          match re_match_interface C diego_vi with
          | None => raise AssertionError
          | Some vi =>
              log DEBUG "Hosting diego-cell Virtual Interface: %s" ;;
              ret (Some vi)
          end
      end
  end.

(** The lookup of the container GUID in the log of the rep component. *)
Definition find_container_id (diego_id cont_ip : string) : M (option json) :=
  let cmd := "sudo cat /var/vcap/sys/log/rep/rep.stdout.log | grep " +:+
             cont_ip +:+ " | tail -n 1" in
  res <- call (RunCmdOnDiegoCell diego_id (Cmd cmd) None)
              (fun h => run_cmd_on_diego_cell C h diego_id (Cmd cmd)) ;;
  let rcode := res.1.1 in
  let stdout := res.1.2 in
  if truthy rcode then
    log ERROR "Failed retrieving container GUID from %s." ;;
    ret None
  else
    match extract_json C stdout with
    | [] => raise IndexError
    | obj :: _ =>
        match assoc_get "data" obj with
        | None => raise KeyError
        | Some (JObj data) =>
            match assoc_get "container-guid" data with
            | None => raise KeyError
            | Some cont_id =>
                log DEBUG "Hosting container GUID: %s." ;;
                ret (Some cont_id)
            end
        | Some _ => raise TypeError
        end
    end.

(** [find_application_instances]; the result is [None] when bosh reports
    nothing. *)
Definition find_application_instances (app_guid : option string)
    : M (option (list AppInstance)) :=
  raw_apps <- call BoshGetApps (get_apps C) ;;
  match raw_apps with
  | [] =>
      log WARNING "No application instances found for %s." ;;
      ret None
  | _ =>
      instances <- for_acc raw_apps [] (fun instances instance =>
        if negb (bool_decide (Some (raw_app_guid instance) = app_guid)) then
          ret instances
        else if negb (String.eqb (raw_state instance) "RUNNING") then
          ret instances
        else
          let diego_ip := raw_address instance in
          let cont_ip := raw_instance_address instance in
          let diego_id := "diego_cell/" +:+ raw_cell_id instance in
          app_ports <- for_acc (raw_ports instance) ∅ add_ports ;;
          diego_vi <- find_virtual_interface diego_id cont_ip ;;
          cont_id <- find_container_id diego_id cont_ip ;;
          let app_instance :=
            {| diego_id := diego_id; diego_ip := diego_ip; cont_id := cont_id;
               cont_ip := cont_ip; app_ports := app_ports;
               diego_vi := diego_vi |} in
          log INFO "Found instance: %s" ;;
          ret (instances ++ [app_instance])) ;;
      ret (Some instances)
  end.

(** [json_objs.remove(obj)] for the [obj] found at index [pos]: the first
    item that is [obj] itself or equal to it goes. *)
Fixpoint list_remove (pos : nat) (obj : pydict) (l : list pydict)
    : option (list pydict) :=
  match l with
  | [] => None
  | x :: rest =>
      if (pos =? 0)%nat || dict_eqb x obj then Some rest
      else cons x <$> list_remove (Nat.pred pos) obj rest
  end.

(** The loop [for obj in json_objs: if 'VCAP_SERVICES' not in obj:
    json_objs.remove(obj)].  The iterator of a list keeps an index into the
    list as it is at each step; [fuel] bounds the steps. *)
Fixpoint discard_loop (fuel index : nat) (json_objs : list pydict)
    : M (list pydict) :=
  match fuel with
  | O => ret json_objs
  | S fuel' =>
      match nth_error json_objs index with
      | None => ret json_objs
      | Some obj =>
          if negb (dict_has "VCAP_SERVICES" obj) then
            match list_remove index obj json_objs with
            | Some json_objs' => discard_loop fuel' (S index) json_objs'
            | None => raise ValueError
            end
          else discard_loop fuel' (S index) json_objs
      end
  end.

(** [for x in j] *)
Definition json_iter (j : json) : M (list json) :=
  match j with
  | JArr l => ret l
  | JObj kvs => ret (map (fun kv => JStr kv.1) kvs)
  | JStr s => ret (map (fun c => JStr (String c "")) (list_ascii_of_string s))
  | _ => raise TypeError
  end.

(** [find_application_services] *)
Definition find_application_services (appname : string) : M (list Service) :=
  let cmd := cf_cmd (cfg C) +:+ " env " +:+ appname in
  res <- call (RunCmd (Cmd cmd)) (fun h => run_cmd C h (Cmd cmd)) ;;
  let rcode := res.1.1 in
  let stdout := res.1.2 in
  if truthy rcode then
    sys_exit "Failed to query application environment variables."
  else
    let json_objs := extract_json C stdout in
    match json_objs with
    | [] => sys_exit "Error reading output from `cf env`"
    | _ =>
        json_objs <- discard_loop (length json_objs) 0 json_objs ;;
        match json_objs with
        | [obj] =>
            match assoc_get "VCAP_SERVICES" obj with
            | None => raise KeyError
            | Some vservices =>
                log_json DEBUG vservices ;;
                match vservices with
                | JObj items =>
                    for_acc items [] (fun services item =>
                      let sname := item.1 in
                      let sconfig := item.2 in
                      cfgs <- json_iter sconfig ;;
                      for_acc cfgs services (fun services instance_cfg =>
                        match from_service_info C sname instance_cfg with
                        | Some service =>
                            log INFO "Found service: %s" ;;
                            ret (services ++ [service])
                        | None => ret services
                        end))
                | _ => raise AttributeError
                end
            end
        | _ =>
            log INFO "No services found for %s." ;;
            ret []
        end
    end.

End Resolvers.

(** ** class App: construction, discovery and rediscovery

    These methods assign fields of an [App] object, which is a reference
    into the store. *)

Section Discovery.

Context (C : Collaborators).

(** A new object with a new [__dict__] holding [fields]. *)
Definition new_object (fields : App) : M nat :=
  fun st =>
    let o := fresh (dom (obj_dict st)) in
    let d := fresh (dom (dicts st)) in
    (Ret o, {| hist := hist st;
               obj_dict := <[o := d]> (obj_dict st);
               dicts := <[d := fields]> (dicts st) |}).

(** The fields of the object [o]. *)
Definition fields_of (st : State) (o : nat) : option App :=
  d ← obj_dict st !! o; dicts st !! d.

(** Reading the fields of [self]. *)
Definition get_self (self : nat) : M App :=
  fun st =>
    match fields_of st self with
    | Some a => (Ret a, st)
    | None => (Raise ReferenceError, st)
    end.

(** Assigning fields of [self]: the [__dict__] it refers to is updated. *)
Definition set_self (self : nat) (f : App -> App) : M unit :=
  fun st =>
    match obj_dict st !! self with
    | Some d =>
        match dicts st !! d with
        | Some a =>
            (Ret tt, {| hist := hist st; obj_dict := obj_dict st;
                        dicts := <[d := f a]> (dicts st) |})
        | None => (Raise ReferenceError, st)
        end
    | None => (Raise ReferenceError, st)
    end.

(** [App.__init__] *)
Definition App_init (org space appname : string) : M nat :=
  new_object {| org := org; space := space; name := appname; guid := None;
                services := []; instances := Some [] |}.

(** [App.find_guid] *)
Definition find_guid (self : nat) : M string :=
  a <- get_self self ;;
  g <- find_application_guid C (name a) ;;
  set_self self (fun a => {| org := org a; space := space a; name := name a;
                             guid := Some g; services := services a;
                             instances := instances a |}) ;;
  ret g.

(** [App.find_instances] *)
Definition find_instances (self : nat) : M (option (list AppInstance)) :=
  a <- get_self self ;;
  found <- find_application_instances C (guid a) ;;
  set_self self (fun a => {| org := org a; space := space a; name := name a;
                             guid := guid a; services := services a;
                             instances := found |}) ;;
  ret found.

(** [App.find_services] *)
Definition find_services (self : nat) : M (list Service) :=
  a <- get_self self ;;
  found <- find_application_services C (name a) ;;
  set_self self (fun a => {| org := org a; space := space a; name := name a;
                             guid := guid a; services := found;
                             instances := instances a |}) ;;
  ret found.

(** [App.add_custom_service]; [gethostbyname] raises when the host does not
    resolve. *)
Definition add_custom_service (self : nat) (sname host : string)
    (ports : list (string * pyval)) (user password : option string) : M unit :=
  resolved <- call (GetHostByName host) (fun h => gethostbyname C h host) ;;
  match resolved with
  | None => raise OSError
  | Some addr =>
      let hosts := map (fun pp : string * pyval => (addr, pp.1, pp.2)) ports in
      set_self self (fun a =>
        {| org := org a; space := space a; name := name a; guid := guid a;
           services := services a ++
             [{| service_type := "custom"; service_name := sname;
                 service_user := user; service_password := password;
                 service_hosts := hosts |}];
           instances := instances a |})
  end.

(** [App.add_services_from_cfg] *)
Definition add_services_from_cfg (self : nat) : M (list Service) :=
  match cfg_services (cfg C) with
  | None => a <- get_self self ;; ret (services a)
  | Some declared =>
      for_each declared (fun service =>
        add_custom_service self (custom_name service) (custom_host service)
          (custom_ports service) (custom_user service)
          (custom_password service)) ;;
      a <- get_self self ;;
      ret (services a)
  end.

(** [not app.find_instances()]: [None] and the empty list are false. *)
Definition no_instances (found : option (list AppInstance)) : bool :=
  match found with
  | Some (_ :: _) => false
  | _ => true
  end.

(** [App.discover]; the result is the new object, or [None]. *)
Definition discover (org space appname : string) : M (option nat) :=
  rc <- call (CfTarget org space) (fun h => cf_target C h org space) ;;
  if truthy rc then
    log ERROR "Failed to target org %s and space %s!" ;;
    ret None
  else
    app <- App_init org space appname ;;
    add_services_from_cfg app ;;
    g <- find_guid app ;;
    if String.eqb g "" then
      log ERROR "App discovery failed because GUID could not be found!" ;;
      ret None
    else
      found <- find_instances app ;;
      if no_instances found then
        log ERROR
          "App discovery failed because no application instances could be found!" ;;
        ret None
      else
        find_services app ;;
        log INFO "Successfully discovered %s in %s %s." ;;
        a <- get_self app ;;
        j <- serialize C a ;;
        log_json DEBUG j ;;
        ret (Some app).

(** [self.__dict__ = new_app.__dict__] *)
Definition share_dict (self new_app : nat) : M unit :=
  fun st =>
    match obj_dict st !! new_app with
    | Some d =>
        (Ret tt, {| hist := hist st; obj_dict := <[self := d]> (obj_dict st);
                    dicts := dicts st |})
    | None => (Raise ReferenceError, st)
    end.

(** [App.rediscover]; [None] has no [__dict__]. *)
Definition rediscover (self : nat) : M unit :=
  a <- get_self self ;;
  undo_all C a ;;
  a <- get_self self ;;
  new_app <- discover (org a) (space a) (name a) ;;
  match new_app with
  | None => raise AttributeError
  | Some new_app => share_dict self new_app
  end.

End Discovery.

(** ** What the properties speak about *)

Section Observations.

Context (C : Collaborators).

(** The per-instance calls of [App.block] and [App.unblock]. *)
Definition block_calls (direction : string) (ports : Ports)
    (insts : list AppInstance) : list Event :=
  map (fun i => InstBlock i direction ports) insts.

Definition unblock_calls (ports : option Ports) (insts : list AppInstance)
    : list Event :=
  map (fun i => InstUnblock i ports) insts.

Definition unmanipulate_calls (insts : list AppInstance) : list Event :=
  map InstUnmanipulateNetwork insts.

(** The keys of a serialized object, in order. *)
Definition json_keys (j : json) : list string :=
  match j with
  | JObj kvs => map fst kvs
  | _ => []
  end.

(** Reading back a serialized application: the four identity fields and
    the number of serialized services and instances. *)
Definition structural_view (j : json)
    : option (string * string * string * option string * nat * nat) :=
  match j with
  | JObj kvs =>
      match assoc_get "org" kvs, assoc_get "space" kvs, assoc_get "name" kvs,
            assoc_get "guid" kvs, assoc_get "services" kvs,
            assoc_get "instances" kvs with
      | Some (JStr o), Some (JStr s), Some (JStr n), Some g,
        Some (JArr ss), Some (JArr ii) =>
          match g with
          | JStr g => Some (o, s, n, Some g, length ss, length ii)
          | JNull => Some (o, s, n, None, length ss, length ii)
          | _ => None
          end
      | _, _, _, _, _, _ => None
      end
  | _ => None
  end.

(** A service that the service-isolation methods target: its type is not
    whitelisted and it passes the name filter. *)
Definition targeted (names : option (list string)) (s : Service) : bool :=
  negb (type_whitelisted C s) && negb (filtered_out names s).

(** The delete attempts for one host of a service: [TIMES_TO_REMOVE] copies
    of the egress rule, then as many of the ingress rule. *)
Definition delete_attempts (i : AppInstance) (host : string * string * pyval)
    : list string :=
  repeat (egress_rule delete_action i host) (TIMES_TO_REMOVE C) ++
  repeat (ingress_rule delete_action i host) (TIMES_TO_REMOVE C).

(** The batch of [unblock_services] for the instance [i]. *)
Definition delete_batch (self : App) (names : option (list string))
    (i : AppInstance) : list string :=
  flat_map (fun s => flat_map (delete_attempts i) (service_hosts s))
           (List.filter (targeted names) (services self)).

(** The calls of [unblock_services] for the instance [i]: a log line per
    targeted service, then the batch when it is not empty. *)
Definition unblock_services_calls_for (self : App)
    (names : option (list string)) (i : AppInstance) : list Event :=
  map (fun _ => Log INFO "Unblocking %s for %s:%s")
      (List.filter (targeted names) (services self)) ++
  match delete_batch self names i with
  | [] => []
  | cmds => [RunCmdOnDiegoCell (diego_id i) (Cmds cmds) (Some true)]
  end.

Definition unblock_services_calls (self : App) (names : option (list string))
    (insts : list AppInstance) : list Event :=
  flat_map (unblock_services_calls_for self names) insts.

(** The insert rules for one host of a service in a parsed direction. *)
Definition insert_rules (direction : string) (i : AppInstance)
    (host : string * string * pyval) : list string :=
  (if is_egress direction then [egress_rule insert_action i host] else []) ++
  (if is_ingress direction then [ingress_rule insert_action i host] else []).

(** The batch of [block_services] for the instance [i]. *)
Definition insert_batch (self : App) (names : option (list string))
    (direction : string) (i : AppInstance) : list string :=
  flat_map (fun s => flat_map (insert_rules direction i) (service_hosts s))
           (List.filter (targeted names) (services self)).

(** The command strings that a call hands to an executor. *)
Definition commands_of (e : Event) : list string :=
  match e with
  | RunCmd (Cmd c) | RunCmdOnDiegoCell _ (Cmd c) _ | InstRunCmd _ (Cmd c) => [c]
  | RunCmd (Cmds cs) | RunCmdOnDiegoCell _ (Cmds cs) _
  | InstRunCmd _ (Cmds cs) => cs
  | _ => []
  end.

(** [c] is a firewall rule, insert or delete, egress or ingress, built for
    a host of the service [s]. *)
Definition rule_of_service (s : Service) (c : string) : Prop :=
  exists (i : AppInstance) (host : string * string * pyval),
    In host (service_hosts s) /\
    (c = egress_rule insert_action i host \/
     c = ingress_rule insert_action i host \/
     c = egress_rule delete_action i host \/
     c = ingress_rule delete_action i host).

(** Every command handed to an executor by the calls [es] is a rule of a
    service of [self] whose type is not whitelisted. *)
Definition only_unlisted_services (self : App) (es : list Event) : Prop :=
  forall e c, In e es -> In c (commands_of e) ->
    exists s, In s (services self) /\
              (service_type s ∉ service_whitelist (cfg C)) /\
              rule_of_service s c.

(** The application without its services of a whitelisted type. *)
Definition without_whitelisted (self : App) : App :=
  {| org := org self; space := space self; name := name self;
     guid := guid self;
     services := List.filter (fun s => negb (type_whitelisted C s))
                             (services self);
     instances := instances self |}.

(** The calls of [undo_all]. *)
Definition undo_calls (self : App) (insts : list AppInstance) : list Event :=
  unblock_calls None insts ++ unblock_services_calls self None insts ++
  unmanipulate_calls insts.

(** The command of the environment query. *)
Definition show_env (appname : string) : cmd_arg :=
  Cmd (cf_cmd (cfg C) +:+ " env " +:+ appname).

(** ['VCAP_SERVICES' in obj] *)
Definition has_services (obj : pydict) : bool := dict_has "VCAP_SERVICES" obj.

(** No two objects next to each other both lack the services key. *)
Fixpoint lacking_apart (objs : list pydict) : bool :=
  match objs with
  | x :: (y :: _) as rest => (has_services x || has_services y) &&
                             lacking_apart rest
  | _ => true
  end.

(** [raw] is a running copy of the application [app_guid]. *)
Definition is_running_copy (app_guid : option string) (raw : RawInstance)
    : bool :=
  bool_decide (Some (raw_app_guid raw) = app_guid) &&
  String.eqb (raw_state raw) "RUNNING".

(** The port mapping [pm] reports the pair [(h, c)], as its plain pair or
    as its TLS-proxy pair. *)
Definition reports (pm : PortMapping) (h c : Z) : Prop :=
  (host_port pm = h /\ container_port pm = c) \/
  (host_tls_proxy_port pm = Some h /\ container_tls_proxy_port pm = Some c).

(** The body of the loop of [App.block]. *)
Definition block_body (self : App) (direction : string) (ports : Ports)
    (app_instance : AppInstance) : M (option Z) :=
  rcode <- call (InstBlock app_instance direction ports)
                (fun h => instance_block C h app_instance direction ports) ;;
  if truthy rcode then
    unblock self (explicit_ports ports) ;;
    ret (Some rcode)
  else ret None.

(** The body of the loop of [App.block_services]. *)
Definition block_services_body (self : App) (names : option (list string))
    (direction : string) (app_instance : AppInstance) : M (option Z) :=
  cmds <- block_cmds C self names direction app_instance ;;
  match cmds with
  | [] => ret None
  | _ =>
      res <- call (InstRunCmd app_instance (Cmds cmds))
                  (fun h => instance_run_cmd C h app_instance (Cmds cmds)) ;;
      let rcode := res.1.1 in
      if truthy rcode then
        log ERROR "Received return code %d from iptables call." ;;
        unblock_services C self names ;;
        ret (Some rcode)
      else ret None
  end.

(** The search for the PID files of a monit job. *)
Definition find_pid_files (process : string) : cmd_arg :=
  Cmd ("find /var/vcap/sys/run | grep " +:+ process +:+
       " | grep --color=never pid").

(** The describe-app command of GUID resolution. *)
Definition describe_app (appname : string) : cmd_arg :=
  Cmd (cf_cmd (cfg C) +:+ " app " +:+ appname +:+ " --guid").

(** The ports of an instance after one port mapping. *)
Definition with_ports (app_ports : gset (Z * Z)) (pm : PortMapping)
    : gset (Z * Z) :=
  let s1 :=
    if not_whitelisted (host_port pm) (host_port_whitelist (cfg C)) &&
       not_whitelisted (container_port pm) (container_port_whitelist (cfg C))
    then app_ports ∪ {[ (host_port pm, container_port pm) ]}
    else app_ports in
  match host_tls_proxy_port pm, container_tls_proxy_port pm with
  | Some dp, Some tp =>
      if not_whitelisted dp (host_port_whitelist (cfg C)) &&
         not_whitelisted tp (container_port_whitelist (cfg C))
      then s1 ∪ {[ (dp, tp) ]}
      else s1
  | _, _ => s1
  end.

End Observations.

(** ** Assertions on runs *)

(** Started in a state where [P] holds, [m] ends in a state where [Q a]
    holds when it returns [a], and where [E] holds when it raises or
    exits. *)
Definition hoare {A} (P : State -> Prop) (m : M A) (Q : A -> State -> Prop)
    (E : State -> Prop) : Prop :=
  forall st, P st ->
    match m st with
    | (Ret a, st') => Q a st'
    | (_, st') => E st'
    end.

(** [m] keeps [P], however it ends. *)
Definition keeps {A} (P : State -> Prop) (m : M A) : Prop :=
  hoare P m (fun _ => P) P.

(** The object [self] has the fields [a], and the history extends [h0]. *)
Definition holds_fields (self : nat) (a : App) (h0 : history) (st : State)
    : Prop :=
  fields_of st self = Some a /\ exists es, hist st = h0 ++ es.

(** Moreover the object [app] has a [__dict__] of its own. *)
Definition apart_from (self app : nat) (a : App) (h0 : history) (st : State)
    : Prop :=
  (exists ds d, obj_dict st !! self = Some ds /\ dicts st !! ds = Some a /\
                obj_dict st !! app = Some d /\ d ≠ ds) /\
  exists es, hist st = h0 ++ es.

(** ** A small deployment, for examples *)

Definition example_cfg : Config :=
  {| service_whitelist := ["logger"];
     host_port_whitelist := [2222%Z];
     container_port_whitelist := [2222%Z; 61001%Z];
     cf_cmd := "cf";
     cfg_services := None |}.

Definition instance_a : AppInstance :=
  {| diego_id := "diego_cell/a"; diego_ip := "10.1.0.1"; cont_id := None;
     cont_ip := "10.255.0.5"; app_ports := {[ (6100%Z, 8080%Z) ]};
     diego_vi := Some "eth0" |}.

Definition instance_b : AppInstance :=
  {| diego_id := "diego_cell/b"; diego_ip := "10.1.0.2"; cont_id := None;
     cont_ip := "10.255.0.6"; app_ports := {[ (6101%Z, 8080%Z) ]};
     diego_vi := Some "eth1" |}.

Definition mysql : Service :=
  {| service_type := "p-mysql"; service_name := "mysql";
     service_user := Some "u"; service_password := Some "p";
     service_hosts := [("10.9.9.9", "tcp", PInt 3306)] |}.

Definition syslog : Service :=
  {| service_type := "logger"; service_name := "syslog";
     service_user := None; service_password := None;
     service_hosts := [("10.9.9.10", "udp", PStr "all")] |}.

Definition billing : App :=
  {| org := "dev"; space := "staging"; name := "billing";
     guid := Some "abc-123"; services := [mysql; syslog];
     instances := Some [instance_a; instance_b] |}.

(** Collaborators whose answers do not depend on the history:
    [block_rc] for [AppInstance.block], [cf_out] for [util.run_cmd],
    [cell_out] for the two remote executors, [objs] for
    [util.extract_json], [target_rc] for [cf_target] and [apps] for
    [bosh.get_apps]. *)
Definition example_platform (block_rc : AppInstance -> Z)
    (cf_out cell_out : Z * string * string) (objs : list pydict)
    (target_rc : Z) (apps : list RawInstance) : Collaborators :=
  {| cfg := example_cfg;
     TIMES_TO_REMOVE := 3;
     parse_direction := fun d =>
       if String.eqb d "egress" || String.eqb d "ingress" || String.eqb d "both"
       then Some d else None;
     extract_json := fun _ => objs;
     from_service_info := fun _ _ => None;
     group_lines_by_hanging_indent := fun _ => GGroup [];
     find_string_in_grouping := fun _ _ => [];
     re_match_interface := fun _ => None;
     service_serialize := fun s => JObj [("name", JStr (service_name s))];
     instance_serialize := fun i => JObj [("diego_id", JStr (diego_id i))];
     cf_target := fun _ _ _ => target_rc;
     run_cmd := fun _ _ => cf_out;
     run_cmd_on_diego_cell := fun _ _ _ => cell_out;
     get_apps := fun _ => apps;
     gethostbyname := fun _ _ => Some "10.9.9.9"%string;
     instance_block := fun _ i _ _ => block_rc i;
     instance_manipulate_network := fun _ _ _ => 0%Z;
     instance_shape_network := fun _ _ _ _ => 0%Z;
     instance_run_cmd := fun _ _ _ => cell_out |}.

(** The second instance fails to block with code 1. *)
Definition second_fails : Collaborators :=
  example_platform
    (fun i => if String.eqb (diego_id i) "diego_cell/b" then 1%Z else 0%Z)
    (0%Z, ""%string, ""%string) (0%Z, ""%string, ""%string) [] 0%Z [].

(** Every call succeeds with an empty output. *)
Definition all_quiet : Collaborators :=
  example_platform (fun _ => 0%Z)
    (0%Z, ""%string, ""%string) (0%Z, ""%string, ""%string) [] 0%Z [].

Definition empty_state : State :=
  {| hist := []; obj_dict := ∅; dicts := ∅ |}.

(** The [cf] command cannot be run: the shell answers 127 and writes
    nothing on the standard output. *)
Definition cf_missing : Collaborators :=
  example_platform (fun _ => 0%Z)
    (127%Z, ""%string, "sh: 1: cf: not found"%string)
    (0%Z, ""%string, ""%string) [] 0%Z [].

(** The environment query succeeds and its output holds no JSON object. *)
Definition env_without_json : Collaborators :=
  example_platform (fun _ => 0%Z)
    (0%Z, "Getting env variables for app billing... OK"%string, ""%string)
    (0%Z, ""%string, ""%string) [] 0%Z [].

Definition vcap_application : pydict :=
  [("VCAP_APPLICATION", JObj [("application_name", JStr "billing")])].

Definition user_provided : pydict := [("LOG_LEVEL", JStr "debug")].

(** The environment holds one JSON object, without services. *)
Definition env_without_services : Collaborators :=
  example_platform (fun _ => 0%Z)
    (0%Z, "{ VCAP_APPLICATION ... }"%string, ""%string)
    (0%Z, ""%string, ""%string) [vcap_application] 0%Z [].

(** The environment holds two JSON objects, both without services. *)
Definition env_with_two_objects : Collaborators :=
  example_platform (fun _ => 0%Z)
    (0%Z, "{ VCAP_APPLICATION ... } { LOG_LEVEL ... }"%string, ""%string)
    (0%Z, ""%string, ""%string) [vcap_application; user_provided] 0%Z [].

(** Two raw instances: a running copy of the application with a plain
    pair, a pair whose host port is whitelisted, and a TLS-proxy pair whose
    container port is whitelisted; and a crashed copy.  The lookup of the
    container GUID fails on the cell. *)
Definition running_copy : RawInstance :=
  {| raw_app_guid := "abc-123"; raw_state := "RUNNING";
     raw_address := "10.1.0.1"; raw_instance_address := "10.255.0.5";
     raw_cell_id := "a";
     raw_ports :=
       [{| host_port := 6100; container_port := 8080;
           host_tls_proxy_port := Some 61002%Z;
           container_tls_proxy_port := Some 61001%Z |};
        {| host_port := 2222; container_port := 2223;
           host_tls_proxy_port := Some 61003%Z;
           container_tls_proxy_port := None |}] |}.

Definition crashed_copy : RawInstance :=
  {| raw_app_guid := "abc-123"; raw_state := "CRASHED";
     raw_address := "10.1.0.2"; raw_instance_address := "10.255.0.6";
     raw_cell_id := "b"; raw_ports := [] |}.

Definition one_running_copy : Collaborators :=
  example_platform (fun _ => 0%Z)
    (0%Z, "abc-123"%string, ""%string) (1%Z, ""%string, ""%string)
    [vcap_application] 0%Z [running_copy; crashed_copy].

(** The organization cannot be targeted. *)
Definition target_fails : Collaborators :=
  example_platform (fun _ => 0%Z)
    (0%Z, ""%string, ""%string) (0%Z, ""%string, ""%string) [] 1%Z [].

(** A store that holds the application [billing] as the object 0. *)
Definition billing_state : State :=
  {| hist := []; obj_dict := {[ 0 := 0 ]}; dicts := {[ 0 := billing ]} |}.

(** The instance resolved from [running_copy] on [one_running_copy]. *)
Definition resolved_copy : AppInstance :=
  {| diego_id := "diego_cell/a"; diego_ip := "10.1.0.1"; cont_id := None;
     cont_ip := "10.255.0.5"; app_ports := ∅ ∪ {[ (6100%Z, 8080%Z) ]};
     diego_vi := None |}.

(** The search for PID files answers 0 and its output holds nothing but
    the echo of the command by the remote shell. *)
Definition search_finds_nothing : Collaborators :=
  example_platform (fun _ => 0%Z) (0%Z, ""%string, ""%string)
    (0%Z,
     "find /var/vcap/sys/run | grep rep | grep --color=never pid"%string,
     ""%string) [] 0%Z [].

(** The search for PID files finds one file. *)
Definition search_finds_pid : Collaborators :=
  example_platform (fun _ => 0%Z) (0%Z, ""%string, ""%string)
    (0%Z, "/var/vcap/sys/run/rep/rep.pid"%string, ""%string) [] 0%Z [].

(** ** More of class App *)

Section MoreMethods.

Context (C : Collaborators).

(** [App.__len__] *)
Definition App_len (self : App) : M nat :=
  insts <- self_instances self ;;
  ret (length insts).

(** [App.get_services_by_type] *)
Definition get_services_by_type (self : App) (stype : string) : list Service :=
  List.filter (fun s => String.eqb (service_type s) stype) (services self).

(** The per-instance calls of [App.manipulate_network] and
    [App.shape_network]. *)
Definition manipulate_calls (kwargs : list (string * pyval))
    (insts : list AppInstance) : list Event :=
  map (fun i => InstManipulateNetwork i kwargs) insts.

Definition shape_calls (download_limit upload_limit : option Z)
    (insts : list AppInstance) : list Event :=
  map (fun i => InstShapeNetwork i download_limit upload_limit) insts.

(** The calls of [block_services] for an instance whose batch succeeds: a
    log line per targeted service, then the batch when it is not empty. *)
Definition insert_calls_for (self : App)
    (names : option (list string)) (direction : string) (i : AppInstance)
    : list Event :=
  map (fun _ => Log INFO "Blocking %s for %s:%s")
      (List.filter (targeted C names) (services self)) ++
  match insert_batch C self names direction i with
  | [] => []
  | cmds => [InstRunCmd i (Cmds cmds)]
  end.

Definition insert_calls (self : App) (names : option (list string))
    (direction : string) (insts : list AppInstance) : list Event :=
  flat_map (insert_calls_for self names direction) insts.

(** The return code of the batch of [block_services] for the instance [i]
    when the calls [h] were made before the loop reached [i]; an empty
    batch is not sent and counts as 0. *)
Definition batch_code (self : App) (names : option (list string))
    (direction : string) (h : history) (i : AppInstance) : Z :=
  match insert_batch C self names direction i with
  | [] => 0%Z
  | cmds =>
      (instance_run_cmd C
         (h ++ map (fun _ => Log INFO "Blocking %s for %s:%s")
                   (List.filter (targeted C names) (services self)))
         i (Cmds cmds)).1.1
  end.

(** The commands that unmonitor a monit job and kill its processes. *)
Definition kill_cmds (process : string) (pid_files : list string) : cmd_arg :=
  Cmds (("sudo /var/vcap/bosh/bin/monit unmonitor " +:+ process) ::
        map (fun pf => "sudo kill $(cat " +:+ pf +:+ ")") pid_files).

(** The calls of [App.start_monit_process]. *)
Definition start_calls (process : string) (insts : list AppInstance)
    : list Event :=
  map (fun i => InstRunCmd i
                  (Cmd ("sudo /var/vcap/bosh/bin/monit start " +:+ process)))
      insts.

(** The text [s] holds no underscore. *)
Fixpoint no_underscore (s : string) : bool :=
  match s with
  | EmptyString => true
  | String c rest => negb (Ascii.eqb c "_") && no_underscore rest
  end.

(** The debug lines of the loop over the port mappings for one mapping. *)
Definition port_logs (pm : PortMapping) : list Event :=
  (if not_whitelisted (host_port pm) (host_port_whitelist (cfg C)) &&
      not_whitelisted (container_port pm) (container_port_whitelist (cfg C))
   then [Log DEBUG "Found application at %s:%d with container port %d"]
   else []) ++
  match host_tls_proxy_port pm, container_tls_proxy_port pm with
  | Some dp, Some tp =>
      if not_whitelisted dp (host_port_whitelist (cfg C)) &&
         not_whitelisted tp (container_port_whitelist (cfg C))
      then [Log DEBUG "Found application at %s:%d with tls container port %d"]
      else []
  | _, _ => []
  end.

(** The instance resolved from [raw] when neither its virtual interface
    nor its container GUID can be found. *)
Definition bare_instance (raw : RawInstance) : AppInstance :=
  {| diego_id := "diego_cell/" +:+ raw_cell_id raw;
     diego_ip := raw_address raw;
     cont_id := None;
     cont_ip := raw_instance_address raw;
     app_ports := fold_left (with_ports C) (raw_ports raw) ∅;
     diego_vi := None |}.

(** The calls made to resolve [raw] in that case. *)
Definition bare_instance_calls (raw : RawInstance) : list Event :=
  flat_map port_logs (raw_ports raw) ++
  [RunCmdOnDiegoCell ("diego_cell/" +:+ raw_cell_id raw) (Cmd "ip a") None;
   Log WARNING "Could not find virtual interface!";
   RunCmdOnDiegoCell ("diego_cell/" +:+ raw_cell_id raw)
     (Cmd ("sudo cat /var/vcap/sys/log/rep/rep.stdout.log | grep " +:+
           raw_instance_address raw +:+ " | tail -n 1")) None;
   Log ERROR "Failed retrieving container GUID from %s.";
   Log INFO "Found instance: %s"].

(** The elements that [for x in j] goes through, when [j] is iterable. *)
Definition json_elements (j : json) : option (list json) :=
  match j with
  | JArr l => Some l
  | JObj kvs => Some (map (fun kv => JStr kv.1) kvs)
  | JStr s => Some (map (fun c => JStr (String c "")) (list_ascii_of_string s))
  | _ => None
  end.

(** The services described by the items of [VCAP_SERVICES], when the value
    of every item is iterable. *)
Fixpoint bound_services (items : list (string * json))
    : option (list Service) :=
  match items with
  | [] => Some []
  | item :: rest =>
      match json_elements item.2, bound_services rest with
      | Some cfgs, Some others =>
          Some (omap (from_service_info C item.1) cfgs ++ others)
      | _, _ => None
      end
  end.

(** The service that [add_custom_service] builds for a declared service
    whose host resolves to [addr]. *)
Definition custom_service (addr : string) (d : CustomService) : Service :=
  {| service_type := "custom";
     service_name := custom_name d;
     service_user := custom_user d;
     service_password := custom_password d;
     service_hosts :=
       map (fun pp : string * pyval => (addr, pp.1, pp.2)) (custom_ports d) |}.

(** The fields [a] with the services [l]. *)
Definition with_services (a : App) (l : list Service) : App :=
  {| org := org a; space := space a; name := name a; guid := guid a;
     services := l; instances := instances a |}.

(** The name lookups of [add_services_from_cfg]. *)
Definition resolve_calls (declared : list CustomService) : list Event :=
  map (fun d => GetHostByName (custom_host d)) declared.

(** [s] is a service built by [Service.from_service_info]. *)
Definition from_bound_service (s : Service) : Prop :=
  exists sname instance_cfg, from_service_info C sname instance_cfg = Some s.

(** What holds of the result of [App.discover]: nothing of [None]; the
    object returned has the identity asked for, a GUID that is not empty,
    at least one instance, and services built by
    [Service.from_service_info]. *)
Definition discovered (o s n : string) (r : option nat) (st : State) : Prop :=
  match r with
  | None => True
  | Some app =>
      exists g insts svcs,
        fields_of st app =
          Some {| org := o; space := s; name := n; guid := Some g;
                  services := svcs; instances := Some insts |} /\
        g ≠ ""%string /\ insts ≠ [] /\ Forall from_bound_service svcs
  end.

(** The identity of the application [app] is the one given. *)
Definition identified (o s n : string) (app : nat) (st : State) : Prop :=
  exists a, fields_of st app = Some a /\ org a = o /\ space a = s /\ name a = n.

End MoreMethods.

(** ** More of the example deployment *)

(** [base] where the network calls of an instance answer [manip] and
    [shape]. *)
Definition with_network_codes (base : Collaborators)
    (manip shape : AppInstance -> Z) : Collaborators :=
  {| cfg := cfg base;
     TIMES_TO_REMOVE := TIMES_TO_REMOVE base;
     parse_direction := parse_direction base;
     extract_json := extract_json base;
     from_service_info := from_service_info base;
     group_lines_by_hanging_indent := group_lines_by_hanging_indent base;
     find_string_in_grouping := find_string_in_grouping base;
     re_match_interface := re_match_interface base;
     service_serialize := service_serialize base;
     instance_serialize := instance_serialize base;
     cf_target := cf_target base;
     run_cmd := run_cmd base;
     run_cmd_on_diego_cell := run_cmd_on_diego_cell base;
     get_apps := get_apps base;
     gethostbyname := gethostbyname base;
     instance_block := instance_block base;
     instance_manipulate_network := fun _ i _ => manip i;
     instance_shape_network := fun _ i _ _ => shape i;
     instance_run_cmd := instance_run_cmd base |}.

(** [base] where [AppInstance.run_cmd_on_diego_cell] answers [remote]. *)
Definition with_remote_answers (base : Collaborators)
    (remote : AppInstance -> cmd_arg -> Z * string * string) : Collaborators :=
  {| cfg := cfg base;
     TIMES_TO_REMOVE := TIMES_TO_REMOVE base;
     parse_direction := parse_direction base;
     extract_json := extract_json base;
     from_service_info := from_service_info base;
     group_lines_by_hanging_indent := group_lines_by_hanging_indent base;
     find_string_in_grouping := find_string_in_grouping base;
     re_match_interface := re_match_interface base;
     service_serialize := service_serialize base;
     instance_serialize := instance_serialize base;
     cf_target := cf_target base;
     run_cmd := run_cmd base;
     run_cmd_on_diego_cell := run_cmd_on_diego_cell base;
     get_apps := get_apps base;
     gethostbyname := gethostbyname base;
     instance_block := instance_block base;
     instance_manipulate_network := instance_manipulate_network base;
     instance_shape_network := instance_shape_network base;
     instance_run_cmd := fun _ i cmd => remote i cmd |}.

(** [base] with the services [declared] in the configuration, the name
    resolution [resolve], the bound services built by [info] and the
    objects [objs] in the output of the environment query. *)
Definition with_bound_services (base : Collaborators)
    (declared : option (list CustomService))
    (resolve : string -> option string)
    (info : string -> json -> option Service) (objs : list pydict)
    : Collaborators :=
  {| cfg := {| service_whitelist := service_whitelist (cfg base);
              host_port_whitelist := host_port_whitelist (cfg base);
              container_port_whitelist := container_port_whitelist (cfg base);
              cf_cmd := cf_cmd (cfg base);
              cfg_services := declared |};
     TIMES_TO_REMOVE := TIMES_TO_REMOVE base;
     parse_direction := parse_direction base;
     extract_json := fun _ => objs;
     from_service_info := info;
     group_lines_by_hanging_indent := group_lines_by_hanging_indent base;
     find_string_in_grouping := find_string_in_grouping base;
     re_match_interface := re_match_interface base;
     service_serialize := service_serialize base;
     instance_serialize := instance_serialize base;
     cf_target := cf_target base;
     run_cmd := run_cmd base;
     run_cmd_on_diego_cell := run_cmd_on_diego_cell base;
     get_apps := get_apps base;
     gethostbyname := fun _ h => resolve h;
     instance_block := instance_block base;
     instance_manipulate_network := instance_manipulate_network base;
     instance_shape_network := instance_shape_network base;
     instance_run_cmd := instance_run_cmd base |}.

Definition fails_on_b (i : AppInstance) : Z :=
  if String.eqb (diego_id i) "diego_cell/b" then 2%Z else 0%Z.

(** The network calls of the second instance answer 2. *)
Definition network_fails_on_b : Collaborators :=
  with_network_codes all_quiet fails_on_b fails_on_b.

(** The batches sent to the second instance answer 1. *)
Definition batch_fails_on_b : Collaborators :=
  with_remote_answers all_quiet
    (fun i _ => if String.eqb (diego_id i) "diego_cell/b"
                then (1%Z, ""%string, "iptables: Bad rule"%string)
                else (0%Z, ""%string, ""%string)).

(** An application bound to the logger only. *)
Definition logging_only : App :=
  {| org := "dev"; space := "staging"; name := "audit";
     guid := Some "def-456"; services := [syslog];
     instances := Some [instance_a; instance_b] |}.

(** The search finds one PID file; a batch of commands answers 1. *)
Definition kill_fails : Collaborators :=
  with_remote_answers all_quiet
    (fun _ cmd =>
       match cmd with
       | Cmd _ => (0%Z, "/var/vcap/sys/run/rep/rep.pid"%string, ""%string)
       | Cmds _ => (1%Z, ""%string, "kill: No such process"%string)
       end).

(** The describe-app command fails and says so on its standard output. *)
Definition app_missing : Collaborators :=
  example_platform (fun _ => 0%Z)
    (1%Z, "FAILED"%string, "App billing not found"%string)
    (0%Z, ""%string, ""%string) [] 0%Z [].

(** A builder of bound services that reads objects only. *)
Definition service_of_name (sname : string) (instance_cfg : json)
    : option Service :=
  match instance_cfg with
  | JObj kvs =>
      match assoc_get "name" kvs with
      | Some (JStr n) =>
          Some {| service_type := sname; service_name := n;
                  service_user := None; service_password := None;
                  service_hosts := [] |}
      | _ => None
      end
  | _ => None
  end.

Definition bound_items : list (string * json) :=
  [("p-mysql", JArr [JObj [("name", JStr "orders-db")]; JNull]);
   ("p-redis", JArr [JObj [("name", JStr "cache")]])].

Definition vcap_services : pydict := [("VCAP_SERVICES", JObj bound_items)].

Definition orders_db : CustomService :=
  {| custom_name := "orders"; custom_host := "db.internal";
     custom_ports := [("tcp", PInt 5432)];
     custom_user := Some "u"; custom_password := None |}.

Definition cache : CustomService :=
  {| custom_name := "cache"; custom_host := "cache.internal";
     custom_ports := [("tcp", PInt 6379); ("udp", PStr "all")];
     custom_user := None; custom_password := None |}.

(** Two services are bound; the configuration declares two more, whose
    hosts resolve. *)
Definition env_with_services : Collaborators :=
  with_bound_services all_quiet (Some [orders_db; cache])
    (fun _ => Some "10.0.0.7"%string) service_of_name
    [vcap_application; vcap_services].

(** The output of the environment query holds the services object
    twice. *)
Definition env_with_services_twice : Collaborators :=
  with_bound_services all_quiet None (fun _ => Some "10.0.0.7"%string)
    service_of_name [vcap_services; vcap_application; vcap_services].

(** The host of the second declared service does not resolve. *)
Definition cache_unresolved : Collaborators :=
  with_bound_services all_quiet (Some [orders_db; cache])
    (fun h => if String.eqb h "cache.internal" then None
              else Some "10.0.0.7"%string)
    service_of_name [vcap_application].

(** ** Running the monad *)

Lemma emit_nil st : emit [] st = st.
Proof. destruct st; unfold emit; simpl. by rewrite app_nil_r. Qed.

Lemma emit_emit es1 es2 st : emit es2 (emit es1 st) = emit (es1 ++ es2) st.
Proof. unfold emit; simpl. by rewrite app_assoc. Qed.

Lemma hist_emit es st : hist (emit es st) = hist st ++ es.
Proof. reflexivity. Qed.

Lemma bind_ret_run {A B} (m : M A) (k : A -> M B) st a st' :
  m st = (Ret a, st') -> bind m k st = k a st'.
Proof. intros H. unfold bind. by rewrite H. Qed.

Lemma bind_raise_run {A B} (m : M A) (k : A -> M B) st e st' :
  m st = (Raise e, st') -> bind m k st = (Raise e, st').
Proof. intros H. unfold bind. by rewrite H. Qed.

Lemma bind_exit_run {A B} (m : M A) (k : A -> M B) st msg st' :
  m st = (Exit msg, st') -> bind m k st = (Exit msg, st').
Proof. intros H. unfold bind. by rewrite H. Qed.

Lemma bind_call {A B} (e : Event) (answer : history -> A) (k : A -> M B) st :
  bind (call e answer) k st = k (answer (hist st)) (emit [e] st).
Proof. reflexivity. Qed.

Lemma bind_log {B} lvl template (k : unit -> M B) st :
  bind (log lvl template) k st = k tt (emit [Log lvl template] st).
Proof. reflexivity. Qed.

(** A loop whose body is one call that answers nothing. *)
Lemma for_each_calls {A} (l : list A) (e : A -> Event) st :
  for_each l (fun x => call (e x) (fun _ => tt)) st =
  (Ret tt, emit (map e l) st).
Proof.
  revert st. induction l as [|x l IH]; intros st; simpl.
  - by rewrite emit_nil.
  - unfold bind at 1, call at 1. rewrite IH. by rewrite emit_emit.
Qed.

Section AppProperties.

Context (C : Collaborators).

Lemma self_instances_run self insts st :
  instances self = Some insts -> self_instances self st = (Ret insts, st).
Proof. intros H. unfold self_instances. by rewrite H. Qed.

Lemma unblock_run self ports insts st :
  instances self = Some insts ->
  unblock self ports st = (Ret tt, emit (unblock_calls ports insts) st).
Proof.
  intros H. unfold unblock.
  rewrite (bind_ret_run _ _ _ _ _ (self_instances_run _ _ st H)).
  apply for_each_calls.
Qed.

Lemma unmanipulate_network_run self insts st :
  instances self = Some insts ->
  unmanipulate_network self st = (Ret tt, emit (unmanipulate_calls insts) st).
Proof.
  intros H. unfold unmanipulate_network.
  rewrite (bind_ret_run _ _ _ _ _ (self_instances_run _ _ st H)).
  apply for_each_calls.
Qed.

(** *** App.block *)

Lemma truthy_nonzero c : c ≠ 0%Z -> truthy c = true.
Proof. unfold truthy. intros H. apply negb_true_iff, Z.eqb_neq, H. Qed.

Lemma block_body_zero self direction ports i st :
  instance_block C (hist st) i direction ports = 0%Z ->
  block_body C self direction ports i st =
  (Ret None, emit [InstBlock i direction ports] st).
Proof.
  intros H. unfold block_body, bind, call. rewrite H. reflexivity.
Qed.

Lemma block_body_nonzero self direction ports insts i c st :
  instances self = Some insts ->
  instance_block C (hist st) i direction ports = c ->
  c ≠ 0%Z ->
  block_body C self direction ports i st =
  (Ret (Some c),
   emit ([InstBlock i direction ports] ++
         unblock_calls (explicit_ports ports) insts) st).
Proof.
  intros Hinsts H Hc. unfold block_body, bind at 1, call. rewrite H.
  rewrite (truthy_nonzero _ Hc). unfold bind.
  rewrite (unblock_run _ _ _ _ Hinsts). unfold ret. by rewrite emit_emit.
Qed.

Lemma for_in_cons {A R} (x : A) (l : list A) (body : A -> M (option R)) st :
  for_in (x :: l) body st =
  bind (body x) (fun r => match r with
                          | Some v => ret (Some v)
                          | None => for_in l body
                          end) st.
Proof. reflexivity. Qed.

Lemma block_loop_failure self direction ports insts pre ik post c :
  instances self = Some insts ->
  c ≠ 0%Z ->
  forall st,
  (forall p1 j p2, pre = p1 ++ j :: p2 ->
     instance_block C (hist st ++ block_calls direction ports p1)
       j direction ports = 0%Z) ->
  instance_block C (hist st ++ block_calls direction ports pre)
    ik direction ports = c ->
  for_in (pre ++ ik :: post) (block_body C self direction ports) st =
  (Ret (Some c),
   emit (block_calls direction ports pre ++ [InstBlock ik direction ports] ++
         unblock_calls (explicit_ports ports) insts) st).
Proof.
  intros Hinsts Hc. induction pre as [|x pre IH]; intros st Hzero Hk.
  - simpl app. simpl in Hk. rewrite app_nil_r in Hk. rewrite for_in_cons.
    erewrite bind_ret_run; [| by eapply block_body_nonzero].
    reflexivity.
  - simpl app. rewrite for_in_cons.
    pose proof (Hzero [] x pre eq_refl) as H0. simpl in H0.
    rewrite app_nil_r in H0.
    erewrite bind_ret_run; [| by apply block_body_zero].
    rewrite IH.
    + by rewrite emit_emit.
    + intros p1 j p2 ->. rewrite hist_emit, <- app_assoc.
      apply (Hzero (x :: p1) j p2). reflexivity.
    + rewrite hist_emit, <- app_assoc. exact Hk.
Qed.

Lemma block_loop_success self direction ports insts :
  forall st,
  (forall p1 j p2, insts = p1 ++ j :: p2 ->
     instance_block C (hist st ++ block_calls direction ports p1)
       j direction ports = 0%Z) ->
  for_in insts (block_body C self direction ports) st =
  (Ret None, emit (block_calls direction ports insts) st).
Proof.
  induction insts as [|x insts IH]; intros st Hzero.
  - simpl. by rewrite emit_nil.
  - rewrite for_in_cons.
    pose proof (Hzero [] x insts eq_refl) as H0. simpl in H0.
    rewrite app_nil_r in H0.
    erewrite bind_ret_run; [| by apply block_body_zero].
    rewrite IH.
    + by rewrite emit_emit.
    + intros p1 j p2 ->. rewrite hist_emit, <- app_assoc.
      apply (Hzero (x :: p1) j p2). reflexivity.
Qed.

Lemma block_unfold self direction ports insts st :
  instances self = Some insts ->
  block C self direction ports st =
  bind (for_in insts (block_body C self direction ports))
       (fun r => ret (match r with Some rcode => rcode | None => 0%Z end)) st.
Proof.
  intros H. unfold block.
  rewrite (bind_ret_run _ _ _ _ _ (self_instances_run _ _ st H)).
  reflexivity.
Qed.

(** C1. [App.block] visits the instances in order.  When instance [ik] is
    the first to answer a non-zero code [c], the calls made are the blocks
    of the instances up to [ik], then one unblock of every instance of the
    application, with the same ports for a custom collection and with no
    ports for a named policy; no instance after [ik] is blocked and [c] is
    returned.  When every instance answers 0, the instances are blocked, no
    unblock is made and 0 is returned. *)
Theorem block_rolls_back_on_first_failure :
  forall (self : App) (direction : string) (ports : Ports)
         (insts : list AppInstance) (st : State),
    instances self = Some insts ->
    (forall pre ik post c,
        insts = pre ++ ik :: post ->
        (forall p1 j p2, pre = p1 ++ j :: p2 ->
           instance_block C (hist st ++ block_calls direction ports p1)
             j direction ports = 0%Z) ->
        instance_block C (hist st ++ block_calls direction ports pre)
          ik direction ports = c ->
        c ≠ 0%Z ->
        block C self direction ports st =
        (Ret c,
         emit (block_calls direction ports pre ++
               [InstBlock ik direction ports] ++
               unblock_calls
                 (match ports with
                  | PortsCustom _ => Some ports
                  | PortsNamed _ => None
                  end) insts) st)) /\
    ((forall p1 j p2, insts = p1 ++ j :: p2 ->
        instance_block C (hist st ++ block_calls direction ports p1)
          j direction ports = 0%Z) ->
     block C self direction ports st =
     (Ret 0%Z, emit (block_calls direction ports insts) st)).
Proof.
  intros self direction ports insts st Hinsts. split.
  - intros pre ik post c -> Hzero Hk Hc.
    rewrite (block_unfold _ _ _ _ _ Hinsts).
    erewrite bind_ret_run;
      [| apply (block_loop_failure self direction ports _ pre ik post c
                  Hinsts Hc st Hzero Hk)].
    unfold ret, explicit_ports. by destruct ports.
  - intros Hzero. rewrite (block_unfold _ _ _ _ _ Hinsts).
    erewrite bind_ret_run; [| apply (block_loop_success _ _ _ _ st Hzero)].
    reflexivity.
Qed.

(** *** App.shape_network *)

(** C8. With both limits absent, [App.shape_network] returns 0 and leaves
    the state as it is: no call is made to any instance, neither to shape
    nor to undo. *)
Theorem shape_network_without_limits_is_noop :
  forall (self : App) (st : State),
    shape_network C self None None st = (Ret 0%Z, st).
Proof. intros self st. reflexivity. Qed.

(** *** App.serialize *)

(** C9. The serialized application has the keys org, space, name, guid,
    services and instances; reading it back gives the four identity fields
    of the application and the numbers of its services and instances. *)
Theorem serialize_preserves_identity_and_counts :
  forall (self : App) (insts : list AppInstance) (st : State),
    instances self = Some insts ->
    exists j,
      serialize C self st = (Ret j, st) /\
      json_keys j = ["org"; "space"; "name"; "guid"; "services"; "instances"]
      /\ structural_view j =
         Some (org self, space self, name self, guid self,
               length (services self), length insts).
Proof.
  intros self insts st H. unfold serialize.
  rewrite (bind_ret_run _ _ _ _ _ (self_instances_run _ _ st H)).
  eexists. split; [reflexivity|]. split; [reflexivity|].
  simpl. destruct (guid self); by rewrite !length_map.
Qed.

(** *** Service isolation: the batches *)

Lemma append_times_repeat n c cmds :
  append_times n c cmds = cmds ++ repeat c n.
Proof.
  unfold append_times. induction n as [|n IH]; simpl.
  - by rewrite app_nil_r.
  - rewrite IH, <- app_assoc. f_equal. symmetry. apply repeat_cons.
Qed.

Lemma unblock_hosts_spec i s cmds :
  unblock_hosts C i s cmds =
  cmds ++ flat_map (delete_attempts C i) (service_hosts s).
Proof.
  unfold unblock_hosts. generalize (service_hosts s) as hosts.
  intros hosts. revert cmds.
  induction hosts as [|h hosts IH]; intros cmds; simpl.
  - by rewrite app_nil_r.
  - rewrite IH, !append_times_repeat. unfold delete_attempts.
    by rewrite <- !app_assoc.
Qed.

Lemma block_hosts_spec direction i s cmds :
  block_hosts direction i s cmds =
  cmds ++ flat_map (insert_rules direction i) (service_hosts s).
Proof.
  unfold block_hosts. generalize (service_hosts s) as hosts.
  intros hosts. revert cmds.
  induction hosts as [|h hosts IH]; intros cmds; simpl.
  - by rewrite app_nil_r.
  - rewrite IH. unfold insert_rules.
    destruct (is_egress direction), (is_ingress direction); simpl;
      by rewrite <- ?app_assoc, ?app_nil_r.
Qed.

Lemma for_acc_cons {A S} (x : A) (l : list A) (acc : S)
    (body : S -> A -> M S) st :
  for_acc (x :: l) acc body st =
  bind (body acc x) (fun acc' => for_acc l acc' body) st.
Proof. reflexivity. Qed.

Lemma for_each_cons {A} (x : A) (l : list A) (body : A -> M unit) st :
  for_each (x :: l) body st = bind (body x) (fun _ => for_each l body) st.
Proof. reflexivity. Qed.

(** The loop over the services: whitelisted and filtered-out services are
    passed over; a targeted one is logged and its rules are appended. *)
Lemma service_loop_spec (names : option (list string)) (template : string)
    (rules : Service -> list string) (l : list Service) :
  forall (cmds : list string) st,
  for_acc l cmds (fun cmds service =>
    if type_whitelisted C service then ret cmds
    else if filtered_out names service then ret cmds
    else log INFO template ;; ret (cmds ++ rules service)) st =
  (Ret (cmds ++ flat_map rules (List.filter (targeted C names) l)),
   emit (map (fun _ => Log INFO template) (List.filter (targeted C names) l))
        st).
Proof.
  induction l as [|s l IH]; intros cmds st.
  - simpl. by rewrite app_nil_r, emit_nil.
  - rewrite for_acc_cons. cbn [List.filter].
    destruct (type_whitelisted C s) eqn:E1;
      [| destruct (filtered_out names s) eqn:E2].
    + replace (targeted C names s) with false
        by (unfold targeted; by rewrite E1).
      erewrite bind_ret_run by reflexivity. apply IH.
    + replace (targeted C names s) with false
        by (unfold targeted; by rewrite E1, E2).
      erewrite bind_ret_run by reflexivity. apply IH.
    + replace (targeted C names s) with true
        by (unfold targeted; by rewrite E1, E2).
      erewrite bind_ret_run by reflexivity. rewrite IH.
      cbn [flat_map map]. by rewrite emit_emit, <- app_assoc.
Qed.

Lemma for_acc_ext {A S} (l : list A) (body body' : S -> A -> M S) :
  (forall acc x st, body acc x st = body' acc x st) ->
  forall acc st, for_acc l acc body st = for_acc l acc body' st.
Proof.
  intros Hext. induction l as [|x l IH]; intros acc st; [reflexivity|].
  rewrite !for_acc_cons. unfold bind. rewrite Hext.
  destruct (body' acc x st) as [[a| |] st']; auto.
Qed.

Lemma for_in_ext {A R} (l : list A) (body body' : A -> M (option R)) :
  (forall x st, body x st = body' x st) ->
  forall st, for_in l body st = for_in l body' st.
Proof.
  intros Hext. induction l as [|x l IH]; intros st; [reflexivity|].
  rewrite !for_in_cons. unfold bind. rewrite Hext.
  destruct (body' x st) as [[[r|]| |] st']; auto.
Qed.

Lemma for_each_ext {A} (l : list A) (body body' : A -> M unit) :
  (forall x st, body x st = body' x st) ->
  forall st, for_each l body st = for_each l body' st.
Proof.
  intros Hext. induction l as [|x l IH]; intros st; [reflexivity|].
  rewrite !for_each_cons. unfold bind. rewrite Hext.
  destruct (body' x st) as [[a| |] st']; auto.
Qed.

Lemma unblock_cmds_spec self names i st :
  unblock_cmds C self names i st =
  (Ret (delete_batch C self names i),
   emit (map (fun _ => Log INFO "Unblocking %s for %s:%s")
             (List.filter (targeted C names) (services self))) st).
Proof.
  unfold unblock_cmds, delete_batch.
  pose proof (service_loop_spec names "Unblocking %s for %s:%s"
                (fun s => flat_map (delete_attempts C i) (service_hosts s))
                (services self) [] st) as Hloop.
  cbn [app] in Hloop. rewrite <- Hloop.
  apply for_acc_ext. intros acc s st'.
  destruct (type_whitelisted C s), (filtered_out names s); try reflexivity.
  unfold bind, log, ret. by rewrite unblock_hosts_spec.
Qed.

Lemma block_cmds_spec self names direction i st :
  block_cmds C self names direction i st =
  (Ret (insert_batch C self names direction i),
   emit (map (fun _ => Log INFO "Blocking %s for %s:%s")
             (List.filter (targeted C names) (services self))) st).
Proof.
  unfold block_cmds, insert_batch.
  pose proof (service_loop_spec names "Blocking %s for %s:%s"
                (fun s => flat_map (insert_rules direction i) (service_hosts s))
                (services self) [] st) as Hloop.
  cbn [app] in Hloop. rewrite <- Hloop.
  apply for_acc_ext. intros acc s st'.
  destruct (type_whitelisted C s), (filtered_out names s); try reflexivity.
  unfold bind, log, ret. by rewrite block_hosts_spec.
Qed.

(** *** App.unblock_services *)

(** The body of the loop of [App.unblock_services]. *)
Lemma unblock_services_body self names i st :
  bind (unblock_cmds C self names i)
       (fun cmds =>
          match cmds with
          | [] => ret tt
          | _ => call (RunCmdOnDiegoCell (diego_id i) (Cmds cmds) (Some true))
                      (fun _ => tt)
          end) st =
  (Ret tt, emit (unblock_services_calls_for C self names i) st).
Proof.
  erewrite bind_ret_run by apply unblock_cmds_spec.
  unfold unblock_services_calls_for.
  destruct (delete_batch C self names i) as [|c cmds].
  - unfold ret. by rewrite app_nil_r.
  - unfold call. by rewrite emit_emit.
Qed.

Lemma unblock_services_run self names insts st :
  instances self = Some insts ->
  unblock_services C self names st =
  (Ret tt, emit (unblock_services_calls C self names insts) st).
Proof.
  intros H. unfold unblock_services.
  rewrite (bind_ret_run _ _ _ _ _ (self_instances_run _ _ st H)).
  unfold unblock_services_calls. clear H. revert st.
  induction insts as [|i insts IH]; intros st.
  - simpl. by rewrite emit_nil.
  - rewrite for_each_cons.
    erewrite bind_ret_run by apply unblock_services_body.
    rewrite IH. cbn [flat_map]. by rewrite emit_emit.
Qed.

(** C4. [App.unblock_services] makes, for every instance in turn, a log
    line per targeted service and then one batch, when it is not empty: for
    each host of each targeted service, in order, [TIMES_TO_REMOVE] copies
    of the egress delete rule and then [TIMES_TO_REMOVE] copies of the
    ingress delete rule.  Whatever the remote executor answers, every
    instance is visited and the call returns normally. *)
Theorem unblock_services_repeats_each_delete :
  forall (self : App) (names : option (list string))
         (insts : list AppInstance) (st : State),
    instances self = Some insts ->
    unblock_services C self names st =
      (Ret tt,
       emit (flat_map (fun i =>
               map (fun _ => Log INFO "Unblocking %s for %s:%s")
                   (List.filter (targeted C names) (services self)) ++
               match delete_batch C self names i with
               | [] => []
               | cmds =>
                   [RunCmdOnDiegoCell (diego_id i) (Cmds cmds) (Some true)]
               end) insts) st) /\
    (forall i,
        delete_batch C self names i =
        flat_map (fun s =>
          flat_map (fun host =>
            repeat (egress_rule delete_action i host) (TIMES_TO_REMOVE C) ++
            repeat (ingress_rule delete_action i host) (TIMES_TO_REMOVE C))
            (service_hosts s))
          (List.filter (fun s => negb (type_whitelisted C s) &&
                                 negb (filtered_out names s))
                       (services self))).
Proof.
  intros self names insts st H. split.
  - by apply unblock_services_run.
  - intros i. reflexivity.
Qed.

(** *** App.block_services *)

Lemma targeted_not_whitelisted names s :
  targeted C names s = true ->
  service_type s ∉ service_whitelist (cfg C).
Proof.
  unfold targeted, type_whitelisted. intros H.
  apply andb_true_iff in H as [H _]. apply negb_true_iff in H.
  by apply bool_decide_eq_false in H.
Qed.

Lemma insert_batch_provenance self names direction i c :
  In c (insert_batch C self names direction i) ->
  exists s, In s (services self) /\
            (service_type s ∉ service_whitelist (cfg C)) /\
            rule_of_service s c.
Proof.
  unfold insert_batch. intros H.
  apply in_flat_map in H as (s & Hs & H).
  apply filter_In in Hs as [Hs Ht].
  apply in_flat_map in H as (host & Hh & H).
  exists s. split; [exact Hs|]. split; [by eapply targeted_not_whitelisted|].
  exists i, host. split; [exact Hh|].
  unfold insert_rules in H. apply in_app_iff in H as [H|H].
  - destruct (is_egress direction); simpl in H; [|tauto].
    destruct H as [<-|[]]. tauto.
  - destruct (is_ingress direction); simpl in H; [|tauto].
    destruct H as [<-|[]]. tauto.
Qed.

Lemma delete_batch_provenance self names i c :
  In c (delete_batch C self names i) ->
  exists s, In s (services self) /\
            (service_type s ∉ service_whitelist (cfg C)) /\
            rule_of_service s c.
Proof.
  unfold delete_batch. intros H.
  apply in_flat_map in H as (s & Hs & H).
  apply filter_In in Hs as [Hs Ht].
  apply in_flat_map in H as (host & Hh & H).
  exists s. split; [exact Hs|]. split; [by eapply targeted_not_whitelisted|].
  exists i, host. split; [exact Hh|].
  unfold delete_attempts in H. apply in_app_iff in H as [H|H];
    apply repeat_spec in H; tauto.
Qed.

Lemma only_unlisted_nil self : only_unlisted_services C self [].
Proof. intros e c []. Qed.

Lemma only_unlisted_app self es1 es2 :
  only_unlisted_services C self es1 ->
  only_unlisted_services C self es2 ->
  only_unlisted_services C self (es1 ++ es2).
Proof.
  intros H1 H2 e c He Hc. apply in_app_iff in He as [He|He]; eauto.
Qed.

Lemma only_unlisted_logs {A} self (l : list A) lvl template :
  only_unlisted_services C self (map (fun _ => Log lvl template) l).
Proof.
  intros e c He Hc. apply in_map_iff in He as (x & <- & _). destruct Hc.
Qed.

Lemma only_unlisted_unblock_services self names insts :
  only_unlisted_services C self (unblock_services_calls C self names insts).
Proof.
  unfold unblock_services_calls. induction insts as [|i insts IH].
  - apply only_unlisted_nil.
  - cbn [flat_map]. apply only_unlisted_app; [|exact IH].
    unfold unblock_services_calls_for.
    apply only_unlisted_app; [apply only_unlisted_logs|].
    destruct (delete_batch C self names i) as [|c0 cmds] eqn:E.
    + apply only_unlisted_nil.
    + intros e c [<-|[]] Hc. change (In c (c0 :: cmds)) in Hc.
      rewrite <- E in Hc.
      by eapply delete_batch_provenance.
Qed.

Lemma block_services_body_run self names direction insts i st :
  instances self = Some insts ->
  exists r es,
    block_services_body C self names direction i st = (Ret r, emit es st) /\
    only_unlisted_services C self es.
Proof.
  intros Hinsts. unfold block_services_body.
  erewrite bind_ret_run by apply block_cmds_spec.
  destruct (insert_batch C self names direction i) as [|c0 cmds] eqn:E.
  - eexists _, _. split; [reflexivity|]. apply only_unlisted_logs.
  - unfold bind at 1, call at 1. cbv zeta.
    assert (only_unlisted_services C self
              [InstRunCmd i (Cmds (c0 :: cmds))]) as Hrun.
    { intros e c [<-|[]] Hc. change (In c (c0 :: cmds)) in Hc.
      rewrite <- E in Hc.
      by eapply insert_batch_provenance. }
    destruct (truthy _).
    + unfold bind at 1, log at 1. unfold bind at 1.
      rewrite (unblock_services_run _ _ _ _ Hinsts). unfold ret.
      rewrite !emit_emit. eexists _, _. split; [reflexivity|].
      repeat apply only_unlisted_app; auto using only_unlisted_logs.
      * intros e c [<-|[]] [].
      * apply only_unlisted_unblock_services.
    + unfold ret. rewrite emit_emit. eexists _, _. split; [reflexivity|].
      apply only_unlisted_app; auto using only_unlisted_logs.
Qed.

Lemma block_services_loop_run self names direction insts l :
  instances self = Some insts ->
  forall st, exists r es,
    for_in l (block_services_body C self names direction) st =
      (Ret r, emit es st) /\
    only_unlisted_services C self es.
Proof.
  intros Hinsts. induction l as [|i l IH]; intros st.
  - exists None, []. split; [simpl; by rewrite emit_nil|].
    apply only_unlisted_nil.
  - rewrite for_in_cons.
    destruct (block_services_body_run self names direction insts i st Hinsts)
      as (r & es & Hrun & Hes).
    erewrite bind_ret_run by exact Hrun. destruct r as [rcode|].
    + exists (Some rcode), es. split; [reflexivity|exact Hes].
    + destruct (IH (emit es st)) as (r' & es' & Hrun' & Hes').
      exists r', (es ++ es'). split.
      * rewrite Hrun'. by rewrite emit_emit.
      * by apply only_unlisted_app.
Qed.

Lemma block_services_calls self names direction st :
  exists es,
    (block_services C self names direction st).2 = emit es st /\
    only_unlisted_services C self es.
Proof.
  unfold block_services. cbv zeta.
  destruct (match parse_direction C direction with
            | Some d => negb (String.eqb d "")
            | None => false
            end).
  2:{ exists []. split; [simpl; by rewrite emit_nil|apply only_unlisted_nil]. }
  unfold py_assert. erewrite bind_ret_run by reflexivity.
  destruct (instances self) as [insts|] eqn:Hinsts.
  2:{ exists []. unfold self_instances, bind. rewrite Hinsts. simpl.
      split; [by rewrite emit_nil|apply only_unlisted_nil]. }
  rewrite (bind_ret_run _ _ _ _ _ (self_instances_run _ _ st Hinsts)).
  destruct (block_services_loop_run self names
              (default ""%string (parse_direction C direction)) insts insts
              Hinsts st) as (r & es & Hrun & Hes).
  exists es. split; [|exact Hes].
  unfold block_services_body in Hrun.
  erewrite bind_ret_run by exact Hrun. reflexivity.
Qed.

Lemma unblock_services_calls_only_unlisted self names st :
  exists es,
    (unblock_services C self names st).2 = emit es st /\
    only_unlisted_services C self es.
Proof.
  destruct (instances self) as [insts|] eqn:Hinsts.
  - exists (unblock_services_calls C self names insts).
    rewrite (unblock_services_run _ _ _ _ Hinsts).
    split; [reflexivity|apply only_unlisted_unblock_services].
  - exists []. unfold unblock_services, self_instances, bind.
    rewrite Hinsts. simpl.
    split; [by rewrite emit_nil|apply only_unlisted_nil].
Qed.

(** Services of a whitelisted type have no effect on service isolation. *)

Lemma targeted_filter names l :
  List.filter (targeted C names)
    (List.filter (fun s => negb (type_whitelisted C s)) l) =
  List.filter (targeted C names) l.
Proof.
  induction l as [|s l IH]; [reflexivity|]. cbn [List.filter].
  unfold targeted at 2. destruct (type_whitelisted C s) eqn:E; simpl.
  - exact IH.
  - unfold targeted at 1. rewrite E. simpl.
    destruct (filtered_out names s); simpl; by rewrite IH.
Qed.

Lemma delete_batch_erasure self names i :
  delete_batch C (without_whitelisted C self) names i =
  delete_batch C self names i.
Proof. unfold delete_batch. simpl. by rewrite targeted_filter. Qed.

Lemma insert_batch_erasure self names direction i :
  insert_batch C (without_whitelisted C self) names direction i =
  insert_batch C self names direction i.
Proof. unfold insert_batch. simpl. by rewrite targeted_filter. Qed.

Lemma unblock_services_calls_erasure self names insts :
  unblock_services_calls C (without_whitelisted C self) names insts =
  unblock_services_calls C self names insts.
Proof.
  induction insts as [|i insts IH]; [reflexivity|].
  unfold unblock_services_calls in *. cbn [flat_map]. rewrite IH. f_equal.
  unfold unblock_services_calls_for. rewrite delete_batch_erasure.
  simpl services. by rewrite targeted_filter.
Qed.

Lemma unblock_services_erasure self names st :
  unblock_services C self names st =
  unblock_services C (without_whitelisted C self) names st.
Proof.
  destruct (instances self) as [insts|] eqn:Hinsts.
  - rewrite (unblock_services_run self names insts st Hinsts).
    rewrite (unblock_services_run (without_whitelisted C self) names insts st
               Hinsts).
    by rewrite unblock_services_calls_erasure.
  - assert (self_instances self st = (Raise TypeError, st)) as Hr
      by (unfold self_instances; by rewrite Hinsts).
    unfold unblock_services. rewrite (bind_raise_run _ _ _ _ _ Hr).
    symmetry. apply bind_raise_run. exact Hr.
Qed.

Lemma block_services_body_erasure self names direction i st :
  block_services_body C self names direction i st =
  block_services_body C (without_whitelisted C self) names direction i st.
Proof.
  unfold block_services_body.
  erewrite bind_ret_run by apply block_cmds_spec.
  erewrite (bind_ret_run (block_cmds C (without_whitelisted C self) _ _ _))
    by apply block_cmds_spec.
  rewrite insert_batch_erasure. simpl services. rewrite targeted_filter.
  destruct (insert_batch C self names direction i) as [|c0 cmds];
    [reflexivity|].
  rewrite !bind_call. cbv zeta. destruct (truthy _); [|reflexivity].
  rewrite !bind_log. unfold bind.
  by rewrite <- unblock_services_erasure.
Qed.

Lemma block_services_unfold self names direction st :
  block_services C self names direction st =
  bind (py_assert (match parse_direction C direction with
                   | Some d => negb (String.eqb d "")
                   | None => false
                   end))
    (fun _ =>
       bind (self_instances self)
         (fun insts =>
            bind (for_in insts
                    (block_services_body C self names
                       (default ""%string (parse_direction C direction))))
              (fun r => ret (match r with
                             | Some rcode => rcode
                             | None => 0%Z
                             end)))) st.
Proof. reflexivity. Qed.

Lemma block_services_erasure self names direction st :
  block_services C self names direction st =
  block_services C (without_whitelisted C self) names direction st.
Proof.
  rewrite !block_services_unfold.
  change (self_instances (without_whitelisted C self))
    with (self_instances self).
  unfold bind.
  destruct (py_assert _ st) as [[[]| |] st0]; try reflexivity.
  destruct (self_instances self st0) as [[insts| |] st1]; try reflexivity.
  by rewrite (for_in_ext insts _ _
                (block_services_body_erasure self names
                   (default ""%string (parse_direction C direction))) st1).
Qed.

(** C2. Whatever the name filter and the direction, every command that
    [App.block_services] hands to an executor, the deletes of its rollback
    included, is a rule built for a service of the application whose type
    is not in the service whitelist, and so is every command of
    [App.unblock_services].  Both methods behave exactly as on the
    application without its services of a whitelisted type. *)
Theorem whitelisted_services_are_never_targeted :
  forall (self : App) (names : option (list string)) (direction : string)
         (st : State),
    (exists es,
        (block_services C self names direction st).2 = emit es st /\
        forall e c, In e es -> In c (commands_of e) ->
          exists s, In s (services self) /\
                    (service_type s ∉ service_whitelist (cfg C)) /\
                    rule_of_service s c) /\
    (exists es,
        (unblock_services C self names st).2 = emit es st /\
        forall e c, In e es -> In c (commands_of e) ->
          exists s, In s (services self) /\
                    (service_type s ∉ service_whitelist (cfg C)) /\
                    rule_of_service s c) /\
    block_services C self names direction st =
      block_services C (without_whitelisted C self) names direction st /\
    unblock_services C self names st =
      unblock_services C (without_whitelisted C self) names st.
Proof.
  intros self names direction st. repeat split.
  - apply block_services_calls.
  - apply unblock_services_calls_only_unlisted.
  - apply block_services_erasure.
  - apply unblock_services_erasure.
Qed.

(** *** App.kill_monit_process *)

(** When the search finds no PID file on the first instance, no unmonitor
    and no kill command is sent, an error is logged, and the value returned
    is the return code of the search. *)
Lemma kill_monit_process_no_pid_file self process i rest st :
  instances self = Some (i :: rest) ->
  pid_files_of (instance_run_cmd C (hist st) i (find_pid_files process)).1.2
    = [] ->
  kill_monit_process C self process st =
  (Ret (Some (instance_run_cmd C (hist st) i (find_pid_files process)).1.1),
   emit [InstRunCmd i (find_pid_files process);
         Log ERROR "Encountered error when discovering monit process."] st).
Proof.
  intros Hinsts Hpid. unfold kill_monit_process.
  rewrite (bind_ret_run _ _ _ _ _ (self_instances_run _ _ st Hinsts)).
  rewrite for_in_cons. fold (find_pid_files process).
  unfold bind at 1. rewrite bind_call. cbv zeta. rewrite Hpid.
  rewrite bool_decide_eq_true_2 by reflexivity. rewrite orb_true_r.
  rewrite bind_log. unfold ret. by rewrite emit_emit.
Qed.

End AppProperties.

(** ** The resolvers *)

Section ResolverProperties.

Context (C : Collaborators).

(** *** find_application_guid *)

Lemma find_application_guid_unfold appname st :
  appname ≠ ""%string ->
  find_application_guid C appname st =
  (let res := run_cmd C (hist st) (describe_app C appname) in
   match splitlines res.1.2 with
   | [] => raise IndexError
   | guid :: _ =>
       if truthy res.1.1 then
         sys_exit
           ("Failed retrieving the GUID for the specified app. Make sure "
            +:+ appname +:+ " is in this space!")
       else log DEBUG guid ;; ret guid
   end (emit [RunCmd (describe_app C appname)] st)).
Proof.
  intros Hname. unfold find_application_guid.
  assert (String.eqb appname "" = false) as -> by by apply String.eqb_neq.
  reflexivity.
Qed.

(** A failed describe-app with at least one line of output ends the
    process with a message that names the application. *)
Lemma find_application_guid_exits appname st :
  appname ≠ ""%string ->
  (run_cmd C (hist st) (describe_app C appname)).1.1 ≠ 0%Z ->
  splitlines (run_cmd C (hist st) (describe_app C appname)).1.2 ≠ [] ->
  find_application_guid C appname st =
  (Exit ("Failed retrieving the GUID for the specified app. Make sure "
         +:+ appname +:+ " is in this space!"),
   emit [RunCmd (describe_app C appname)] st).
Proof.
  intros Hname Hrc Hout. rewrite find_application_guid_unfold by exact Hname.
  cbv zeta. destruct (splitlines _) as [|guid lines]; [done|].
  by rewrite (truthy_nonzero _ Hrc).
Qed.

(** Without any output the first line is read before the return code is
    looked at: [IndexError], whatever the return code. *)
Lemma find_application_guid_no_output appname st :
  appname ≠ ""%string ->
  (run_cmd C (hist st) (describe_app C appname)).1.2 = ""%string ->
  find_application_guid C appname st =
  (Raise IndexError, emit [RunCmd (describe_app C appname)] st).
Proof.
  intros Hname Hout. rewrite find_application_guid_unfold by exact Hname.
  cbv zeta. by rewrite Hout.
Qed.

(** *** find_application_instances *)

Lemma bind_ret_inv {A B} (m : M A) (k : A -> M B) st b st' :
  bind m k st = (Ret b, st') ->
  exists a st1, m st = (Ret a, st1) /\ k a st1 = (Ret b, st').
Proof.
  unfold bind. destruct (m st) as [[a| |] st1]; intros H;
    [eauto | discriminate | discriminate].
Qed.

Lemma not_whitelisted_spec x whitelist :
  not_whitelisted x whitelist = true <-> x ∉ whitelist.
Proof.
  unfold not_whitelisted. rewrite negb_true_iff. apply bool_decide_eq_false.
Qed.

Lemma not_whitelisted_false x whitelist :
  not_whitelisted x whitelist = false <-> x ∈ whitelist.
Proof.
  unfold not_whitelisted. rewrite negb_false_iff. apply bool_decide_eq_true.
Qed.

Lemma add_ports_run app_ports pm st :
  exists es,
    add_ports C app_ports pm st = (Ret (with_ports C app_ports pm), emit es st).
Proof.
  unfold add_ports, with_ports. cbv zeta.
  destruct (not_whitelisted (host_port pm) _ &&
            not_whitelisted (container_port pm) _);
    (destruct (host_tls_proxy_port pm) as [dp|];
       [destruct (container_tls_proxy_port pm) as [tp|]|]);
    try destruct (not_whitelisted dp _ && not_whitelisted tp _);
    unfold bind, log, ret; cbv iota beta; rewrite ?emit_emit;
    first [ by eexists | exists []; by rewrite emit_nil ].
Qed.

(** One step of the loop over the port mappings: a pair reported by the
    mapping is added when neither side is whitelisted, and only then. *)
Lemma with_ports_spec app_ports pm h c :
  (h, c) ∈ with_ports C app_ports pm <->
  (h, c) ∈ app_ports \/
  (reports pm h c /\ (h ∉ host_port_whitelist (cfg C)) /\
   (c ∉ container_port_whitelist (cfg C))).
Proof.
  unfold with_ports, reports. cbv zeta.
  destruct pm as [hp cp htls ctls]. cbn [host_port container_port
    host_tls_proxy_port container_tls_proxy_port].
  destruct (not_whitelisted hp _) eqn:Eh;
    destruct (not_whitelisted cp _) eqn:Ec; cbn [andb];
    (destruct htls as [dp|]; [destruct ctls as [tp|]|]);
    try (destruct (not_whitelisted dp _) eqn:Edh;
         destruct (not_whitelisted tp _) eqn:Etc; cbn [andb]);
    rewrite ?not_whitelisted_spec, ?not_whitelisted_false in *;
    rewrite ?elem_of_union, ?elem_of_singleton;
    (split; intros H; destruct_or?; destruct_and?; destruct_or?;
       destruct_and?; simplify_eq; tauto).
Qed.

Lemma add_ports_spec app_ports pm st :
  exists app_ports' es,
    add_ports C app_ports pm st = (Ret app_ports', emit es st) /\
    forall h c,
      (h, c) ∈ app_ports' <->
      (h, c) ∈ app_ports \/
      (reports pm h c /\ (h ∉ host_port_whitelist (cfg C)) /\
       (c ∉ container_port_whitelist (cfg C))).
Proof.
  destruct (add_ports_run app_ports pm st) as [es Hrun].
  exists (with_ports C app_ports pm), es. split; [exact Hrun|].
  apply with_ports_spec.
Qed.

Lemma port_loop_spec pms :
  forall app_ports st,
  exists app_ports' es,
    for_acc pms app_ports (add_ports C) st = (Ret app_ports', emit es st) /\
    forall h c,
      (h, c) ∈ app_ports' <->
      (h, c) ∈ app_ports \/
      ((exists pm, In pm pms /\ reports pm h c) /\
       (h ∉ host_port_whitelist (cfg C)) /\
       (c ∉ container_port_whitelist (cfg C))).
Proof.
  induction pms as [|pm pms IH]; intros app_ports st.
  - exists app_ports, []. split; [simpl; by rewrite emit_nil|].
    intros h c. split; [tauto|]. intros [H|[[pm [[] _]] _]]. exact H.
  - destruct (add_ports_spec app_ports pm st) as (s1 & es1 & Hrun1 & Hs1).
    destruct (IH s1 (emit es1 st)) as (s2 & es2 & Hrun2 & Hs2).
    exists s2, (es1 ++ es2). split.
    + rewrite for_acc_cons. erewrite bind_ret_run by exact Hrun1.
      rewrite Hrun2. by rewrite emit_emit.
    + intros h c. rewrite Hs2, Hs1. split.
      * intros [[H|(Hr & Hh & Hc)]|((pm' & Hin & Hr) & Hh & Hc)]; auto.
        -- right. split; [|auto]. exists pm. split; [by left|exact Hr].
        -- right. split; [|auto]. exists pm'. split; [by right|exact Hr].
      * intros [H|((pm' & [->|Hin] & Hr) & Hh & Hc)]; auto.
        right. split; [|auto]. eauto.
Qed.

Lemma for_acc_inv {A S} (I : list A -> S -> Prop) (body : S -> A -> M S) :
  (forall pre x acc st acc' st',
      I pre acc -> body acc x st = (Ret acc', st') -> I (pre ++ [x]) acc') ->
  forall l pre acc st r st',
    I pre acc -> for_acc l acc body st = (Ret r, st') -> I (pre ++ l) r.
Proof.
  intros Hstep. induction l as [|x l IH]; intros pre acc st r st' HI Hrun.
  - simpl in Hrun. inversion Hrun; subst. by rewrite app_nil_r.
  - rewrite for_acc_cons in Hrun.
    apply bind_ret_inv in Hrun as (acc1 & st1 & Hbody & Hrest).
    replace (pre ++ x :: l) with ((pre ++ [x]) ++ l)
      by (by rewrite <- app_assoc).
    eapply IH; [|exact Hrest]. eapply Hstep; eauto.
Qed.

(** C3. Every instance that [find_application_instances] returns comes
    from a running copy of the application, in the order reported, and a
    pair (host port, container port) is in its [app_ports] exactly when some
    port mapping of that copy reports it, as its plain pair or as its
    TLS-proxy pair, and neither the host port is in the host-port whitelist
    nor the container port in the container-port whitelist. *)
Theorem app_ports_exclude_whitelisted_pairs :
  forall (app_guid : option string) (st st' : State)
         (insts : list AppInstance),
    find_application_instances C app_guid st = (Ret (Some insts), st') ->
    Forall2
      (fun raw i =>
         cont_ip i = raw_instance_address raw /\
         diego_ip i = raw_address raw /\
         forall h c,
           (h, c) ∈ app_ports i <->
           (exists pm, In pm (raw_ports raw) /\
              ((host_port pm = h /\ container_port pm = c) \/
               (host_tls_proxy_port pm = Some h /\
                container_tls_proxy_port pm = Some c))) /\
           (h ∉ host_port_whitelist (cfg C)) /\
           (c ∉ container_port_whitelist (cfg C)))
      (List.filter (is_running_copy app_guid) (get_apps C (hist st)))
      insts.
Proof.
  intros app_guid st st' insts Hrun.
  unfold find_application_instances in Hrun. rewrite bind_call in Hrun.
  destruct (get_apps C (hist st)) as [|raw0 raws] eqn:Hraw.
  { rewrite bind_log in Hrun. discriminate Hrun. }
  rewrite <- Hraw in *. clear Hraw raw0 raws.
  apply bind_ret_inv in Hrun as (found & st1 & Hloop & Hret).
  inversion Hret; subst. clear Hret.
  match goal with
  | |- Forall2 ?R _ _ =>
      refine (for_acc_inv
                (fun pre acc =>
                   Forall2 R (List.filter (is_running_copy app_guid) pre) acc)
                _ _ _ [] [] _ _ _ ltac:(constructor) Hloop)
  end.
  clear. intros pre raw acc st acc' st' HI Hbody.
  rewrite List.filter_app. cbn [List.filter]. unfold is_running_copy at 2.
  destruct (bool_decide (Some (raw_app_guid raw) = app_guid)); cbn [negb andb] in *.
  2:{ inversion Hbody; subst. by rewrite app_nil_r. }
  destruct (String.eqb (raw_state raw) "RUNNING"); cbn [negb] in *.
  2:{ inversion Hbody; subst. by rewrite app_nil_r. }
  cbv zeta in Hbody.
  apply bind_ret_inv in Hbody as (ports & st1 & Hports & Hbody).
  apply bind_ret_inv in Hbody as (vi & st2 & _ & Hbody).
  apply bind_ret_inv in Hbody as (cid & st3 & _ & Hbody).
  rewrite bind_log in Hbody. inversion Hbody; subst. clear Hbody.
  apply Forall2_app; [exact HI|]. constructor; [|constructor].
  cbn [cont_ip diego_ip app_ports]. split; [reflexivity|].
  split; [reflexivity|]. intros h c.
  destruct (port_loop_spec (raw_ports raw) ∅ st) as (s & es & Hs & Hiff).
  rewrite Hs in Hports. inversion Hports; subst.
  rewrite Hiff. unfold reports. split.
  - intros [Hempty|H]; [by apply not_elem_of_empty in Hempty|exact H].
  - intros H. right. exact H.
Qed.

(** *** find_application_services *)

Lemma list_remove_length pos obj l l' :
  list_remove pos obj l = Some l' -> length l = S (length l').
Proof.
  revert pos l'. induction l as [|x l IH]; intros pos l' H; [discriminate|].
  simpl in H. destruct ((pos =? 0)%nat || dict_eqb x obj).
  - by inversion H.
  - destruct (list_remove (Nat.pred pos) obj l) as [r|] eqn:E; [|discriminate].
    inversion H; subst. simpl. f_equal. by eapply IH.
Qed.

(** The object at the index of the iterator is always found. *)
Lemma list_remove_found pos obj l :
  nth_error l pos = Some obj -> exists l', list_remove pos obj l = Some l'.
Proof.
  revert pos. induction l as [|x l IH]; intros pos H.
  - by destruct pos.
  - simpl. destruct pos as [|pos]; simpl.
    + eauto.
    + destruct (dict_eqb x obj); [eauto|].
      destruct (IH pos H) as [l' ->]. simpl. eauto.
Qed.

(** The loop ends within its fuel: more fuel changes nothing. *)
Lemma discard_loop_fuel fuel :
  forall index json_objs fuel' st,
    length json_objs <= index + fuel -> fuel <= fuel' ->
    discard_loop fuel' index json_objs st = discard_loop fuel index json_objs st.
Proof.
  induction fuel as [|fuel IH]; intros index l fuel' st Hlen Hle.
  - assert (nth_error l index = None) as Hnone
      by (apply nth_error_None; lia).
    destruct fuel'; simpl; by rewrite ?Hnone.
  - destruct fuel' as [|fuel']; [lia|]. simpl.
    destruct (nth_error l index) as [obj|] eqn:Hobj; [|reflexivity].
    destruct (negb (dict_has "VCAP_SERVICES" obj)).
    + destruct (list_remove index obj l) as [l'|] eqn:Hrm; [|reflexivity].
      apply list_remove_length in Hrm. apply IH; lia.
    + apply IH; lia.
Qed.

(** The loop never raises. *)
Lemma discard_loop_returns fuel :
  forall index json_objs st,
    exists kept, discard_loop fuel index json_objs st = (Ret kept, st).
Proof.
  induction fuel as [|fuel IH]; intros index l st; simpl; [by eexists|].
  destruct (nth_error l index) as [obj|] eqn:Hobj; [|by eexists].
  destruct (negb (dict_has "VCAP_SERVICES" obj)); [|apply IH].
  destruct (list_remove_found _ _ _ Hobj) as [l' ->]. apply IH.
Qed.

(** Equal dictionaries have the same keys. *)
Lemma dict_eqb_has k a b :
  dict_eqb a b = true -> dict_has k a = true -> dict_has k b = true.
Proof.
  unfold dict_eqb. simpl. intros H. apply andb_true_iff in H as [H _].
  revert H. unfold dict_has.
  induction a as [|[k' v] a IH]; intros H Hk; [discriminate|].
  apply andb_true_iff in H as [Hv Ha]. simpl in Hk.
  destruct (String.eqb k k') eqn:E.
  - apply String.eqb_eq in E as ->.
    by destruct (assoc_get k' b).
  - by apply IH.
Qed.

Lemma list_remove_at kept obj rest :
  Forall (fun x => has_services x = true) kept ->
  has_services obj = false ->
  list_remove (length kept) obj (kept ++ obj :: rest) = Some (kept ++ rest).
Proof.
  intros Hkept Hobj. induction Hkept as [|x kept Hx Hkept IH]; simpl.
  - reflexivity.
  - destruct (dict_eqb x obj) eqn:E.
    + pose proof (dict_eqb_has "VCAP_SERVICES" _ _ E Hx) as Hc.
      unfold has_services in Hobj. congruence.
    + by rewrite IH.
Qed.

Lemma nth_error_middle {A} (kept : list A) x rest :
  nth_error (kept ++ x :: rest) (length kept) = Some x.
Proof. induction kept; simpl; auto. Qed.

Lemma length_snoc {A} (l : list A) x : length (l ++ [x]) = S (length l).
Proof. rewrite length_app. simpl. lia. Qed.

(** When no two objects next to each other lack the services key, the loop
    leaves exactly the objects that have it. *)
Lemma discard_loop_spec fuel :
  forall kept rest st,
    Forall (fun x => has_services x = true) kept ->
    lacking_apart rest = true ->
    length rest <= fuel ->
    discard_loop fuel (length kept) (kept ++ rest) st =
    (Ret (kept ++ List.filter has_services rest), st).
Proof.
  induction fuel as [|fuel IH]; intros kept rest st Hkept Hrest Hlen.
  - destruct rest; [reflexivity | simpl in Hlen; lia].
  - destruct rest as [|obj rest].
    { simpl. rewrite app_nil_r.
      assert (nth_error kept (length kept) = None) as ->
        by (apply nth_error_None; lia).
      reflexivity. }
    cbn [discard_loop]. rewrite nth_error_middle.
    fold (has_services obj). cbn [List.filter].
    destruct (has_services obj) eqn:Hobj; cbn [negb].
    + replace (kept ++ obj :: rest) with ((kept ++ [obj]) ++ rest)
        by (by rewrite <- app_assoc).
      rewrite <- length_snoc with (x := obj). rewrite IH.
      * by rewrite <- app_assoc.
      * apply Forall_app. split; [exact Hkept|]. by constructor.
      * simpl in Hrest. destruct rest; [reflexivity|].
        by apply andb_true_iff in Hrest as [_ ?].
      * simpl in Hlen. lia.
    + rewrite list_remove_at by assumption.
      destruct rest as [|y rest].
      { cbn [List.filter]. rewrite !app_nil_r.
        destruct fuel; cbn [discard_loop].
        - reflexivity.
        - assert (nth_error kept (S (length kept)) = None) as ->
            by (apply nth_error_None; lia).
          reflexivity. }
      simpl in Hrest. rewrite Hobj in Hrest. simpl in Hrest.
      apply andb_true_iff in Hrest as [Hy Hrest].
      cbn [List.filter]. rewrite Hy.
      replace (kept ++ y :: rest) with ((kept ++ [y]) ++ rest)
        by (by rewrite <- app_assoc).
      rewrite <- length_snoc with (x := y). rewrite IH.
      * by rewrite <- app_assoc.
      * apply Forall_app. split; [exact Hkept|]. by constructor.
      * destruct rest; [reflexivity|].
        simpl in Hrest. by apply andb_true_iff in Hrest as [_ ?].
      * simpl in Hlen. lia.
Qed.

Lemma find_application_services_unfold appname st :
  find_application_services C appname st =
  (let res := run_cmd C (hist st) (show_env C appname) in
   if truthy res.1.1 then
     sys_exit "Failed to query application environment variables."
   else
     match extract_json C res.1.2 with
     | [] => sys_exit "Error reading output from `cf env`"
     | json_objs =>
         bind (discard_loop (length json_objs) 0 json_objs)
           (fun json_objs =>
              match json_objs with
              | [obj] =>
                  match assoc_get "VCAP_SERVICES" obj with
                  | None => raise KeyError
                  | Some vservices =>
                      log_json DEBUG vservices ;;
                      match vservices with
                      | JObj items =>
                          for_acc items [] (fun services item =>
                            cfgs <- json_iter item.2 ;;
                            for_acc cfgs services
                              (fun services instance_cfg =>
                                 match from_service_info C item.1 instance_cfg
                                 with
                                 | Some service =>
                                     log INFO "Found service: %s" ;;
                                     ret (services ++ [service])
                                 | None => ret services
                                 end))
                      | _ => raise AttributeError
                      end
                  end
              | _ => log INFO "No services found for %s." ;; ret []
              end)
     end) (emit [RunCmd (show_env C appname)] st).
Proof.
  unfold find_application_services. rewrite bind_call. cbv zeta.
  fold (show_env C appname).
  destruct (truthy _); [reflexivity|].
  destruct (extract_json C _); reflexivity.
Qed.

(** A failed environment query ends the process. *)
Lemma find_application_services_query_failure appname st :
  (run_cmd C (hist st) (show_env C appname)).1.1 ≠ 0%Z ->
  find_application_services C appname st =
  (Exit "Failed to query application environment variables.",
   emit [RunCmd (show_env C appname)] st).
Proof.
  intros Hrc. rewrite find_application_services_unfold. cbv zeta.
  by rewrite (truthy_nonzero _ Hrc).
Qed.

(** An output without any JSON object ends the process. *)
Lemma find_application_services_no_json appname st :
  (run_cmd C (hist st) (show_env C appname)).1.1 = 0%Z ->
  extract_json C (run_cmd C (hist st) (show_env C appname)).1.2 = [] ->
  find_application_services C appname st =
  (Exit "Error reading output from `cf env`",
   emit [RunCmd (show_env C appname)] st).
Proof.
  intros Hrc Hobjs. rewrite find_application_services_unfold. cbv zeta.
  by rewrite Hrc, Hobjs.
Qed.

(** Objects without the services key only, none next to another: the
    result is the empty list. *)
Lemma find_application_services_none appname st :
  (run_cmd C (hist st) (show_env C appname)).1.1 = 0%Z ->
  extract_json C (run_cmd C (hist st) (show_env C appname)).1.2 ≠ [] ->
  lacking_apart
    (extract_json C (run_cmd C (hist st) (show_env C appname)).1.2) = true ->
  List.filter has_services
    (extract_json C (run_cmd C (hist st) (show_env C appname)).1.2) = [] ->
  find_application_services C appname st =
  (Ret [],
   emit [RunCmd (show_env C appname); Log INFO "No services found for %s."]
        st).
Proof.
  intros Hrc Hne Hapart Hnone. rewrite find_application_services_unfold.
  cbv zeta. rewrite Hrc. change (truthy 0) with false. cbv iota.
  destruct (extract_json C _) as [|o objs] eqn:E; [done|].
  erewrite bind_ret_run.
  2:{ apply (discard_loop_spec (length (o :: objs)) [] (o :: objs));
        [constructor | exact Hapart | lia]. }
  rewrite Hnone. cbn [app]. rewrite bind_log. unfold ret.
  by rewrite emit_emit.
Qed.

(** C7, amended. A failed environment query ends the process, and so does
    an output in which no JSON object is found.  When no two objects next
    to each other lack the services key, the loop ends within as many steps
    as there are objects and leaves exactly the objects that have the key;
    if moreover at least one object was found and none has the key, the
    result is the empty list. *)
Theorem service_resolution_without_services :
  forall (appname : string) (st : State),
    let res := run_cmd C (hist st) (show_env C appname) in
    let objs := extract_json C res.1.2 in
    (res.1.1 ≠ 0%Z ->
     find_application_services C appname st =
     (Exit "Failed to query application environment variables.",
      emit [RunCmd (show_env C appname)] st)) /\
    (res.1.1 = 0%Z -> objs = [] ->
     find_application_services C appname st =
     (Exit "Error reading output from `cf env`",
      emit [RunCmd (show_env C appname)] st)) /\
    (lacking_apart objs = true ->
     forall fuel st', length objs <= fuel ->
       discard_loop fuel 0 objs st' =
       (Ret (List.filter has_services objs), st')) /\
    (res.1.1 = 0%Z -> objs ≠ [] -> lacking_apart objs = true ->
     List.filter has_services objs = [] ->
     find_application_services C appname st =
     (Ret [],
      emit [RunCmd (show_env C appname); Log INFO "No services found for %s."]
           st)).
Proof.
  intros appname st res objs. repeat split.
  - apply find_application_services_query_failure.
  - apply find_application_services_no_json.
  - intros Hapart fuel st' Hfuel.
    apply (discard_loop_spec fuel [] objs st');
      [constructor | exact Hapart | exact Hfuel].
  - apply find_application_services_none.
Qed.

End ResolverProperties.

(** ** Rediscovery *)

Lemma hoare_bind {A B} P (m : M A) (k : A -> M B) Q R E :
  hoare P m Q E -> (forall a, hoare (Q a) (k a) R E) ->
  hoare P (bind m k) R E.
Proof.
  intros Hm Hk st HP. unfold bind. specialize (Hm st HP).
  destruct (m st) as [[a| |] st']; auto. by apply Hk.
Qed.

Lemma hoare_weaken {A} (P P' : State -> Prop) (m : M A) Q E :
  (forall st, P st -> P' st) -> hoare P' m Q E -> hoare P m Q E.
Proof. intros HPP' Hm st HP. apply Hm. auto. Qed.

Lemma hoare_strengthen {A} P (m : M A) (Q Q' : A -> State -> Prop)
    (E E' : State -> Prop) :
  (forall a st, Q' a st -> Q a st) -> (forall st, E' st -> E st) ->
  hoare P m Q' E' -> hoare P m Q E.
Proof.
  intros HQ HE Hm st HP. specialize (Hm st HP).
  destruct (m st) as [[a| |] st']; auto.
Qed.

Section Keeps.

Context (P : State -> Prop).
Hypothesis P_emit : forall es st, P st -> P (emit es st).

Lemma keeps_ret {A} (a : A) : keeps P (ret a).
Proof. intros st HP. exact HP. Qed.

Lemma keeps_raise {A} e : keeps P (@raise A e).
Proof. intros st HP. exact HP. Qed.

Lemma keeps_exit {A} msg : keeps P (@sys_exit A msg).
Proof. intros st HP. exact HP. Qed.

Lemma keeps_bind {A B} (m : M A) (k : A -> M B) :
  keeps P m -> (forall a, keeps P (k a)) -> keeps P (bind m k).
Proof. intros Hm Hk. eapply hoare_bind; [exact Hm|exact Hk]. Qed.

Lemma keeps_call {A} e (answer : history -> A) : keeps P (call e answer).
Proof. intros st HP. by apply P_emit. Qed.

Lemma keeps_log lvl template : keeps P (log lvl template).
Proof. intros st HP. by apply P_emit. Qed.

Lemma keeps_log_json lvl j : keeps P (log_json lvl j).
Proof. intros st HP. by apply P_emit. Qed.

Lemma keeps_assert b : keeps P (py_assert b).
Proof. destruct b; intros st HP; exact HP. Qed.

Lemma keeps_for_each {A} (l : list A) (body : A -> M unit) :
  (forall x, keeps P (body x)) -> keeps P (for_each l body).
Proof.
  intros Hbody. induction l as [|x l IH]; [apply keeps_ret|].
  simpl. apply keeps_bind; auto.
Qed.

Lemma keeps_for_acc {A S} (l : list A) (body : S -> A -> M S) :
  (forall acc x, keeps P (body acc x)) ->
  forall acc, keeps P (for_acc l acc body).
Proof.
  intros Hbody. induction l as [|x l IH]; intros acc; [apply keeps_ret|].
  simpl. apply keeps_bind; auto.
Qed.

Lemma keeps_for_in {A R} (l : list A) (body : A -> M (option R)) :
  (forall x, keeps P (body x)) -> keeps P (for_in l body).
Proof.
  intros Hbody. induction l as [|x l IH]; [apply keeps_ret|].
  simpl. apply keeps_bind; auto. intros [r|]; [apply keeps_ret|exact IH].
Qed.

Ltac keeps_step :=
  match goal with
  | |- keeps _ (bind _ _) => apply keeps_bind; [|intros ?]
  | |- keeps _ (ret _) => apply keeps_ret
  | |- keeps _ (raise _) => apply keeps_raise
  | |- keeps _ (sys_exit _) => apply keeps_exit
  | |- keeps _ (call _ _) => apply keeps_call
  | |- keeps _ (log _ _) => apply keeps_log
  | |- keeps _ (log_json _ _) => apply keeps_log_json
  | |- keeps _ (py_assert _) => apply keeps_assert
  | |- keeps _ (for_each _ _) => apply keeps_for_each; intros ?
  | |- keeps _ (for_acc _ _ _) => apply keeps_for_acc; intros ? ?
  | |- keeps _ (for_in _ _) => apply keeps_for_in; intros ?
  | |- keeps _ (match ?x with _ => _ end) => destruct x
  | |- keeps _ _ => progress cbv zeta
  end.

Ltac keeps_auto := repeat keeps_step.

Context (C : Collaborators).

Lemma keeps_self_instances self : keeps P (self_instances self).
Proof. unfold self_instances. keeps_auto. Qed.

Lemma keeps_unblock self ports : keeps P (unblock self ports).
Proof. unfold unblock, self_instances. keeps_auto. Qed.

Lemma keeps_unblock_services self names :
  keeps P (unblock_services C self names).
Proof. unfold unblock_services, unblock_cmds, self_instances. keeps_auto. Qed.

Lemma keeps_unmanipulate_network self : keeps P (unmanipulate_network self).
Proof. unfold unmanipulate_network, self_instances. keeps_auto. Qed.

Lemma keeps_undo_all self : keeps P (undo_all C self).
Proof.
  unfold undo_all. keeps_auto;
    auto using keeps_unblock, keeps_unblock_services,
               keeps_unmanipulate_network.
Qed.

Lemma keeps_serialize self : keeps P (serialize C self).
Proof. unfold serialize, self_instances. keeps_auto. Qed.

Lemma keeps_find_application_guid appname :
  keeps P (find_application_guid C appname).
Proof. unfold find_application_guid. keeps_auto. Qed.

Lemma keeps_add_ports app_ports pm : keeps P (add_ports C app_ports pm).
Proof. unfold add_ports. keeps_auto. Qed.

Lemma keeps_find_virtual_interface did ip :
  keeps P (find_virtual_interface C did ip).
Proof. unfold find_virtual_interface, grouping_item. keeps_auto. Qed.

Lemma keeps_find_container_id did ip : keeps P (find_container_id C did ip).
Proof. unfold find_container_id. keeps_auto. Qed.

Lemma keeps_find_application_instances app_guid :
  keeps P (find_application_instances C app_guid).
Proof.
  unfold find_application_instances. keeps_auto;
    auto using keeps_add_ports, keeps_find_virtual_interface,
               keeps_find_container_id.
Qed.

Lemma keeps_discard_loop fuel :
  forall index objs, keeps P (discard_loop fuel index objs).
Proof.
  induction fuel as [|fuel IH]; intros index objs; simpl; keeps_auto; auto.
Qed.

Lemma keeps_find_application_services appname :
  keeps P (find_application_services C appname).
Proof.
  unfold find_application_services, json_iter. keeps_auto;
    auto using keeps_discard_loop.
Qed.

End Keeps.

Section Rediscovery.

Context (C : Collaborators).

Lemma fields_of_Some st o a :
  fields_of st o = Some a <->
  exists d, obj_dict st !! o = Some d /\ dicts st !! d = Some a.
Proof. unfold fields_of. apply bind_Some. Qed.

Lemma holds_fields_emit self a h0 es st :
  holds_fields self a h0 st -> holds_fields self a h0 (emit es st).
Proof.
  intros [Hf [es0 Hh]]. split; [exact Hf|].
  exists (es0 ++ es). simpl. by rewrite Hh, <- app_assoc.
Qed.

Lemma apart_from_emit self app a h0 es st :
  apart_from self app a h0 st -> apart_from self app a h0 (emit es st).
Proof.
  intros [Hs [es0 Hh]]. split; [exact Hs|].
  exists (es0 ++ es). simpl. by rewrite Hh, <- app_assoc.
Qed.

Lemma apart_from_holds self app a h0 st :
  apart_from self app a h0 st -> holds_fields self a h0 st.
Proof.
  intros [(ds & d & Hs & Ha & _) Hh]. split; [|exact Hh].
  apply fields_of_Some. eauto.
Qed.

(** Reading the new object changes nothing. *)
Lemma keeps_get_self (P : State -> Prop) o : keeps P (get_self o).
Proof.
  intros st HP. unfold get_self. by destruct (fields_of st o).
Qed.

(** Assigning a field of the new object leaves [self] as it is. *)
Lemma keeps_set_self self app a h0 f :
  keeps (apart_from self app a h0) (set_self app f).
Proof.
  intros st HP. unfold set_self.
  destruct HP as [(ds & d & Hs & Ha & Hd & Hne) Hh]. rewrite Hd.
  destruct (dicts st !! d) as [b|] eqn:Hb.
  - split; [|exact Hh]. exists ds, d. simpl.
    repeat split; auto. by rewrite lookup_insert_ne.
  - split; [|exact Hh]. exists ds, d. auto.
Qed.

(** A new object is apart from every object of the store. *)
Lemma new_object_apart self a h0 fields :
  hoare (holds_fields self a h0) (new_object fields)
        (fun app => apart_from self app a h0) (holds_fields self a h0).
Proof.
  intros st [Hf Hh]. unfold new_object. cbv zeta. split; [|exact Hh].
  apply fields_of_Some in Hf as (ds & Hs & Ha).
  assert (fresh (dom (obj_dict st)) ≠ self) as Ho.
  { intros <-. apply (is_fresh (dom (obj_dict st))).
    by apply elem_of_dom_2 in Hs. }
  assert (fresh (dom (dicts st)) ≠ ds) as Hd.
  { intros <-. apply (is_fresh (dom (dicts st))).
    by apply elem_of_dom_2 in Ha. }
  exists ds, (fresh (dom (dicts st))). simpl. repeat split.
  - by rewrite lookup_insert_ne.
  - by rewrite lookup_insert_ne.
  - by rewrite lookup_insert_eq.
  - exact Hd.
Qed.

Ltac apart_step :=
  match goal with
  | |- keeps _ (bind _ _) => apply keeps_bind; [|intros ?]
  | |- keeps _ (ret _) => apply keeps_ret
  | |- keeps _ (raise _) => apply keeps_raise
  | |- keeps _ (call _ _) => apply keeps_call; apply apart_from_emit
  | |- keeps _ (log _ _) => apply keeps_log; apply apart_from_emit
  | |- keeps _ (log_json _ _) => apply keeps_log_json; apply apart_from_emit
  | |- keeps _ (get_self _) => apply keeps_get_self
  | |- keeps _ (set_self _ _) => apply keeps_set_self
  | |- keeps _ (for_each _ _) => apply keeps_for_each; intros ?
  | |- keeps _ (match ?x with _ => _ end) => destruct x
  end.

Lemma keeps_find_guid self app a h0 :
  keeps (apart_from self app a h0) (find_guid C app).
Proof.
  unfold find_guid. repeat apart_step.
  apply keeps_find_application_guid. apply apart_from_emit.
Qed.

Lemma keeps_find_instances self app a h0 :
  keeps (apart_from self app a h0) (find_instances C app).
Proof.
  unfold find_instances. repeat apart_step.
  apply keeps_find_application_instances. apply apart_from_emit.
Qed.

Lemma keeps_find_services self app a h0 :
  keeps (apart_from self app a h0) (find_services C app).
Proof.
  unfold find_services. repeat apart_step.
  apply keeps_find_application_services. apply apart_from_emit.
Qed.

Lemma keeps_add_custom_service self app a h0 sname host ports user password :
  keeps (apart_from self app a h0)
        (add_custom_service C app sname host ports user password).
Proof. unfold add_custom_service. repeat apart_step. Qed.

Lemma keeps_add_services_from_cfg self app a h0 :
  keeps (apart_from self app a h0) (add_services_from_cfg C app).
Proof.
  unfold add_services_from_cfg. repeat apart_step.
  apply keeps_add_custom_service.
Qed.

(** Discovery works on an object of its own: however it ends, the fields
    of [self] are what they were. *)
Lemma discover_frame self a h0 o s n :
  keeps (holds_fields self a h0) (discover C o s n).
Proof.
  unfold discover, keeps.
  eapply hoare_bind; [apply keeps_call, holds_fields_emit|]. intros rc.
  destruct (truthy rc).
  { apply keeps_bind; [apply keeps_log, holds_fields_emit|].
    intros _. apply keeps_ret. }
  eapply hoare_bind; [apply new_object_apart|]. intros app.
  apply (hoare_strengthen _ _ _ (fun _ => apart_from self app a h0)
           _ (apart_from self app a h0));
    [intros ? ?; apply apart_from_holds | apply apart_from_holds |].
  match goal with |- hoare _ ?m _ _ => change (keeps (apart_from self app a h0) m) end.
  apply keeps_bind; [apply keeps_add_services_from_cfg|]. intros _.
  apply keeps_bind; [apply keeps_find_guid|]. intros g.
  destruct (String.eqb g ""); [repeat apart_step|].
  apply keeps_bind; [apply keeps_find_instances|]. intros found.
  destruct (no_instances found); [repeat apart_step|].
  apply keeps_bind; [apply keeps_find_services|]. intros _.
  repeat apart_step.
  apply keeps_serialize.
Qed.

Lemma undo_all_run self insts st :
  instances self = Some insts ->
  undo_all C self st = (Ret tt, emit (undo_calls C self insts) st).
Proof.
  intros H. unfold undo_all, undo_calls.
  erewrite bind_ret_run by (by apply unblock_run).
  erewrite bind_ret_run by (by apply unblock_services_run).
  rewrite (unmanipulate_network_run _ _ _ H). by rewrite !emit_emit.
Qed.

(** C10. When the discovery made by [App.rediscover] returns [None], the
    call raises [AttributeError]; the fields of the application are those
    it had before the call, and the calls of [undo_all] on these fields
    have been made. *)
Theorem rediscover_failure_keeps_fields :
  forall (self : nat) (a : App) (insts : list AppInstance) (st st2 : State),
    fields_of st self = Some a ->
    instances a = Some insts ->
    discover C (org a) (space a) (name a) (emit (undo_calls C a insts) st) =
      (Ret None, st2) ->
    rediscover C self st = (Raise AttributeError, st2) /\
    fields_of st2 self = Some a /\
    exists es, hist st2 = hist st ++ undo_calls C a insts ++ es.
Proof.
  intros self a insts st st2 Hf Hinsts Hdisc.
  assert (forall st0, fields_of st0 self = Some a ->
                      get_self self st0 = (Ret a, st0)) as Hget
    by (intros st0 H0; unfold get_self; by rewrite H0).
  split.
  - unfold rediscover.
    erewrite bind_ret_run by (by apply Hget).
    erewrite bind_ret_run by (by apply undo_all_run).
    erewrite bind_ret_run by (by apply Hget).
    erewrite bind_ret_run by exact Hdisc. reflexivity.
  - pose proof (discover_frame self a (hist st ++ undo_calls C a insts)
                  (org a) (space a) (name a)
                  (emit (undo_calls C a insts) st)) as Hframe.
    rewrite Hdisc in Hframe. destruct Hframe as [Hf2 [es Hh]].
    + split; [exact Hf|]. exists []. simpl. by rewrite app_nil_r.
    + split; [exact Hf2|]. exists es. by rewrite Hh, <- app_assoc.
Qed.

End Rediscovery.

(** ** The properties on the example deployment *)

(** C1 on two instances: the second one fails with code 1 under the policy
    ['all']; every instance answers 0 under a custom collection. *)
Lemma block_rolls_back_on_first_failure_witness :
  block second_fails billing "ingress" (PortsNamed "all") empty_state =
    (Ret 1%Z,
     emit [InstBlock instance_a "ingress" (PortsNamed "all");
           InstBlock instance_b "ingress" (PortsNamed "all");
           InstUnblock instance_a None;
           InstUnblock instance_b None] empty_state) /\
  block all_quiet billing "ingress" (PortsCustom [8080%Z]) empty_state =
    (Ret 0%Z,
     emit [InstBlock instance_a "ingress" (PortsCustom [8080%Z]);
           InstBlock instance_b "ingress" (PortsCustom [8080%Z])]
          empty_state).
Proof.
  split.
  - apply (proj1 (block_rolls_back_on_first_failure second_fails billing
                    "ingress" (PortsNamed "all") [instance_a; instance_b]
                    empty_state eq_refl)
             [instance_a] instance_b [] 1%Z eq_refl).
    + intros p1 j p2 E. destruct p1 as [|x p1].
      * injection E as <- _. reflexivity.
      * injection E as _ E. destruct p1; discriminate E.
    + reflexivity.
    + lia.
  - apply (proj2 (block_rolls_back_on_first_failure all_quiet billing
                    "ingress" (PortsCustom [8080%Z]) [instance_a; instance_b]
                    empty_state eq_refl)).
    intros p1 j p2 E. reflexivity.
Defined.

(** The rules of [block_services] in both directions, and the rollback
    with deletes when the batch fails on the first instance. *)
Example block_services_both_directions :
  map commands_of
      (hist (block_services all_quiet billing None "both" empty_state).2) =
  [[];
   ["sudo iptables -I FORWARD 1 -s 10.255.0.5 -d 10.9.9.9 -p tcp --dport 3306 -j DROP";
    "sudo iptables -I FORWARD 1 -d 10.255.0.5 -s 10.9.9.9 -p tcp --sport 3306 -j DROP"];
   [];
   ["sudo iptables -I FORWARD 1 -s 10.255.0.6 -d 10.9.9.9 -p tcp --dport 3306 -j DROP";
    "sudo iptables -I FORWARD 1 -d 10.255.0.6 -s 10.9.9.9 -p tcp --sport 3306 -j DROP"]]%string.
Proof. reflexivity. Qed.

(** C3 on a running copy with a plain pair and pairs that are whitelisted
    on one side. *)
Lemma app_ports_exclude_whitelisted_pairs_witness :
  find_application_instances one_running_copy (Some "abc-123"%string)
    empty_state =
    (Ret (Some [resolved_copy]),
     emit [BoshGetApps;
           Log DEBUG "Found application at %s:%d with container port %d";
           RunCmdOnDiegoCell "diego_cell/a" (Cmd "ip a") None;
           Log WARNING "Could not find virtual interface!";
           RunCmdOnDiegoCell "diego_cell/a"
             (Cmd "sudo cat /var/vcap/sys/log/rep/rep.stdout.log | grep 10.255.0.5 | tail -n 1")
             None;
           Log ERROR "Failed retrieving container GUID from %s.";
           Log INFO "Found instance: %s"] empty_state) /\
  Forall2
    (fun raw i =>
       cont_ip i = raw_instance_address raw /\
       diego_ip i = raw_address raw /\
       forall h c,
         (h, c) ∈ app_ports i <->
         (exists pm, In pm (raw_ports raw) /\
            ((host_port pm = h /\ container_port pm = c) \/
             (host_tls_proxy_port pm = Some h /\
              container_tls_proxy_port pm = Some c))) /\
         (h ∉ [2222%Z]) /\ (c ∉ [2222%Z; 61001%Z]))
    [running_copy] [resolved_copy].
Proof.
  assert (find_application_instances one_running_copy
            (Some "abc-123"%string) empty_state =
          (Ret (Some [resolved_copy]),
           emit [BoshGetApps;
                 Log DEBUG "Found application at %s:%d with container port %d";
                 RunCmdOnDiegoCell "diego_cell/a" (Cmd "ip a") None;
                 Log WARNING "Could not find virtual interface!";
                 RunCmdOnDiegoCell "diego_cell/a"
                   (Cmd "sudo cat /var/vcap/sys/log/rep/rep.stdout.log | grep 10.255.0.5 | tail -n 1")
                   None;
                 Log ERROR "Failed retrieving container GUID from %s.";
                 Log INFO "Found instance: %s"] empty_state)) as Hrun
    by reflexivity.
  split; [exact Hrun|].
  exact (app_ports_exclude_whitelisted_pairs one_running_copy
           (Some "abc-123"%string) empty_state _ _ Hrun).
Defined.

(** C4 on the service [mysql] with [TIMES_TO_REMOVE = 3]. *)
Lemma unblock_services_repeats_each_delete_witness :
  unblock_services all_quiet billing (Some ["mysql"%string]) empty_state =
    (Ret tt,
     emit [Log INFO "Unblocking %s for %s:%s";
           RunCmdOnDiegoCell "diego_cell/a"
             (Cmds (delete_batch all_quiet billing (Some ["mysql"%string])
                      instance_a)) (Some true);
           Log INFO "Unblocking %s for %s:%s";
           RunCmdOnDiegoCell "diego_cell/b"
             (Cmds (delete_batch all_quiet billing (Some ["mysql"%string])
                      instance_b)) (Some true)] empty_state) /\
  delete_batch all_quiet billing (Some ["mysql"%string]) instance_a =
    ["sudo iptables -D FORWARD -s 10.255.0.5 -d 10.9.9.9 -p tcp --dport 3306 -j DROP";
     "sudo iptables -D FORWARD -s 10.255.0.5 -d 10.9.9.9 -p tcp --dport 3306 -j DROP";
     "sudo iptables -D FORWARD -s 10.255.0.5 -d 10.9.9.9 -p tcp --dport 3306 -j DROP";
     "sudo iptables -D FORWARD -d 10.255.0.5 -s 10.9.9.9 -p tcp --sport 3306 -j DROP";
     "sudo iptables -D FORWARD -d 10.255.0.5 -s 10.9.9.9 -p tcp --sport 3306 -j DROP";
     "sudo iptables -D FORWARD -d 10.255.0.5 -s 10.9.9.9 -p tcp --sport 3306 -j DROP"]%string.
Proof.
  destruct (unblock_services_repeats_each_delete all_quiet billing
              (Some ["mysql"%string]) [instance_a; instance_b] empty_state
              eq_refl) as [Hrun Hbatch].
  split.
  - rewrite Hrun. reflexivity.
  - rewrite Hbatch. reflexivity.
Defined.

(** C5. [find_application_guid] when the describe-app command exits with
    127 and prints nothing on its standard output: the first line of the
    output is taken before the exit status is tested, so the call raises
    [IndexError] and [sys.exit] with its message is not reached. *)
Example find_application_guid_failure_without_output :
  find_application_guid cf_missing "billing" empty_state =
  (Raise IndexError, emit [RunCmd (Cmd "cf app billing --guid")] empty_state).
Proof. reflexivity. Qed.

(** C6. [App.kill_monit_process] on an application whose first instance
    answers the search for PID files with code 0 and the echo of the
    command only: no PID file is found, the error is logged, no unmonitor
    or kill command is sent, and the value returned is 0, the value
    returned on success. *)
Example kill_monit_process_no_pid_file_returns_zero :
  kill_monit_process search_finds_nothing billing "rep" empty_state =
  (Ret (Some 0%Z),
   emit [InstRunCmd instance_a
           (Cmd "find /var/vcap/sys/run | grep rep | grep --color=never pid");
         Log ERROR "Encountered error when discovering monit process."]
        empty_state).
Proof. reflexivity. Qed.

(** With a PID file the job is unmonitored and killed on the first
    instance, and 0 is returned as well. *)
Example kill_monit_process_success :
  kill_monit_process search_finds_pid billing "rep" empty_state =
  (Ret (Some 0%Z),
   emit [InstRunCmd instance_a
           (Cmd "find /var/vcap/sys/run | grep rep | grep --color=never pid");
         Log DEBUG "Found pid files %s for %s on %s.";
         InstRunCmd instance_a
           (Cmds ["sudo /var/vcap/bosh/bin/monit unmonitor rep";
                  "sudo kill $(cat /var/vcap/sys/run/rep/rep.pid)"])]
        empty_state).
Proof. reflexivity. Qed.

(** C7, as stated, fails when the environment query succeeds and its
    output holds no JSON object: no object with the services key remains,
    and the call ends the process instead of returning the empty list. *)
Lemma no_json_object_is_fatal :
  (run_cmd env_without_json (hist empty_state)
     (show_env env_without_json "billing")).1.1 = 0%Z /\
  List.filter has_services
    (extract_json env_without_json
       (run_cmd env_without_json (hist empty_state)
          (show_env env_without_json "billing")).1.2) = [] /\
  find_application_services env_without_json "billing" empty_state =
    (Exit "Error reading output from `cf env`",
     emit [RunCmd (Cmd "cf env billing")] empty_state) /\
  (find_application_services env_without_json "billing" empty_state).1
    ≠ Ret [].
Proof. repeat split; try reflexivity. discriminate. Qed.

(** Two objects without the services key next to each other: the loop
    skips the second one, one object remains, and reading its services
    raises [KeyError]. *)
Example second_object_survives :
  discard_loop 2 0 [vcap_application; user_provided] empty_state =
    (Ret [user_provided], empty_state) /\
  find_application_services env_with_two_objects "billing" empty_state =
    (Raise KeyError, emit [RunCmd (Cmd "cf env billing")] empty_state).
Proof. split; reflexivity. Qed.

(** C7, amended, on a failed query, on an output without JSON and on an
    environment without services. *)
Lemma service_resolution_without_services_witness :
  find_application_services cf_missing "billing" empty_state =
    (Exit "Failed to query application environment variables.",
     emit [RunCmd (Cmd "cf env billing")] empty_state) /\
  find_application_services env_without_json "billing" empty_state =
    (Exit "Error reading output from `cf env`",
     emit [RunCmd (Cmd "cf env billing")] empty_state) /\
  discard_loop 1 0 [vcap_application] empty_state =
    (Ret [], empty_state) /\
  find_application_services env_without_services "billing" empty_state =
    (Ret [],
     emit [RunCmd (Cmd "cf env billing"); Log INFO "No services found for %s."]
          empty_state).
Proof.
  split; [| split; [| split]].
  - apply (proj1 (service_resolution_without_services
                    cf_missing "billing" empty_state)).
    simpl. lia.
  - apply (proj1 (proj2 (service_resolution_without_services
                           env_without_json "billing" empty_state)));
      reflexivity.
  - apply (proj1 (proj2 (proj2 (service_resolution_without_services
                                  env_without_services "billing"
                                  empty_state)))).
    + reflexivity.
    + simpl. lia.
  - apply (proj2 (proj2 (proj2 (service_resolution_without_services
                                  env_without_services "billing"
                                  empty_state))));
      [reflexivity | simpl; discriminate | reflexivity | reflexivity].
Defined.

(** With a limit, [shape_network] calls every instance. *)
Example shape_network_with_a_limit :
  shape_network all_quiet billing (Some 100%Z) None empty_state =
  (Ret 0%Z,
   emit [InstShapeNetwork instance_a (Some 100%Z) None;
         InstShapeNetwork instance_b (Some 100%Z) None] empty_state).
Proof. reflexivity. Qed.

(** C9 on the application [billing]. *)
Lemma serialize_preserves_identity_and_counts_witness :
  exists j,
    serialize all_quiet billing empty_state = (Ret j, empty_state) /\
    json_keys j = ["org"; "space"; "name"; "guid"; "services"; "instances"]%string
    /\ structural_view j =
       Some ("dev", "staging", "billing", Some "abc-123", 2, 2)%string.
Proof.
  exact (serialize_preserves_identity_and_counts all_quiet billing
           [instance_a; instance_b] empty_state eq_refl).
Defined.

(** C10 when the organization cannot be targeted. *)
Lemma rediscover_failure_keeps_fields_witness :
  let st2 :=
    emit (undo_calls target_fails billing [instance_a; instance_b] ++
          [CfTarget "dev" "staging";
           Log ERROR "Failed to target org %s and space %s!"]) billing_state in
  rediscover target_fails 0 billing_state = (Raise AttributeError, st2) /\
  fields_of st2 0 = Some billing /\
  exists es,
    hist st2 =
    hist billing_state ++
    undo_calls target_fails billing [instance_a; instance_b] ++ es.
Proof.
  intros st2.
  apply (rediscover_failure_keeps_fields target_fails 0 billing
           [instance_a; instance_b] billing_state st2).
  - reflexivity.
  - reflexivity.
  - reflexivity.
Defined.

(** A discovery that succeeds: the new object holds the GUID, the running
    copy and no service; after [rediscover], [self] shares the [__dict__]
    of the new object. *)
Example rediscover_success :
  let st := (rediscover one_running_copy 0 billing_state).2 in
  (rediscover one_running_copy 0 billing_state).1 = Ret tt /\
  obj_dict st !! 0 = Some 1 /\ obj_dict st !! 1 = Some 1 /\
  fields_of st 0 =
    Some {| org := "dev"; space := "staging"; name := "billing";
            guid := Some "abc-123"%string; services := [];
            instances := Some [resolved_copy] |}.
Proof. vm_compute. repeat split. Qed.

(** ** Further properties of class App *)

(** A loop that asks every element for a return code and, at the first
    non-zero code, undoes and returns the code. *)
Lemma rollback_loop_failure {A} (e : A -> Event) (answer : A -> history -> Z)
    (undo : M unit) (undone : list Event) (pre : list A) (x : A)
    (post : list A) (c : Z) :
  (forall st, undo st = (Ret tt, emit undone st)) ->
  c ≠ 0%Z ->
  forall st,
  (forall p1 j p2, pre = p1 ++ j :: p2 ->
     answer j (hist st ++ map e p1) = 0%Z) ->
  answer x (hist st ++ map e pre) = c ->
  for_in (pre ++ x :: post)
    (fun y => rcode <- call (e y) (answer y) ;;
              if truthy rcode then undo ;; ret (Some rcode) else ret None) st =
  (Ret (Some c), emit (map e pre ++ [e x] ++ undone) st).
Proof.
  intros Hundo Hc. induction pre as [|y pre IH]; intros st Hzero Hx.
  - simpl app. simpl in Hx. rewrite app_nil_r in Hx. rewrite for_in_cons.
    rewrite bind_ret_run with (a := Some c)
                              (st' := emit ([e x] ++ undone) st).
    + reflexivity.
    + rewrite bind_call, Hx, (truthy_nonzero _ Hc). unfold bind.
      rewrite Hundo. unfold ret. by rewrite emit_emit.
  - simpl app. rewrite for_in_cons.
    pose proof (Hzero [] y pre eq_refl) as H0. simpl in H0.
    rewrite app_nil_r in H0.
    rewrite bind_ret_run with (a := None) (st' := emit [e y] st).
    + rewrite IH.
      * by rewrite emit_emit.
      * intros p1 j p2 ->. rewrite hist_emit, <- app_assoc.
        apply (Hzero (y :: p1) j p2). reflexivity.
      * rewrite hist_emit, <- app_assoc. exact Hx.
    + rewrite bind_call, H0. reflexivity.
Qed.

Lemma rollback_loop_success {A} (e : A -> Event) (answer : A -> history -> Z)
    (undo : M unit) (l : list A) :
  forall st,
  (forall p1 j p2, l = p1 ++ j :: p2 ->
     answer j (hist st ++ map e p1) = 0%Z) ->
  for_in l
    (fun y => rcode <- call (e y) (answer y) ;;
              if truthy rcode then undo ;; ret (Some rcode) else ret None) st =
  (Ret None, emit (map e l) st).
Proof.
  induction l as [|y l IH]; intros st Hzero.
  - simpl. by rewrite emit_nil.
  - rewrite for_in_cons.
    pose proof (Hzero [] y l eq_refl) as H0. simpl in H0.
    rewrite app_nil_r in H0.
    rewrite bind_ret_run with (a := None) (st' := emit [e y] st).
    + rewrite IH.
      * by rewrite emit_emit.
      * intros p1 j p2 ->. rewrite hist_emit, <- app_assoc.
        apply (Hzero (y :: p1) j p2). reflexivity.
    + rewrite bind_call, H0. reflexivity.
Qed.

(** A loop whose body either goes on after the calls [calls x], when the
    code of [x] is 0, or leaves with the code after the calls
    [fail_calls x]. *)
Lemma early_exit_loop_failure {A} (body : A -> M (option Z))
    (code : history -> A -> Z) (calls fail_calls : A -> list Event)
    (pre : list A) (x : A) (post : list A) (c : Z) :
  (forall y st, code (hist st) y = 0%Z ->
     body y st = (Ret None, emit (calls y) st)) ->
  (forall y st c, code (hist st) y = c -> c ≠ 0%Z ->
     body y st = (Ret (Some c), emit (fail_calls y) st)) ->
  c ≠ 0%Z ->
  forall st,
  (forall p1 j p2, pre = p1 ++ j :: p2 ->
     code (hist st ++ flat_map calls p1) j = 0%Z) ->
  code (hist st ++ flat_map calls pre) x = c ->
  for_in (pre ++ x :: post) body st =
  (Ret (Some c), emit (flat_map calls pre ++ fail_calls x) st).
Proof.
  intros Hz Hf Hc. induction pre as [|y pre IH]; intros st Hzero Hx.
  - simpl app. simpl in Hx. rewrite app_nil_r in Hx. rewrite for_in_cons.
    rewrite (bind_ret_run _ _ _ _ _ (Hf x st c Hx Hc)). reflexivity.
  - simpl app. rewrite for_in_cons.
    pose proof (Hzero [] y pre eq_refl) as H0. simpl in H0.
    rewrite app_nil_r in H0.
    rewrite (bind_ret_run _ _ _ _ _ (Hz y st H0)).
    rewrite IH.
    + cbn [flat_map]. by rewrite emit_emit, <- app_assoc.
    + intros p1 j p2 ->. rewrite hist_emit, <- app_assoc.
      apply (Hzero (y :: p1) j p2). reflexivity.
    + rewrite hist_emit, <- app_assoc. exact Hx.
Qed.

Lemma early_exit_loop_success {A} (body : A -> M (option Z))
    (code : history -> A -> Z) (calls : A -> list Event) (l : list A) :
  (forall y st, code (hist st) y = 0%Z ->
     body y st = (Ret None, emit (calls y) st)) ->
  forall st,
  (forall p1 j p2, l = p1 ++ j :: p2 ->
     code (hist st ++ flat_map calls p1) j = 0%Z) ->
  for_in l body st = (Ret None, emit (flat_map calls l) st).
Proof.
  intros Hz. induction l as [|y l IH]; intros st Hzero.
  - simpl. by rewrite emit_nil.
  - rewrite for_in_cons.
    pose proof (Hzero [] y l eq_refl) as H0. simpl in H0.
    rewrite app_nil_r in H0.
    rewrite (bind_ret_run _ _ _ _ _ (Hz y st H0)).
    rewrite IH.
    + cbn [flat_map]. by rewrite emit_emit.
    + intros p1 j p2 ->. rewrite hist_emit, <- app_assoc.
      apply (Hzero (y :: p1) j p2). reflexivity.
Qed.

Section MoreAppProperties.

Context (C : Collaborators).

(** *** App.manipulate_network *)

(** X1. [App.manipulate_network] visits the instances in order.  At the
    first instance that answers a non-zero code, the manipulation is undone
    on every instance of the application, no later instance is touched and
    the code is returned; when every instance answers 0 nothing is undone
    and 0 is returned. *)
Theorem manipulate_network_rolls_back_on_first_failure :
  forall (self : App) (kwargs : list (string * pyval))
         (insts : list AppInstance) (st : State),
    instances self = Some insts ->
    (forall pre ik post c,
        insts = pre ++ ik :: post ->
        (forall p1 j p2, pre = p1 ++ j :: p2 ->
           instance_manipulate_network C
             (hist st ++ manipulate_calls kwargs p1) j kwargs = 0%Z) ->
        instance_manipulate_network C
          (hist st ++ manipulate_calls kwargs pre) ik kwargs = c ->
        c ≠ 0%Z ->
        manipulate_network C self kwargs st =
        (Ret c,
         emit (manipulate_calls kwargs pre ++
               [InstManipulateNetwork ik kwargs] ++
               unmanipulate_calls insts) st)) /\
    ((forall p1 j p2, insts = p1 ++ j :: p2 ->
        instance_manipulate_network C
          (hist st ++ manipulate_calls kwargs p1) j kwargs = 0%Z) ->
     manipulate_network C self kwargs st =
     (Ret 0%Z, emit (manipulate_calls kwargs insts) st)).
Proof.
  intros self kwargs insts st Hinsts.
  assert (forall st0, unmanipulate_network self st0 =
                      (Ret tt, emit (unmanipulate_calls insts) st0)) as Hundo
    by (intros; by apply unmanipulate_network_run).
  unfold manipulate_network.
  rewrite (bind_ret_run _ _ _ _ _ (self_instances_run _ _ st Hinsts)).
  split.
  - intros pre ik post c -> Hzero Hk Hc.
    rewrite (bind_ret_run _ _ _ _ _
      (rollback_loop_failure
             (fun i => InstManipulateNetwork i kwargs)
             (fun i h => instance_manipulate_network C h i kwargs)
             (unmanipulate_network self) _
             pre ik post c Hundo Hc st Hzero Hk)).
    reflexivity.
  - intros Hzero.
    rewrite (bind_ret_run _ _ _ _ _
      (rollback_loop_success
             (fun i => InstManipulateNetwork i kwargs)
             (fun i h => instance_manipulate_network C h i kwargs)
             (unmanipulate_network self) insts st Hzero)).
    reflexivity.
Qed.

(** *** App.shape_network *)

(** X2. With a limit that is neither absent nor 0, [App.shape_network]
    shapes the instances in order; at the first non-zero code the network
    manipulation is undone on every instance and the code is returned;
    when every instance answers 0, 0 is returned and nothing is undone. *)
Theorem shape_network_rolls_back_on_first_failure :
  forall (self : App) (download_limit upload_limit : option Z)
         (insts : list AppInstance) (st : State),
    instances self = Some insts ->
    limit_truthy download_limit || limit_truthy upload_limit = true ->
    (forall pre ik post c,
        insts = pre ++ ik :: post ->
        (forall p1 j p2, pre = p1 ++ j :: p2 ->
           instance_shape_network C
             (hist st ++ shape_calls download_limit upload_limit p1)
             j download_limit upload_limit = 0%Z) ->
        instance_shape_network C
          (hist st ++ shape_calls download_limit upload_limit pre)
          ik download_limit upload_limit = c ->
        c ≠ 0%Z ->
        shape_network C self download_limit upload_limit st =
        (Ret c,
         emit (shape_calls download_limit upload_limit pre ++
               [InstShapeNetwork ik download_limit upload_limit] ++
               unmanipulate_calls insts) st)) /\
    ((forall p1 j p2, insts = p1 ++ j :: p2 ->
        instance_shape_network C
          (hist st ++ shape_calls download_limit upload_limit p1)
          j download_limit upload_limit = 0%Z) ->
     shape_network C self download_limit upload_limit st =
     (Ret 0%Z, emit (shape_calls download_limit upload_limit insts) st)).
Proof.
  intros self dl ul insts st Hinsts Hlimit.
  assert (forall st0, unmanipulate_network self st0 =
                      (Ret tt, emit (unmanipulate_calls insts) st0)) as Hundo
    by (intros; by apply unmanipulate_network_run).
  unfold shape_network. rewrite Hlimit. cbn [negb].
  rewrite (bind_ret_run _ _ _ _ _ (self_instances_run _ _ st Hinsts)).
  split.
  - intros pre ik post c -> Hzero Hk Hc.
    rewrite (bind_ret_run _ _ _ _ _
      (rollback_loop_failure
             (fun i => InstShapeNetwork i dl ul)
             (fun i h => instance_shape_network C h i dl ul)
             (unmanipulate_network self) _
             pre ik post c Hundo Hc st Hzero Hk)).
    reflexivity.
  - intros Hzero.
    rewrite (bind_ret_run _ _ _ _ _
      (rollback_loop_success
             (fun i => InstShapeNetwork i dl ul)
             (fun i h => instance_shape_network C h i dl ul)
             (unmanipulate_network self) insts st Hzero)).
    reflexivity.
Qed.

(** *** App.block_services *)

Lemma block_services_body_zero self names direction i st :
  batch_code C self names direction (hist st) i = 0%Z ->
  block_services_body C self names direction i st =
  (Ret None, emit (insert_calls_for C self names direction i) st).
Proof.
  unfold batch_code, block_services_body, insert_calls_for. intros Hcode.
  erewrite bind_ret_run by apply block_cmds_spec.
  destruct (insert_batch C self names direction i) as [|c0 cmds].
  - unfold ret. by rewrite app_nil_r.
  - rewrite bind_call. cbv zeta. rewrite hist_emit, Hcode.
    unfold ret. by rewrite emit_emit.
Qed.

Lemma block_services_body_nonzero self names direction insts i st c :
  instances self = Some insts ->
  batch_code C self names direction (hist st) i = c -> c ≠ 0%Z ->
  block_services_body C self names direction i st =
  (Ret (Some c),
   emit (insert_calls_for C self names direction i ++
         [Log ERROR "Received return code %d from iptables call."] ++
         unblock_services_calls C self names insts) st).
Proof.
  unfold batch_code, block_services_body, insert_calls_for.
  intros Hinsts Hcode Hc.
  erewrite bind_ret_run by apply block_cmds_spec.
  destruct (insert_batch C self names direction i) as [|c0 cmds].
  - congruence.
  - rewrite bind_call. cbv zeta. rewrite hist_emit, Hcode.
    rewrite (truthy_nonzero _ Hc). rewrite bind_log.
    erewrite bind_ret_run by (by apply unblock_services_run).
    unfold ret. by rewrite !emit_emit, <- !app_assoc.
Qed.

Lemma block_services_parsed self names direction d insts st :
  parse_direction C direction = Some d ->
  d ≠ ""%string ->
  instances self = Some insts ->
  block_services C self names direction st =
  bind (for_in insts (block_services_body C self names d))
       (fun r => ret (match r with Some rcode => rcode | None => 0%Z end)) st.
Proof.
  intros Hparse Hd Hinsts.
  rewrite block_services_unfold. rewrite Hparse.
  assert (String.eqb d "" = false) as -> by by apply String.eqb_neq.
  cbn [negb py_assert default]. erewrite bind_ret_run by reflexivity.
  by rewrite (bind_ret_run _ _ _ _ _ (self_instances_run _ _ st Hinsts)).
Qed.

Lemma block_services_all_zero self names direction d insts st :
  parse_direction C direction = Some d ->
  d ≠ ""%string ->
  instances self = Some insts ->
  (forall p1 j p2, insts = p1 ++ j :: p2 ->
     batch_code C self names d
       (hist st ++ insert_calls C self names d p1) j = 0%Z) ->
  block_services C self names direction st =
  (Ret 0%Z, emit (insert_calls C self names d insts) st).
Proof.
  intros Hparse Hd Hinsts Hzero.
  rewrite (block_services_parsed _ _ _ _ _ _ Hparse Hd Hinsts).
  rewrite (bind_ret_run _ _ _ _ _
    (early_exit_loop_success (block_services_body C self names d)
       (batch_code C self names d) (insert_calls_for C self names d)
       insts (block_services_body_zero self names d) st Hzero)).
  reflexivity.
Qed.

(** X3. [App.block_services] with a direction that parses sends one batch
    per instance, in order.  At the first batch that answers a non-zero
    code, the error is logged, [unblock_services] runs with the same name
    filter on every instance, no later instance receives a batch and the
    code is returned; when every batch answers 0, 0 is returned. *)
Theorem block_services_rolls_back_on_first_failure :
  forall (self : App) (names : option (list string)) (direction d : string)
         (insts : list AppInstance) (st : State),
    parse_direction C direction = Some d ->
    d ≠ ""%string ->
    instances self = Some insts ->
    (forall pre ik post c,
        insts = pre ++ ik :: post ->
        (forall p1 j p2, pre = p1 ++ j :: p2 ->
           batch_code C self names d
             (hist st ++ insert_calls C self names d p1) j = 0%Z) ->
        batch_code C self names d
          (hist st ++ insert_calls C self names d pre) ik = c ->
        c ≠ 0%Z ->
        block_services C self names direction st =
        (Ret c,
         emit (insert_calls C self names d pre ++
               insert_calls_for C self names d ik ++
               [Log ERROR "Received return code %d from iptables call."] ++
               unblock_services_calls C self names insts) st)) /\
    ((forall p1 j p2, insts = p1 ++ j :: p2 ->
        batch_code C self names d
          (hist st ++ insert_calls C self names d p1) j = 0%Z) ->
     block_services C self names direction st =
     (Ret 0%Z, emit (insert_calls C self names d insts) st)).
Proof.
  intros self names direction d insts st Hparse Hd Hinsts.
  split; [|by apply block_services_all_zero].
  intros pre ik post c -> Hzero Hk Hc.
  rewrite (block_services_parsed _ _ _ _ _ _ Hparse Hd Hinsts).
  rewrite (bind_ret_run _ _ _ _ _
    (early_exit_loop_failure (block_services_body C self names d)
       (batch_code C self names d) (insert_calls_for C self names d)
       (fun i => insert_calls_for C self names d i ++
                 [Log ERROR "Received return code %d from iptables call."]
                 ++ unblock_services_calls C self names
                      (pre ++ ik :: post))
       pre ik post c
       (block_services_body_zero self names d)
       (fun y st0 c0 =>
          block_services_body_nonzero self names d _ y st0 c0 Hinsts)
       Hc st Hzero Hk)).
  reflexivity.
Qed.

Lemma targeted_none_when_whitelisted self names :
  (forall s, In s (services self) ->
             service_type s ∈ service_whitelist (cfg C)) ->
  List.filter (targeted C names) (services self) = [].
Proof.
  intros Hall. induction (services self) as [|s l IH]; [reflexivity|].
  cbn [List.filter]. unfold targeted at 1, type_whitelisted.
  rewrite bool_decide_eq_true_2 by (apply Hall; by left). cbn [negb andb].
  apply IH. intros s' Hs'. apply Hall. by right.
Qed.

(** X4. When the type of every service of the application is in the
    service whitelist, [App.block_services] returns 0 and
    [App.unblock_services] returns without any call: nothing is logged and
    nothing is sent to any instance. *)
Theorem whitelisted_application_is_left_alone :
  forall (self : App) (names : option (list string)) (direction d : string)
         (insts : list AppInstance) (st : State),
    parse_direction C direction = Some d ->
    d ≠ ""%string ->
    instances self = Some insts ->
    (forall s, In s (services self) ->
               service_type s ∈ service_whitelist (cfg C)) ->
    block_services C self names direction st = (Ret 0%Z, st) /\
    unblock_services C self names st = (Ret tt, st).
Proof.
  intros self names direction d insts st Hparse Hd Hinsts Hall.
  pose proof (targeted_none_when_whitelisted self names Hall) as Hnone.
  assert (forall l, insert_calls C self names d l = []) as Hcalls.
  { induction l as [|i l IH]; [reflexivity|].
    unfold insert_calls in *. cbn [flat_map]. rewrite IH.
    unfold insert_calls_for, insert_batch. by rewrite Hnone. }
  split.
  - rewrite (block_services_all_zero _ _ _ _ _ _ Hparse Hd Hinsts).
    + by rewrite Hcalls, emit_nil.
    + intros p1 j p2 _. unfold batch_code, insert_batch. by rewrite Hnone.
  - rewrite (unblock_services_run _ _ _ _ _ Hinsts).
    assert (unblock_services_calls C self names insts = []) as ->.
    { clear Hinsts. induction insts as [|i l IH]; [reflexivity|].
      unfold unblock_services_calls in *. cbn [flat_map]. rewrite IH.
      unfold unblock_services_calls_for, delete_batch. by rewrite Hnone. }
    by rewrite emit_nil.
Qed.

(** *** App.kill_monit_process *)

Lemma start_monit_process_run self process insts st :
  instances self = Some insts ->
  start_monit_process self process st =
  (Ret tt, emit (start_calls process insts) st).
Proof.
  intros H. unfold start_monit_process.
  rewrite (bind_ret_run _ _ _ _ _ (self_instances_run _ _ st H)).
  apply for_each_calls.
Qed.

(** X5. [App.kill_monit_process] handles the first instance only and
    returns.  A failed search returns its code after the search alone.
    With PID files found, the job is unmonitored and each PID killed in one
    batch on that instance: code 0 returns 0 and the other instances are
    never searched; a non-zero code is logged, the job is started again on
    every instance of the application, and the code is returned. *)
Theorem kill_monit_process_handles_first_instance :
  forall (self : App) (process : string) (i : AppInstance)
         (rest : list AppInstance) (st : State),
    instances self = Some (i :: rest) ->
    let search := instance_run_cmd C (hist st) i (find_pid_files process) in
    let pid_files := pid_files_of search.1.2 in
    let found := [InstRunCmd i (find_pid_files process);
                  Log DEBUG "Found pid files %s for %s on %s."] in
    let kill := instance_run_cmd C (hist st ++ found) i
                  (kill_cmds process pid_files) in
    (search.1.1 ≠ 0%Z ->
     kill_monit_process C self process st =
     (Ret (Some search.1.1),
      emit [InstRunCmd i (find_pid_files process);
            Log ERROR "Encountered error when discovering monit process."]
           st)) /\
    (search.1.1 = 0%Z -> pid_files ≠ [] -> kill.1.1 = 0%Z ->
     kill_monit_process C self process st =
     (Ret (Some 0%Z),
      emit (found ++ [InstRunCmd i (kill_cmds process pid_files)]) st)) /\
    (search.1.1 = 0%Z -> pid_files ≠ [] -> kill.1.1 ≠ 0%Z ->
     kill_monit_process C self process st =
     (Ret (Some kill.1.1),
      emit (found ++
            [InstRunCmd i (kill_cmds process pid_files);
             Log ERROR "Encountered error killing monit processes!"] ++
            start_calls process (i :: rest)) st)).
Proof.
  intros self process i rest st Hinsts. cbv zeta.
  unfold kill_monit_process.
  rewrite (bind_ret_run _ _ _ _ _ (self_instances_run _ _ st Hinsts)).
  rewrite for_in_cons. fold (find_pid_files process).
  match goal with |- context [bind ?b _ st] => set (body := b) end.
  repeat split.
  - intros Hrc.
    assert (body st =
            (Ret (Some (instance_run_cmd C (hist st) i
                          (find_pid_files process)).1.1),
             emit [InstRunCmd i (find_pid_files process);
                   Log ERROR
                     "Encountered error when discovering monit process."]
                  st)) as Hbody.
    { subst body. rewrite bind_call. cbv zeta.
      rewrite (truthy_nonzero _ Hrc). cbn [orb].
      rewrite bind_log. unfold ret. by rewrite emit_emit. }
    by rewrite (bind_ret_run _ _ _ _ _ Hbody).
  - intros Hrc Hpid Hkill.
    assert (body st =
            (Ret (Some 0%Z),
             emit ([InstRunCmd i (find_pid_files process);
                    Log DEBUG "Found pid files %s for %s on %s."] ++
                   [InstRunCmd i
                      (kill_cmds process
                         (pid_files_of
                            (instance_run_cmd C (hist st) i
                               (find_pid_files process)).1.2))]) st))
      as Hbody.
    { subst body. rewrite bind_call. cbv zeta. rewrite Hrc.
      rewrite bool_decide_eq_false_2 by exact Hpid.
      change (truthy 0 || false) with false. cbv iota.
      rewrite bind_log, bind_call. rewrite !hist_emit. rewrite <- app_assoc.
      unfold kill_cmds in Hkill. cbn [app] in *. rewrite Hkill.
      change (truthy 0) with false. cbv iota.
      unfold ret, kill_cmds. by rewrite !emit_emit. }
    by rewrite (bind_ret_run _ _ _ _ _ Hbody).
  - intros Hrc Hpid Hkill.
    match goal with |- _ = (Ret (Some ?c), emit ?es st) =>
      assert (body st = (Ret (Some c), emit es st)) as Hbody
    end.
    { subst body. rewrite bind_call. cbv zeta. rewrite Hrc.
      rewrite bool_decide_eq_false_2 by exact Hpid.
      change (truthy 0 || false) with false. cbv iota.
      rewrite bind_log, bind_call. rewrite !hist_emit. rewrite <- app_assoc.
      unfold kill_cmds in *. cbn [app] in *.
      rewrite (truthy_nonzero _ Hkill). rewrite bind_log.
      erewrite bind_ret_run by (by apply start_monit_process_run).
      unfold ret. rewrite !emit_emit. by rewrite <- ?app_assoc. }
    by rewrite (bind_ret_run _ _ _ _ _ Hbody).
Qed.

(** *** App.undo_all *)

(** X6. [App.undo_all] unblocks every instance without explicit ports,
    then sends the delete batches of every service that is not whitelisted,
    then undoes the network manipulation of every instance, in this order;
    it makes these calls and returns whatever the collaborators answer and
    whether or not anything had been applied. *)
Theorem undo_all_calls_in_order :
  forall (self : App) (insts : list AppInstance) (st : State),
    instances self = Some insts ->
    undo_all C self st =
    (Ret tt,
     emit (map (fun i => InstUnblock i None) insts ++
           unblock_services_calls C self None insts ++
           map InstUnmanipulateNetwork insts) st).
Proof.
  intros self insts st H. exact (undo_all_run C self insts st H).
Qed.

(** *** App.get_service_by_name *)

(** X7. [App.get_service_by_name] returns the first service with the given
    name: no service before it in the list has that name; it returns
    [None] exactly when no service has the name. *)
Theorem get_service_by_name_first_match :
  forall (self : App) (sname : string),
    (forall s, get_service_by_name self sname = Some s ->
       exists before after,
         services self = before ++ s :: after /\
         service_name s = sname /\
         Forall (fun x => service_name x ≠ sname) before) /\
    (get_service_by_name self sname = None <->
     Forall (fun x => service_name x ≠ sname) (services self)).
Proof.
  intros self sname. unfold get_service_by_name.
  induction (services self) as [|x l [IHs IHn]]; split.
  - intros s H. discriminate H.
  - split; [constructor | reflexivity].
  - intros s H. cbn [find] in H.
    destruct (String.eqb (service_name x) sname) eqn:E.
    + inversion H; subst. apply String.eqb_eq in E.
      exists [], l. repeat split; auto.
    + destruct (IHs s H) as (before & after & -> & Hname & Hbefore).
      exists (x :: before), after. repeat split; auto.
      constructor; [by apply String.eqb_neq | exact Hbefore].
  - cbn [find]. destruct (String.eqb (service_name x) sname) eqn:E.
    + split; [discriminate|]. intros H. inversion H; subst.
      apply String.eqb_eq in E. contradiction.
    + rewrite IHn. split.
      * intros H. constructor; [by apply String.eqb_neq | exact H].
      * intros H. by inversion H.
Qed.

(** *** App.get_id *)

Lemma split_at_underscore a : forall a' r r',
  no_underscore a = true -> no_underscore a' = true ->
  (a +:+ String "_" r = a' +:+ String "_" r')%string ->
  a = a' /\ r = r'.
Proof.
  induction a as [|c a IH]; intros a' r r' Ha Ha' Heq.
  - destruct a' as [|c' a']; simpl in *.
    + by inversion Heq.
    + inversion Heq; subst. discriminate Ha'.
  - destruct a' as [|c' a']; simpl in *.
    + inversion Heq; subst. discriminate Ha.
    + inversion Heq; subst.
      apply andb_true_iff in Ha as [_ Ha].
      apply andb_true_iff in Ha' as [_ Ha'].
      destruct (IH a' r r' Ha Ha' H1) as [-> ->]. auto.
Qed.

(** X8. [App.get_id] tells applications apart when the organization and
    the space hold no underscore: two applications with the same id then
    have the same organization, space and name. *)
Theorem get_id_injective_without_underscore :
  forall (a b : App),
    no_underscore (org a) = true -> no_underscore (space a) = true ->
    no_underscore (org b) = true -> no_underscore (space b) = true ->
    get_id a = get_id b ->
    org a = org b /\ space a = space b /\ name a = name b.
Proof.
  intros a b Hoa Hsa Hob Hsb Hid. unfold get_id, py_join in Hid.
  cbn [String.concat] in Hid.
  destruct (split_at_underscore _ _ _ _ Hoa Hob Hid) as [Ho Hrest].
  destruct (split_at_underscore _ _ _ _ Hsa Hsb Hrest) as [Hs Hn].
  auto.
Qed.

End MoreAppProperties.

(** ** Further properties of the resolvers *)

Section MoreResolverProperties.

Context (C : Collaborators).

(** *** find_application_guid *)

(** X9. [find_application_guid] refuses an empty name before any command
    is run.  For a name that is not empty it runs the describe-app command
    once; when the command succeeds with some output, the GUID returned is
    the first line of the output; when it fails with some output, the
    process ends with a message that names the application. *)
Theorem find_application_guid_outcomes :
  forall (appname : string) (st : State),
    let res := run_cmd C (hist st) (describe_app C appname) in
    (appname = ""%string ->
     find_application_guid C appname st = (Raise AssertionError, st)) /\
    (forall guid rest,
        appname ≠ ""%string -> res.1.1 = 0%Z ->
        splitlines res.1.2 = guid :: rest ->
        find_application_guid C appname st =
        (Ret guid,
         emit [RunCmd (describe_app C appname); Log DEBUG guid] st)) /\
    (forall guid rest,
        appname ≠ ""%string -> res.1.1 ≠ 0%Z ->
        splitlines res.1.2 = guid :: rest ->
        find_application_guid C appname st =
        (Exit ("Failed retrieving the GUID for the specified app. Make sure "
               +:+ appname +:+ " is in this space!"),
         emit [RunCmd (describe_app C appname)] st)).
Proof.
  intros appname st res. repeat split.
  - intros ->. reflexivity.
  - intros guid rest Hname Hrc Hout.
    rewrite find_application_guid_unfold by exact Hname. cbv zeta.
    fold res. rewrite Hout, Hrc. change (truthy 0) with false. cbv iota.
    rewrite bind_log. unfold ret. by rewrite emit_emit.
  - intros guid rest Hname Hrc Hout.
    rewrite find_application_guid_unfold by exact Hname. cbv zeta.
    fold res. rewrite Hout. by rewrite (truthy_nonzero _ Hrc).
Qed.

(** *** find_application_instances *)

Lemma for_acc_skip {A S} (l : list A) (body : S -> A -> M S) :
  (forall x acc st, In x l -> body acc x st = (Ret acc, st)) ->
  forall acc st, for_acc l acc body st = (Ret acc, st).
Proof.
  induction l as [|x l IH]; intros Hskip acc st; [reflexivity|].
  rewrite for_acc_cons.
  rewrite (bind_ret_run _ _ _ _ _ (Hskip x acc st (or_introl eq_refl))).
  apply IH. intros y acc' st' Hy. apply Hskip. by right.
Qed.

(** X10. [find_application_instances] tells "bosh reports nothing" from
    "no running copy": when bosh reports no instance at all the result is
    [None], after a warning; when it reports instances of which none is a
    running copy of the application, the result is the empty list and no
    host is contacted. *)
Theorem find_application_instances_nothing_found :
  forall (app_guid : option string) (st : State),
    (get_apps C (hist st) = [] ->
     find_application_instances C app_guid st =
     (Ret None,
      emit [BoshGetApps; Log WARNING "No application instances found for %s."]
           st)) /\
    (get_apps C (hist st) ≠ [] ->
     List.filter (is_running_copy app_guid) (get_apps C (hist st)) = [] ->
     find_application_instances C app_guid st =
     (Ret (Some []), emit [BoshGetApps] st)).
Proof.
  intros app_guid st. unfold find_application_instances.
  rewrite bind_call. split.
  - intros ->. rewrite bind_log. unfold ret. by rewrite emit_emit.
  - intros Hne Hnone.
    destruct (get_apps C (hist st)) as [|raw0 raws] eqn:Hraw; [done|].
    rewrite <- Hraw in *. clear Hraw Hne.
    erewrite bind_ret_run; [reflexivity|].
    apply for_acc_skip. intros raw acc st' Hin.
    assert (is_running_copy app_guid raw = false) as Hraw.
    { destruct (is_running_copy app_guid raw) eqn:E; [|reflexivity].
      assert (In raw (List.filter (is_running_copy app_guid)
                        (get_apps C (hist st)))) as Hf
        by (apply filter_In; auto).
      rewrite Hnone in Hf. destruct Hf. }
    unfold is_running_copy in Hraw.
    destruct (bool_decide (Some (raw_app_guid raw) = app_guid));
      [|reflexivity].
    cbn [andb negb] in *. by rewrite Hraw.
Qed.

Lemma add_ports_exact app_ports pm st :
  add_ports C app_ports pm st =
  (Ret (with_ports C app_ports pm), emit (port_logs C pm) st).
Proof.
  unfold add_ports, with_ports, port_logs. cbv zeta.
  destruct (not_whitelisted (host_port pm) _ &&
            not_whitelisted (container_port pm) _);
    (destruct (host_tls_proxy_port pm) as [dp|];
       [destruct (container_tls_proxy_port pm) as [tp|]|]);
    try destruct (not_whitelisted dp _ && not_whitelisted tp _);
    unfold bind, log, ret; cbv iota beta; rewrite ?emit_emit;
    cbn [app]; rewrite ?emit_nil; reflexivity.
Qed.

Lemma port_loop_exact pms : forall app_ports st,
  for_acc pms app_ports (add_ports C) st =
  (Ret (fold_left (with_ports C) pms app_ports),
   emit (flat_map (port_logs C) pms) st).
Proof.
  induction pms as [|pm pms IH]; intros app_ports st.
  - simpl. by rewrite emit_nil.
  - rewrite for_acc_cons.
    rewrite (bind_ret_run _ _ _ _ _ (add_ports_exact app_ports pm st)).
    rewrite IH. cbn [fold_left flat_map]. by rewrite emit_emit.
Qed.

(** A loop that passes over some elements and appends one value for each
    of the others. *)
Lemma for_acc_collect {A B} (keep : A -> bool) (f : A -> B)
    (calls : A -> list Event) (body : list B -> A -> M (list B))
    (l : list A) :
  (forall x acc st, keep x = false -> body acc x st = (Ret acc, st)) ->
  (forall x acc st, keep x = true ->
     body acc x st = (Ret (acc ++ [f x]), emit (calls x) st)) ->
  forall acc st,
    for_acc l acc body st =
    (Ret (acc ++ map f (List.filter keep l)),
     emit (flat_map calls (List.filter keep l)) st).
Proof.
  intros Hskip Hkeep. induction l as [|x l IH]; intros acc st.
  - simpl. by rewrite app_nil_r, emit_nil.
  - rewrite for_acc_cons. cbn [List.filter].
    destruct (keep x) eqn:E.
    + rewrite (bind_ret_run _ _ _ _ _ (Hkeep x acc st E)). rewrite IH.
      cbn [map flat_map]. by rewrite emit_emit, <- app_assoc.
    + rewrite (bind_ret_run _ _ _ _ _ (Hskip x acc st E)). apply IH.
Qed.

Lemma find_virtual_interface_not_found did ip st :
  (forall g s, find_string_in_grouping C g s = []) ->
  find_virtual_interface C did ip st =
  (Ret None,
   emit [RunCmdOnDiegoCell did (Cmd "ip a") None;
         Log WARNING "Could not find virtual interface!"] st).
Proof.
  intros Hnone. unfold find_virtual_interface. rewrite bind_call. cbv zeta.
  rewrite Hnone. rewrite bind_log. unfold ret. by rewrite emit_emit.
Qed.

Lemma find_container_id_failed did ip st :
  (forall h d cmd, (run_cmd_on_diego_cell C h d cmd).1.1 ≠ 0%Z) ->
  find_container_id C did ip st =
  (Ret None,
   emit [RunCmdOnDiegoCell did
           (Cmd ("sudo cat /var/vcap/sys/log/rep/rep.stdout.log | grep " +:+
                 ip +:+ " | tail -n 1")) None;
         Log ERROR "Failed retrieving container GUID from %s."] st).
Proof.
  intros Hfail. unfold find_container_id. cbv zeta. rewrite bind_call.
  rewrite (truthy_nonzero _ (Hfail _ _ _)). rewrite bind_log.
  unfold ret. by rewrite emit_emit.
Qed.

(** X11. Instance resolution survives hosts that tell nothing: when the
    interface listing never matches and the container lookup fails on
    every host, [find_application_instances] still returns one instance
    per running copy of the application, in the order reported, with its
    addresses and port pairs and with no virtual interface and no
    container id; the two lookups are made once per running copy. *)
Theorem find_application_instances_without_host_details :
  forall (app_guid : option string) (st : State),
    (forall g s, find_string_in_grouping C g s = []) ->
    (forall h d cmd, (run_cmd_on_diego_cell C h d cmd).1.1 ≠ 0%Z) ->
    get_apps C (hist st) ≠ [] ->
    find_application_instances C app_guid st =
    (Ret (Some (map (bare_instance C)
                  (List.filter (is_running_copy app_guid)
                               (get_apps C (hist st))))),
     emit (BoshGetApps ::
           flat_map (bare_instance_calls C)
             (List.filter (is_running_copy app_guid) (get_apps C (hist st))))
          st).
Proof.
  intros app_guid st Hvi Hcid Hne. unfold find_application_instances.
  rewrite bind_call.
  destruct (get_apps C (hist st)) as [|raw0 raws] eqn:Hraw; [done|].
  rewrite <- Hraw in *. clear Hraw Hne.
  erewrite bind_ret_run.
  2:{ apply (for_acc_collect (is_running_copy app_guid) (bare_instance C)
               (bare_instance_calls C)).
      - intros raw acc st' Hskip. unfold is_running_copy in Hskip.
        destruct (bool_decide (Some (raw_app_guid raw) = app_guid));
          [|reflexivity].
        cbn [andb negb] in *. by rewrite Hskip.
      - intros raw acc st' Hkeep. unfold is_running_copy in Hkeep.
        apply andb_true_iff in Hkeep as [Hg Hs]. rewrite Hg, Hs.
        cbn [negb]. cbv zeta.
        rewrite (bind_ret_run _ _ _ _ _ (port_loop_exact _ _ _)).
        rewrite (bind_ret_run _ _ _ _ _
                   (find_virtual_interface_not_found _ _ _ Hvi)).
        rewrite (bind_ret_run _ _ _ _ _
                   (find_container_id_failed _ _ _ Hcid)).
        rewrite bind_log. unfold ret, bare_instance_calls, bare_instance.
        by rewrite !emit_emit. }
  unfold ret. cbn [app]. by rewrite emit_emit.
Qed.

(** *** find_application_services *)

Lemma json_iter_elements j st :
  json_iter j st =
  match json_elements j with
  | Some l => (Ret l, st)
  | None => (Raise TypeError, st)
  end.
Proof. by destruct j. Qed.

Lemma instance_cfg_loop sname cfgs : forall services st,
  for_acc cfgs services
    (fun services instance_cfg =>
       match from_service_info C sname instance_cfg with
       | Some service =>
           log INFO "Found service: %s" ;; ret (services ++ [service])
       | None => ret services
       end) st =
  (Ret (services ++ omap (from_service_info C sname) cfgs),
   emit (map (fun _ => Log INFO "Found service: %s")
             (omap (from_service_info C sname) cfgs)) st).
Proof.
  induction cfgs as [|cfg cfgs IH]; intros services st.
  - simpl. by rewrite app_nil_r, emit_nil.
  - rewrite for_acc_cons. cbv beta. cbn [omap list_omap].
    destruct (from_service_info C sname cfg) as [service|]; cbv iota.
    + unfold bind at 1. rewrite bind_log. unfold ret at 1. rewrite IH.
      cbn [map]. by rewrite emit_emit, <- app_assoc.
    + unfold bind at 1, ret at 1. apply IH.
Qed.

Lemma items_loop items : forall found services st,
  bound_services C items = Some found ->
  for_acc items services
    (fun services item =>
       cfgs <- json_iter item.2 ;;
       for_acc cfgs services
         (fun services instance_cfg =>
            match from_service_info C item.1 instance_cfg with
            | Some service =>
                log INFO "Found service: %s" ;; ret (services ++ [service])
            | None => ret services
            end)) st =
  (Ret (services ++ found),
   emit (map (fun _ => Log INFO "Found service: %s") found) st).
Proof.
  induction items as [|item items IH]; intros found services st Hfound.
  - inversion Hfound; subst. simpl. by rewrite app_nil_r, emit_nil.
  - cbn [bound_services] in Hfound.
    destruct (json_elements item.2) as [cfgs|] eqn:Hcfgs; [|discriminate].
    destruct (bound_services C items) as [others|]; [|discriminate].
    inversion Hfound; subst. clear Hfound.
    rewrite for_acc_cons. unfold bind at 1. unfold bind at 1.
    rewrite json_iter_elements, Hcfgs. rewrite instance_cfg_loop.
    rewrite (IH others) by reflexivity.
    by rewrite emit_emit, map_app, <- app_assoc.
Qed.

(** X12. With a successful environment query whose output holds exactly
    one object with the services key (and no two objects without it next
    to each other), [find_application_services] returns, for each item of
    that key in order and each configuration bound under it, the service
    that [Service.from_service_info] builds, leaving out the configurations
    for which it builds none; one line is logged per service. *)
Theorem find_application_services_bound_services :
  forall (appname : string) (st : State) (obj : pydict)
         (items : list (string * json)) (found : list Service),
    let res := run_cmd C (hist st) (show_env C appname) in
    res.1.1 = 0%Z ->
    lacking_apart (extract_json C res.1.2) = true ->
    List.filter has_services (extract_json C res.1.2) = [obj] ->
    assoc_get "VCAP_SERVICES" obj = Some (JObj items) ->
    bound_services C items = Some found ->
    find_application_services C appname st =
    (Ret found,
     emit ([RunCmd (show_env C appname); LogJson DEBUG (JObj items)] ++
           map (fun _ => Log INFO "Found service: %s") found) st).
Proof.
  intros appname st obj items found res Hrc Hapart Hone Hkey Hfound.
  rewrite find_application_services_unfold. cbv zeta. fold res.
  rewrite Hrc. change (truthy 0) with false. cbv iota.
  destruct (extract_json C res.1.2) as [|o objs] eqn:E; [discriminate|].
  erewrite bind_ret_run.
  2:{ apply (discard_loop_spec (length (o :: objs)) [] (o :: objs));
        [constructor | exact Hapart | lia]. }
  rewrite Hone. cbn [app]. rewrite Hkey.
  unfold bind at 1, log_json at 1.
  rewrite (items_loop items found [] _ Hfound).
  cbn [app]. by rewrite !emit_emit.
Qed.

(** X13. When the output of a successful environment query holds two or
    more objects with the services key (and no two objects without it next
    to each other), [find_application_services] reads none of them: it
    logs that no services were found and returns the empty list. *)
Theorem find_application_services_several_objects :
  forall (appname : string) (st : State),
    let res := run_cmd C (hist st) (show_env C appname) in
    res.1.1 = 0%Z ->
    lacking_apart (extract_json C res.1.2) = true ->
    2 <= length (List.filter has_services (extract_json C res.1.2)) ->
    find_application_services C appname st =
    (Ret [],
     emit [RunCmd (show_env C appname); Log INFO "No services found for %s."]
          st).
Proof.
  intros appname st res Hrc Hapart Hlen.
  rewrite find_application_services_unfold. cbv zeta. fold res.
  rewrite Hrc. change (truthy 0) with false. cbv iota.
  destruct (extract_json C res.1.2) as [|o objs] eqn:E;
    [simpl in Hlen; lia|].
  erewrite bind_ret_run.
  2:{ apply (discard_loop_spec (length (o :: objs)) [] (o :: objs));
        [constructor | exact Hapart | lia]. }
  cbn [app].
  destruct (List.filter has_services (o :: objs)) as [|x [|y l]];
    [simpl in Hlen; lia | simpl in Hlen; lia |].
  rewrite bind_log. unfold ret. by rewrite emit_emit.
Qed.

Lemma list_remove_keeps_services pos obj l l' :
  nth_error l pos = Some obj ->
  has_services obj = false ->
  list_remove pos obj l = Some l' ->
  List.filter has_services l' = List.filter has_services l /\ sublist l' l.
Proof.
  revert pos l'. induction l as [|x l IH]; intros pos l' Hnth Hobj Hrm;
    [discriminate|].
  cbn [list_remove] in Hrm.
  destruct ((pos =? 0)%nat || dict_eqb x obj) eqn:E.
  - inversion Hrm; subst. clear Hrm.
    assert (has_services x = false) as Hx.
    { apply orb_true_iff in E as [E|E].
      - apply Nat.eqb_eq in E as ->. simpl in Hnth. by inversion Hnth.
      - destruct (has_services x) eqn:Hx; [|reflexivity].
        pose proof (dict_eqb_has "VCAP_SERVICES" _ _ E Hx) as Hc.
        unfold has_services in Hobj. congruence. }
    cbn [List.filter]. rewrite Hx. split; [reflexivity|].
    by apply sublist_cons.
  - apply orb_false_iff in E as [Epos _]. apply Nat.eqb_neq in Epos.
    destruct pos as [|pos]; [done|]. cbn [Nat.pred] in Hrm.
    destruct (list_remove pos obj l) as [r|] eqn:Er; [|discriminate].
    inversion Hrm; subst. clear Hrm.
    destruct (IH pos r Hnth Hobj Er) as [Hf Hs].
    cbn [List.filter]. rewrite Hf. split; [reflexivity|].
    by apply sublist_skip.
Qed.

(** X14. Whatever the parsed objects, the discarding loop of
    [find_application_services] ends without an exception, drops nothing
    but objects without the services key, and keeps every object that has
    the key, in order. *)
Theorem discard_loop_keeps_services :
  forall (fuel index : nat) (json_objs : list pydict) (st : State),
    exists kept,
      discard_loop fuel index json_objs st = (Ret kept, st) /\
      List.filter has_services kept = List.filter has_services json_objs /\
      sublist kept json_objs.
Proof.
  induction fuel as [|fuel IH]; intros index l st.
  - exists l. by repeat split.
  - cbn [discard_loop].
    destruct (nth_error l index) as [obj|] eqn:Hobj;
      [|exists l; by repeat split].
    fold (has_services obj).
    destruct (has_services obj) eqn:Hhas; cbn [negb]; [apply IH|].
    destruct (list_remove_found _ _ _ Hobj) as [l' Hrm]. rewrite Hrm.
    destruct (list_remove_keeps_services _ _ _ _ Hobj Hhas Hrm) as [Hf Hs].
    destruct (IH (S index) l' st) as (kept & Hrun & Hf' & Hs').
    exists kept. split; [exact Hrun|]. split; [congruence|].
    by etrans.
Qed.

End MoreResolverProperties.

(** ** Further properties of discovery *)

Section MoreDiscoveryProperties.

Context (C : Collaborators).

Lemma fields_of_emit es st o : fields_of (emit es st) o = fields_of st o.
Proof. reflexivity. Qed.

(** *** App.add_services_from_cfg *)

Lemma set_self_run self a f st :
  fields_of st self = Some a ->
  exists st',
    set_self self f st = (Ret tt, st') /\
    fields_of st' self = Some (f a) /\ hist st' = hist st.
Proof.
  intros Hf. apply fields_of_Some in Hf as (d & Ho & Hd).
  unfold set_self. rewrite Ho, Hd. eexists. split; [reflexivity|].
  split; [|reflexivity]. apply fields_of_Some. exists d. simpl.
  split; [exact Ho|]. by rewrite lookup_insert_eq.
Qed.

Lemma get_self_run self a st :
  fields_of st self = Some a -> get_self self st = (Ret a, st).
Proof. intros Hf. unfold get_self. by rewrite Hf. Qed.

Lemma add_custom_service_resolved self a d addr st :
  fields_of st self = Some a ->
  gethostbyname C (hist st) (custom_host d) = Some addr ->
  exists st',
    add_custom_service C self (custom_name d) (custom_host d)
      (custom_ports d) (custom_user d) (custom_password d) st =
      (Ret tt, st') /\
    fields_of st' self =
      Some (with_services a (services a ++ [custom_service addr d])) /\
    hist st' = hist st ++ [GetHostByName (custom_host d)].
Proof.
  intros Hf Haddr. unfold add_custom_service. rewrite bind_call, Haddr.
  destruct (set_self_run self a
              (fun a => with_services a
                          (services a ++ [custom_service addr d]))
              (emit [GetHostByName (custom_host d)] st) Hf)
    as (st' & Hrun & Hf' & Hh).
  exists st'. split; [exact Hrun|]. split; [exact Hf'|]. by rewrite Hh.
Qed.

Lemma add_custom_service_unresolved self d st :
  gethostbyname C (hist st) (custom_host d) = None ->
  add_custom_service C self (custom_name d) (custom_host d)
    (custom_ports d) (custom_user d) (custom_password d) st =
  (Raise OSError, emit [GetHostByName (custom_host d)] st).
Proof.
  intros Haddr. unfold add_custom_service. by rewrite bind_call, Haddr.
Qed.

Lemma custom_service_loop self (resolve : string -> string) declared :
  forall a st,
    fields_of st self = Some a ->
    (forall h d, In d declared ->
       gethostbyname C h (custom_host d) = Some (resolve (custom_host d))) ->
    exists st',
      for_each declared (fun service =>
        add_custom_service C self (custom_name service) (custom_host service)
          (custom_ports service) (custom_user service)
          (custom_password service)) st = (Ret tt, st') /\
      fields_of st' self =
        Some (with_services a
                (services a ++
                 map (fun d => custom_service (resolve (custom_host d)) d)
                     declared)) /\
      hist st' = hist st ++ resolve_calls declared.
Proof.
  induction declared as [|d declared IH]; intros a st Hf Hres.
  - exists st. split; [reflexivity|]. cbn [map resolve_calls].
    rewrite !app_nil_r. split; [|reflexivity]. by destruct a.
  - destruct (add_custom_service_resolved self a d _ st Hf
                (Hres (hist st) d (or_introl eq_refl)))
      as (st1 & Hrun1 & Hf1 & Hh1).
    destruct (IH _ st1 Hf1) as (st2 & Hrun2 & Hf2 & Hh2).
    { intros h d' Hd'. apply Hres. by right. }
    exists st2. split; [|split].
    + rewrite for_each_cons. by rewrite (bind_ret_run _ _ _ _ _ Hrun1).
    + rewrite Hf2. unfold with_services. cbn [services org space name guid
        instances map]. by rewrite <- app_assoc.
    + rewrite Hh2, Hh1. unfold resolve_calls. cbn [map].
      by rewrite <- app_assoc.
Qed.

Lemma for_each_raise_at {A} (before : list A) d after (body : A -> M unit)
    e st st1 st2 :
  for_each before body st = (Ret tt, st1) ->
  body d st1 = (Raise e, st2) ->
  for_each (before ++ d :: after) body st = (Raise e, st2).
Proof.
  revert st. induction before as [|b before IH]; intros st Hrun Hd.
  - cbn in Hrun. inversion Hrun; subst. cbn [app]. rewrite for_each_cons.
    by apply bind_raise_run.
  - cbn [app]. rewrite for_each_cons. rewrite for_each_cons in Hrun.
    apply bind_ret_inv in Hrun as ([] & st0 & Hb & Hrest).
    rewrite (bind_ret_run _ _ _ _ _ Hb). by apply IH.
Qed.

(** X15. [App.add_services_from_cfg] without declared services returns
    the services as they are.  With declared services whose hosts all
    resolve, it looks each host up once, in order, and appends to the
    services one service of type ['custom'] per declaration, with one host
    per declared (protocol, port) at the resolved address.  When a host
    does not resolve, the error of the lookup is raised and the services
    declared before it have been appended. *)
Theorem add_services_from_cfg_appends_custom_services :
  forall (self : nat) (a : App) (st : State),
    fields_of st self = Some a ->
    (cfg_services (cfg C) = None ->
     add_services_from_cfg C self st = (Ret (services a), st)) /\
    (forall declared (resolve : string -> string),
        cfg_services (cfg C) = Some declared ->
        (forall h d, In d declared ->
           gethostbyname C h (custom_host d) =
           Some (resolve (custom_host d))) ->
        exists st',
          add_services_from_cfg C self st =
            (Ret (services a ++
                  map (fun d => custom_service (resolve (custom_host d)) d)
                      declared), st') /\
          fields_of st' self =
            Some (with_services a
                    (services a ++
                     map (fun d => custom_service (resolve (custom_host d)) d)
                         declared)) /\
          hist st' = hist st ++ resolve_calls declared) /\
    (forall before d after (resolve : string -> string),
        cfg_services (cfg C) = Some (before ++ d :: after) ->
        (forall h d', In d' before ->
           gethostbyname C h (custom_host d') =
           Some (resolve (custom_host d'))) ->
        (forall h, gethostbyname C h (custom_host d) = None) ->
        exists st',
          add_services_from_cfg C self st = (Raise OSError, st') /\
          fields_of st' self =
            Some (with_services a
                    (services a ++
                     map (fun d => custom_service (resolve (custom_host d)) d)
                         before)) /\
          hist st' = hist st ++ resolve_calls (before ++ [d])).
Proof.
  intros self a st Hf. unfold add_services_from_cfg. repeat split.
  - intros ->. by rewrite (bind_ret_run _ _ _ _ _ (get_self_run _ _ _ Hf)).
  - intros declared resolve -> Hres.
    destruct (custom_service_loop self resolve declared a st Hf Hres)
      as (st' & Hrun & Hf' & Hh).
    exists st'. split; [|auto].
    rewrite (bind_ret_run _ _ _ _ _ Hrun).
    by rewrite (bind_ret_run _ _ _ _ _ (get_self_run _ _ _ Hf')).
  - intros before d after resolve -> Hres Hnone.
    destruct (custom_service_loop self resolve before a st Hf Hres)
      as (st1 & Hrun & Hf1 & Hh1).
    exists (emit [GetHostByName (custom_host d)] st1). split; [|split].
    + apply bind_raise_run.
      apply (for_each_raise_at _ _ _ _ _ _ _ _ Hrun).
      apply add_custom_service_unresolved, Hnone.
    + exact Hf1.
    + simpl. rewrite Hh1. unfold resolve_calls.
      by rewrite map_app, <- app_assoc.
Qed.

(** *** App.discover *)

Lemma keeps_run {A} P (m : M A) st a st' :
  keeps P m -> P st -> m st = (Ret a, st') -> P st'.
Proof. intros Hm HP Hrun. specialize (Hm st HP). by rewrite Hrun in Hm. Qed.

(** [self.field = resolver(...)]: the resolver is run on the fields read,
    and the fields are assigned after it. *)
Lemma assign_run {A} app (resolver : App -> M A) (f : A -> App -> App)
    a st r st' :
  (forall a0, keeps (fun st => fields_of st app = Some a) (resolver a0)) ->
  fields_of st app = Some a ->
  bind (get_self app) (fun a0 =>
    bind (resolver a0) (fun found =>
      bind (set_self app (f found)) (fun _ => ret found))) st = (Ret r, st') ->
  fields_of st' app = Some (f r a).
Proof.
  intros Hkeeps Hf Hrun.
  rewrite (bind_ret_run _ _ _ _ _ (get_self_run _ _ _ Hf)) in Hrun.
  apply bind_ret_inv in Hrun as (found & st1 & Hres & Hrun).
  apply bind_ret_inv in Hrun as ([] & st2 & Hset & Hrun).
  inversion Hrun; subst.
  pose proof (keeps_run _ _ _ _ _ (Hkeeps a) Hf Hres) as Hf1.
  destruct (set_self_run app a (f r) st1 Hf1) as (st2' & Hset' & Hf2 & _).
  rewrite Hset' in Hset. by inversion Hset; subst.
Qed.

Lemma find_application_services_from_info appname st svcs st' :
  find_application_services C appname st = (Ret svcs, st') ->
  Forall (from_bound_service C) svcs.
Proof.
  rewrite find_application_services_unfold. cbv zeta.
  destruct (truthy _); [discriminate|].
  destruct (extract_json C _) as [|o objs]; [discriminate|].
  intros Hrun. apply bind_ret_inv in Hrun as (kept & st1 & _ & Hrun).
  destruct kept as [|obj [|obj' kept]].
  - apply bind_ret_inv in Hrun as ([] & st2 & _ & Hrun).
    inversion Hrun. constructor.
  - destruct (assoc_get "VCAP_SERVICES" obj) as [vservices|];
      [|discriminate].
    apply bind_ret_inv in Hrun as ([] & st2 & _ & Hrun).
    destruct vservices as [| | | | |items]; try discriminate.
    refine (for_acc_inv (fun _ acc => Forall (from_bound_service C) acc) _ _
              items [] [] st2 svcs st' _ Hrun); [|constructor].
    intros pre item acc st3 acc' st4 Hacc Hitem.
    apply bind_ret_inv in Hitem as (cfgs & st5 & _ & Hitem).
    refine (for_acc_inv (fun _ acc => Forall (from_bound_service C) acc) _ _
              cfgs [] acc st5 acc' st4 Hacc Hitem).
    intros pre' instance_cfg acc0 st6 acc1 st7 Hacc0 Hcfg.
    destruct (from_service_info C item.1 instance_cfg) as [service|] eqn:Hs.
    + apply bind_ret_inv in Hcfg as ([] & st8 & _ & Hcfg).
      inversion Hcfg; subst. apply Forall_app. split; [exact Hacc0|].
      constructor; [|constructor]. by exists item.1, instance_cfg.
    + by inversion Hcfg; subst.
  - apply bind_ret_inv in Hrun as ([] & st2 & _ & Hrun).
    inversion Hrun. constructor.
Qed.

Lemma identified_emit o s n app es st :
  identified o s n app st -> identified o s n app (emit es st).
Proof. intros H. exact H. Qed.

Lemma keeps_identified_add_services o s n app :
  keeps (identified o s n app) (add_services_from_cfg C app).
Proof.
  pose proof (identified_emit o s n app) as Hemit.
  unfold add_services_from_cfg.
  destruct (cfg_services (cfg C)) as [declared|].
  - apply keeps_bind.
    + apply keeps_for_each. intros d. unfold add_custom_service.
      apply keeps_bind; [by apply keeps_call|]. intros [addr|];
        [|apply keeps_raise].
      intros st (a & Hf & Ho & Hs & Hn).
      destruct (set_self_run app a
                  (fun a => {| org := org a; space := space a;
                               name := name a; guid := guid a;
                               services := services a ++
                                 [{| service_type := "custom";
                                     service_name := custom_name d;
                                     service_user := custom_user d;
                                     service_password := custom_password d;
                                     service_hosts :=
                                       map (fun pp : string * pyval =>
                                              (addr, pp.1, pp.2))
                                           (custom_ports d) |}];
                               instances := instances a |}) st Hf)
        as (st' & Hrun & Hf' & _).
      rewrite Hrun. eexists. split; [exact Hf'|]. auto.
    + intros _. apply keeps_bind; [apply keeps_get_self|].
      intros a. apply keeps_ret.
  - apply keeps_bind; [apply keeps_get_self|]. intros a. apply keeps_ret.
Qed.

Lemma keeps_fields_guid app a appname :
  keeps (fun st => fields_of st app = Some a)
        (find_application_guid C appname).
Proof. apply keeps_find_application_guid. intros es st H. exact H. Qed.

Lemma keeps_fields_instances app a app_guid :
  keeps (fun st => fields_of st app = Some a)
        (find_application_instances C app_guid).
Proof. apply keeps_find_application_instances. intros es st H. exact H. Qed.

Lemma keeps_fields_services app a appname :
  keeps (fun st => fields_of st app = Some a)
        (find_application_services C appname).
Proof. apply keeps_find_application_services. intros es st H. exact H. Qed.

Lemma App_init_run o s n st :
  exists st',
    App_init o s n st = (Ret (fresh (dom (obj_dict st))), st') /\
    fields_of st' (fresh (dom (obj_dict st))) =
      Some {| org := o; space := s; name := n; guid := None;
              services := []; instances := Some [] |} /\
    hist st' = hist st.
Proof.
  eexists. split; [reflexivity|]. split; [|reflexivity].
  apply fields_of_Some. exists (fresh (dom (dicts st))). simpl.
  by rewrite !lookup_insert_eq.
Qed.

Lemma no_instances_false found :
  no_instances found = false -> exists i insts, found = Some (i :: insts).
Proof. destruct found as [[|i insts]|]; [discriminate|eauto|discriminate]. Qed.

(** A discovery that returns an object has found a GUID, at least one
    instance and the bound services; the object is the first free
    reference of the store. *)
Lemma discover_result o s n st app st' :
  discover C o s n st = (Ret (Some app), st') ->
  app = fresh (dom (obj_dict st)) /\ discovered C o s n (Some app) st'.
Proof.
  unfold discover. rewrite bind_call. intros Hrun.
  destruct (truthy _).
  { apply bind_ret_inv in Hrun as ([] & st1 & _ & Hrun). inversion Hrun. }
  destruct (App_init_run o s n (emit [CfTarget o s] st))
    as (st1 & Hinit & Hf1 & _).
  rewrite (bind_ret_run _ _ _ _ _ Hinit) in Hrun.
  change (obj_dict (emit [CfTarget o s] st)) with (obj_dict st) in *.
  set (new := fresh (dom (obj_dict st))) in *.
  apply bind_ret_inv in Hrun as (declared & st2 & Hadd & Hrun).
  assert (identified o s n new st2) as (a2 & Hf2 & Ho & Hs & Hn).
  { apply (keeps_run _ _ _ _ _ (keeps_identified_add_services o s n new))
      in Hadd; [exact Hadd|]. eexists. split; [exact Hf1|]. auto. }
  apply bind_ret_inv in Hrun as (g & st3 & Hguid & Hrun).
  apply (assign_run new (fun a => find_application_guid C (name a))
           (fun g a => {| org := org a; space := space a; name := name a;
                          guid := Some g; services := services a;
                          instances := instances a |}) _ _ _ _
           (fun a0 => keeps_fields_guid new _ (name a0)) Hf2) in Hguid.
  destruct (String.eqb g "") eqn:Hg.
  { apply bind_ret_inv in Hrun as ([] & st4 & _ & Hrun). inversion Hrun. }
  apply bind_ret_inv in Hrun as (found & st4 & Hinst & Hrun).
  apply (assign_run new (fun a => find_application_instances C (guid a))
           (fun found a => {| org := org a; space := space a; name := name a;
                              guid := guid a; services := services a;
                              instances := found |}) _ _ _ _
           (fun a0 => keeps_fields_instances new _ (guid a0)) Hguid) in Hinst.
  destruct (no_instances found) eqn:Hfound.
  { apply bind_ret_inv in Hrun as ([] & st5 & _ & Hrun). inversion Hrun. }
  apply no_instances_false in Hfound as (i & insts & ->).
  apply bind_ret_inv in Hrun as (svcs & st5 & Hsvc & Hrun).
  assert (Forall (from_bound_service C) svcs) as Hbound.
  { unfold find_services in Hsvc.
    rewrite (bind_ret_run _ _ _ _ _ (get_self_run _ _ _ Hinst)) in Hsvc.
    apply bind_ret_inv in Hsvc as (svcs' & st6 & Hres & Hsvc).
    apply bind_ret_inv in Hsvc as ([] & st7 & _ & Hsvc).
    inversion Hsvc; subst.
    by apply find_application_services_from_info in Hres. }
  apply (assign_run new (fun a => find_application_services C (name a))
           (fun found a => {| org := org a; space := space a; name := name a;
                              guid := guid a; services := found;
                              instances := instances a |}) _ _ _ _
           (fun a0 => keeps_fields_services new _ (name a0)) Hinst) in Hsvc.
  rewrite bind_log in Hrun.
  apply bind_ret_inv in Hrun as (a5 & st6 & Hget & Hrun).
  apply bind_ret_inv in Hrun as (j & st7 & Hser & Hrun).
  apply bind_ret_inv in Hrun as ([] & st8 & Hlog & Hrun).
  inversion Hrun; subst app st8. split; [reflexivity|].
  assert (fields_of st' new =
          Some {| org := o; space := s; name := n; guid := Some g;
                  services := svcs; instances := Some (i :: insts) |}) as Hf.
  { inversion Hlog; subst st'. rewrite fields_of_emit.
    set (final := {| org := o; space := s; name := n; guid := Some g;
                     services := svcs; instances := Some (i :: insts) |}).
    assert (fields_of st5 new = Some final) as Hf5.
    { rewrite Hsvc. unfold final. cbn. by rewrite Ho, Hs, Hn. }
    apply (keeps_run (fun st => fields_of st new = Some final) _ _ _ _
             (keeps_get_self _ new)) in Hget; [|exact Hf5].
    apply (keeps_run (fun st => fields_of st new = Some final) _ _ _ _
             (keeps_serialize _ C a5)) in Hser; [exact Hser|exact Hget]. }
  exists g, (i :: insts), svcs. split; [exact Hf|]. split; [|split].
  - intros ->. discriminate.
  - discriminate.
  - exact Hbound.
Qed.

(** X16. When [App.discover] returns an application, that object is new
    (no object of the store before the call), it has the organization,
    space and name asked for, a GUID that is not empty, at least one
    instance, and its services are the bound services built by
    [Service.from_service_info] (services declared in the configuration
    are replaced by [find_services]); the fields of every object that
    existed before are unchanged. *)
Theorem discover_returns_new_complete_application :
  forall (o s n : string) (st : State) (app : nat) (st' : State),
    discover C o s n st = (Ret (Some app), st') ->
    obj_dict st !! app = None /\
    discovered C o s n (Some app) st' /\
    (forall other a, fields_of st other = Some a ->
                     fields_of st' other = Some a).
Proof.
  intros o s n st app st' Hrun.
  destruct (discover_result o s n st app st' Hrun) as [-> Hd].
  split; [|split; [exact Hd|]].
  - apply not_elem_of_dom, is_fresh.
  - intros other a Hf.
    assert (holds_fields other a (hist st) st') as [Hf' _]; [|exact Hf'].
    apply (keeps_run _ _ _ _ _ (discover_frame C other a (hist st) o s n))
      in Hrun; [exact Hrun|].
    split; [exact Hf|]. exists []. by rewrite app_nil_r.
Qed.

(** *** App.rediscover *)

(** X17. When the discovery run by [App.rediscover] returns an
    application, [rediscover] returns normally, having first undone
    everything on the old instances; afterwards [self] and the new object
    refer to the same [__dict__], so [self] has the identity it had, a GUID
    that is not empty and at least one instance, and nothing else of the
    store or the history differs from the state after the discovery. *)
Theorem rediscover_shares_the_new_fields :
  forall (self : nat) (a : App) (insts : list AppInstance) (st : State)
         (new : nat) (st2 : State),
    fields_of st self = Some a ->
    instances a = Some insts ->
    discover C (org a) (space a) (name a)
      (emit (undo_calls C a insts) st) = (Ret (Some new), st2) ->
    exists d,
      obj_dict st2 !! new = Some d /\
      rediscover C self st =
        (Ret tt, {| hist := hist st2;
                    obj_dict := <[self := d]> (obj_dict st2);
                    dicts := dicts st2 |}) /\
      new ≠ self /\
      discovered C (org a) (space a) (name a) (Some self)
        {| hist := hist st2; obj_dict := <[self := d]> (obj_dict st2);
           dicts := dicts st2 |}.
Proof.
  intros self a insts st new st2 Hf Hinsts Hdisc.
  destruct (discover_result _ _ _ _ _ _ Hdisc) as [Hnew Hd].
  destruct Hd as (g & found & svcs & Hfields & Hg & Hfound & Hbound).
  pose proof Hfields as Hfields'.
  apply fields_of_Some in Hfields' as (d & Hod & Hdd).
  exists d. split; [exact Hod|]. split; [|split].
  - unfold rediscover.
    rewrite (bind_ret_run _ _ _ _ _ (get_self_run _ _ _ Hf)).
    rewrite (bind_ret_run _ _ _ _ _ (undo_all_run C a insts st Hinsts)).
    rewrite (bind_ret_run _ _ _ _ _
               (get_self_run self a (emit (undo_calls C a insts) st) Hf)).
    rewrite (bind_ret_run _ _ _ _ _ Hdisc).
    unfold share_dict. by rewrite Hod.
  - intros ->. apply fields_of_Some in Hf as (ds & Hs & _).
    apply (is_fresh (dom (obj_dict st))).
    change (obj_dict (emit (undo_calls C a insts) st)) with (obj_dict st)
      in Hnew.
    rewrite <- Hnew. by apply elem_of_dom_2 in Hs.
  - exists g, found, svcs. split; [|auto].
    apply fields_of_Some. exists d. simpl.
    by rewrite lookup_insert_eq.
Qed.

End MoreDiscoveryProperties.

(** ** The further properties on the example deployment *)

(** X1: the second instance answers 2; and every instance answers 0. *)
Lemma manipulate_network_rolls_back_on_first_failure_witness :
  manipulate_network network_fails_on_b billing [("latency", PInt 100)]
    empty_state =
    (Ret 2%Z,
     emit [InstManipulateNetwork instance_a [("latency", PInt 100)];
           InstManipulateNetwork instance_b [("latency", PInt 100)];
           InstUnmanipulateNetwork instance_a;
           InstUnmanipulateNetwork instance_b] empty_state) /\
  manipulate_network all_quiet billing [("latency", PInt 100)] empty_state =
    (Ret 0%Z,
     emit [InstManipulateNetwork instance_a [("latency", PInt 100)];
           InstManipulateNetwork instance_b [("latency", PInt 100)]]
          empty_state).
Proof.
  split.
  - apply (proj1 (manipulate_network_rolls_back_on_first_failure
                    network_fails_on_b billing [("latency", PInt 100)]
                    [instance_a; instance_b] empty_state eq_refl)
             [instance_a] instance_b [] 2%Z eq_refl).
    + intros p1 j p2 E. destruct p1 as [|x p1].
      * injection E as <- _. reflexivity.
      * injection E as _ E. destruct p1; discriminate E.
    + reflexivity.
    + lia.
  - apply (proj2 (manipulate_network_rolls_back_on_first_failure
                    all_quiet billing [("latency", PInt 100)]
                    [instance_a; instance_b] empty_state eq_refl)).
    intros p1 j p2 E. reflexivity.
Defined.

(** X2: a download limit; the second instance answers 2. *)
Lemma shape_network_rolls_back_on_first_failure_witness :
  shape_network network_fails_on_b billing (Some 100%Z) None empty_state =
    (Ret 2%Z,
     emit [InstShapeNetwork instance_a (Some 100%Z) None;
           InstShapeNetwork instance_b (Some 100%Z) None;
           InstUnmanipulateNetwork instance_a;
           InstUnmanipulateNetwork instance_b] empty_state) /\
  shape_network all_quiet billing (Some 100%Z) None empty_state =
    (Ret 0%Z,
     emit [InstShapeNetwork instance_a (Some 100%Z) None;
           InstShapeNetwork instance_b (Some 100%Z) None] empty_state).
Proof.
  split.
  - apply (proj1 (shape_network_rolls_back_on_first_failure
                    network_fails_on_b billing (Some 100%Z) None
                    [instance_a; instance_b] empty_state eq_refl eq_refl)
             [instance_a] instance_b [] 2%Z eq_refl).
    + intros p1 j p2 E. destruct p1 as [|x p1].
      * injection E as <- _. reflexivity.
      * injection E as _ E. destruct p1; discriminate E.
    + reflexivity.
    + lia.
  - apply (proj2 (shape_network_rolls_back_on_first_failure
                    all_quiet billing (Some 100%Z) None
                    [instance_a; instance_b] empty_state eq_refl eq_refl)).
    intros p1 j p2 E. reflexivity.
Defined.

(** X3: the batch of the second instance answers 1. *)
Lemma block_services_rolls_back_on_first_failure_witness :
  block_services batch_fails_on_b billing None "egress" empty_state =
    (Ret 1%Z,
     emit [Log INFO "Blocking %s for %s:%s";
           InstRunCmd instance_a
             (Cmds ["sudo iptables -I FORWARD 1 -s 10.255.0.5 -d 10.9.9.9 -p tcp --dport 3306 -j DROP"]);
           Log INFO "Blocking %s for %s:%s";
           InstRunCmd instance_b
             (Cmds ["sudo iptables -I FORWARD 1 -s 10.255.0.6 -d 10.9.9.9 -p tcp --dport 3306 -j DROP"]);
           Log ERROR "Received return code %d from iptables call.";
           Log INFO "Unblocking %s for %s:%s";
           RunCmdOnDiegoCell "diego_cell/a"
             (Cmds (delete_batch batch_fails_on_b billing None instance_a))
             (Some true);
           Log INFO "Unblocking %s for %s:%s";
           RunCmdOnDiegoCell "diego_cell/b"
             (Cmds (delete_batch batch_fails_on_b billing None instance_b))
             (Some true)] empty_state) /\
  block_services all_quiet billing None "egress" empty_state =
    (Ret 0%Z,
     emit [Log INFO "Blocking %s for %s:%s";
           InstRunCmd instance_a
             (Cmds ["sudo iptables -I FORWARD 1 -s 10.255.0.5 -d 10.9.9.9 -p tcp --dport 3306 -j DROP"]);
           Log INFO "Blocking %s for %s:%s";
           InstRunCmd instance_b
             (Cmds ["sudo iptables -I FORWARD 1 -s 10.255.0.6 -d 10.9.9.9 -p tcp --dport 3306 -j DROP"])]
          empty_state).
Proof.
  assert ("egress"%string ≠ ""%string) as Hd by discriminate.
  split.
  - apply (proj1 (block_services_rolls_back_on_first_failure
                    batch_fails_on_b billing None "egress" "egress"
                    [instance_a; instance_b] empty_state eq_refl Hd eq_refl)
             [instance_a] instance_b [] 1%Z eq_refl).
    + intros p1 j p2 E. destruct p1 as [|x p1].
      * injection E as <- _. reflexivity.
      * injection E as _ E. destruct p1; discriminate E.
    + reflexivity.
    + lia.
  - apply (proj2 (block_services_rolls_back_on_first_failure
                    all_quiet billing None "egress" "egress"
                    [instance_a; instance_b] empty_state eq_refl Hd eq_refl)).
    intros p1 j p2 E. unfold batch_code.
    destruct (insert_batch _ _ _ _ _); reflexivity.
Defined.

(** X4: the application is bound to the logger only. *)
Lemma whitelisted_application_is_left_alone_witness :
  block_services all_quiet logging_only None "both" empty_state =
    (Ret 0%Z, empty_state) /\
  unblock_services all_quiet logging_only None empty_state =
    (Ret tt, empty_state).
Proof.
  assert ("both"%string ≠ ""%string) as Hd by discriminate.
  apply (whitelisted_application_is_left_alone all_quiet logging_only None
           "both" "both" [instance_a; instance_b] empty_state eq_refl Hd
           eq_refl).
  intros s [<-|[]]. vm_compute. constructor.
Defined.

(** X5: the search fails; the kill succeeds; the kill fails. *)
Lemma kill_monit_process_handles_first_instance_witness :
  kill_monit_process one_running_copy billing "rep" empty_state =
    (Ret (Some 1%Z),
     emit [InstRunCmd instance_a (find_pid_files "rep");
           Log ERROR "Encountered error when discovering monit process."]
          empty_state) /\
  kill_monit_process search_finds_pid billing "rep" empty_state =
    (Ret (Some 0%Z),
     emit [InstRunCmd instance_a (find_pid_files "rep");
           Log DEBUG "Found pid files %s for %s on %s.";
           InstRunCmd instance_a
             (Cmds ["sudo /var/vcap/bosh/bin/monit unmonitor rep";
                    "sudo kill $(cat /var/vcap/sys/run/rep/rep.pid)"])]
          empty_state) /\
  kill_monit_process kill_fails billing "rep" empty_state =
    (Ret (Some 1%Z),
     emit [InstRunCmd instance_a (find_pid_files "rep");
           Log DEBUG "Found pid files %s for %s on %s.";
           InstRunCmd instance_a
             (Cmds ["sudo /var/vcap/bosh/bin/monit unmonitor rep";
                    "sudo kill $(cat /var/vcap/sys/run/rep/rep.pid)"]);
           Log ERROR "Encountered error killing monit processes!";
           InstRunCmd instance_a
             (Cmd "sudo /var/vcap/bosh/bin/monit start rep");
           InstRunCmd instance_b
             (Cmd "sudo /var/vcap/bosh/bin/monit start rep")]
          empty_state).
Proof.
  split; [|split].
  - apply (proj1 (kill_monit_process_handles_first_instance
                    one_running_copy billing "rep" instance_a [instance_b]
                    empty_state eq_refl)).
    vm_compute. discriminate.
  - apply (proj1 (proj2 (kill_monit_process_handles_first_instance
                           search_finds_pid billing "rep" instance_a
                           [instance_b] empty_state eq_refl))).
    + reflexivity.
    + vm_compute. discriminate.
    + reflexivity.
  - apply (proj2 (proj2 (kill_monit_process_handles_first_instance
                           kill_fails billing "rep" instance_a
                           [instance_b] empty_state eq_refl))).
    + reflexivity.
    + vm_compute. discriminate.
    + vm_compute. discriminate.
Defined.

(** X6 on the two instances of [billing]. *)
Lemma undo_all_calls_in_order_witness :
  undo_all all_quiet billing empty_state =
    (Ret tt,
     emit [InstUnblock instance_a None; InstUnblock instance_b None;
           Log INFO "Unblocking %s for %s:%s";
           RunCmdOnDiegoCell "diego_cell/a"
             (Cmds (delete_batch all_quiet billing None instance_a))
             (Some true);
           Log INFO "Unblocking %s for %s:%s";
           RunCmdOnDiegoCell "diego_cell/b"
             (Cmds (delete_batch all_quiet billing None instance_b))
             (Some true);
           InstUnmanipulateNetwork instance_a;
           InstUnmanipulateNetwork instance_b] empty_state).
Proof.
  exact (undo_all_calls_in_order all_quiet billing
           [instance_a; instance_b] empty_state eq_refl).
Defined.

(** X7: the second service of [billing]. *)
Lemma get_service_by_name_first_match_witness :
  get_service_by_name billing "syslog" = Some syslog /\
  exists before after,
    services billing = before ++ syslog :: after /\
    service_name syslog = "syslog"%string /\
    Forall (fun x => service_name x ≠ "syslog"%string) before.
Proof.
  split; [reflexivity|].
  exact (proj1 (get_service_by_name_first_match billing "syslog") syslog
           eq_refl).
Defined.

(** X8: the same application before and after it lost its services. *)
Lemma get_id_injective_without_underscore_witness :
  get_id (with_services billing []) = get_id billing /\
  org (with_services billing []) = org billing /\
  space (with_services billing []) = space billing /\
  name (with_services billing []) = name billing.
Proof.
  split; [reflexivity|].
  apply (get_id_injective_without_underscore (with_services billing [])
           billing); reflexivity.
Defined.

(** X9: no name; a GUID on the first line; a failure that prints. *)
Lemma find_application_guid_outcomes_witness :
  find_application_guid one_running_copy "" empty_state =
    (Raise AssertionError, empty_state) /\
  find_application_guid one_running_copy "billing" empty_state =
    (Ret "abc-123"%string,
     emit [RunCmd (Cmd "cf app billing --guid"); Log DEBUG "abc-123"]
          empty_state) /\
  find_application_guid app_missing "billing" empty_state =
    (Exit "Failed retrieving the GUID for the specified app. Make sure billing is in this space!",
     emit [RunCmd (Cmd "cf app billing --guid")] empty_state).
Proof.
  split; [|split].
  - exact (proj1 (find_application_guid_outcomes one_running_copy ""
                    empty_state) eq_refl).
  - apply (proj1 (proj2 (find_application_guid_outcomes one_running_copy
                           "billing" empty_state)) "abc-123"%string []).
    + discriminate.
    + reflexivity.
    + reflexivity.
  - apply (proj2 (proj2 (find_application_guid_outcomes app_missing
                           "billing" empty_state)) "FAILED"%string []).
    + discriminate.
    + vm_compute. discriminate.
    + reflexivity.
Defined.

(** X10: bosh reports nothing; bosh reports copies of another
    application only. *)
Lemma find_application_instances_nothing_found_witness :
  find_application_instances all_quiet (Some "abc-123"%string) empty_state =
    (Ret None,
     emit [BoshGetApps; Log WARNING "No application instances found for %s."]
          empty_state) /\
  find_application_instances one_running_copy (Some "other"%string)
    empty_state = (Ret (Some []), emit [BoshGetApps] empty_state).
Proof.
  split.
  - exact (proj1 (find_application_instances_nothing_found all_quiet
                    (Some "abc-123"%string) empty_state) eq_refl).
  - apply (proj2 (find_application_instances_nothing_found one_running_copy
                    (Some "other"%string) empty_state)).
    + discriminate.
    + reflexivity.
Defined.

(** X11: one running copy on a cell that tells nothing. *)
Lemma find_application_instances_without_host_details_witness :
  find_application_instances one_running_copy (Some "abc-123"%string)
    empty_state =
  (Ret (Some [bare_instance one_running_copy running_copy]),
   emit (BoshGetApps :: bare_instance_calls one_running_copy running_copy)
        empty_state).
Proof.
  apply (find_application_instances_without_host_details one_running_copy
           (Some "abc-123"%string) empty_state).
  - intros g s. reflexivity.
  - intros h d cmd. vm_compute. discriminate.
  - discriminate.
Defined.

(** X12: two bound services, and a configuration that describes none. *)
Lemma find_application_services_bound_services_witness :
  find_application_services env_with_services "billing" empty_state =
    (Ret [{| service_type := "p-mysql"; service_name := "orders-db";
             service_user := None; service_password := None;
             service_hosts := [] |};
          {| service_type := "p-redis"; service_name := "cache";
             service_user := None; service_password := None;
             service_hosts := [] |}],
     emit [RunCmd (Cmd "cf env billing"); LogJson DEBUG (JObj bound_items);
           Log INFO "Found service: %s"; Log INFO "Found service: %s"]
          empty_state).
Proof.
  apply (find_application_services_bound_services env_with_services
           "billing" empty_state vcap_services bound_items); reflexivity.
Defined.

(** X13: the services object is printed twice. *)
Lemma find_application_services_several_objects_witness :
  find_application_services env_with_services_twice "billing" empty_state =
    (Ret [],
     emit [RunCmd (Cmd "cf env billing");
           Log INFO "No services found for %s."] empty_state).
Proof.
  apply (find_application_services_several_objects env_with_services_twice
           "billing" empty_state).
  - reflexivity.
  - reflexivity.
  - vm_compute. lia.
Defined.

(** X15: no declared service; two declared services; the host of the
    second one does not resolve. *)
Lemma add_services_from_cfg_appends_custom_services_witness :
  add_services_from_cfg all_quiet 0 billing_state =
    (Ret [mysql; syslog], billing_state) /\
  (exists st',
     add_services_from_cfg env_with_services 0 billing_state =
       (Ret [mysql; syslog; custom_service "10.0.0.7" orders_db;
             custom_service "10.0.0.7" cache], st') /\
     fields_of st' 0 =
       Some (with_services billing
               [mysql; syslog; custom_service "10.0.0.7" orders_db;
                custom_service "10.0.0.7" cache]) /\
     hist st' = [GetHostByName "db.internal";
                 GetHostByName "cache.internal"]) /\
  (exists st',
     add_services_from_cfg cache_unresolved 0 billing_state =
       (Raise OSError, st') /\
     fields_of st' 0 =
       Some (with_services billing
               [mysql; syslog; custom_service "10.0.0.7" orders_db]) /\
     hist st' = [GetHostByName "db.internal";
                 GetHostByName "cache.internal"]).
Proof.
  assert (fields_of billing_state 0 = Some billing) as Hf by reflexivity.
  split; [|split].
  - exact (proj1 (add_services_from_cfg_appends_custom_services all_quiet 0
                    billing billing_state Hf) eq_refl).
  - apply (proj1 (proj2 (add_services_from_cfg_appends_custom_services
                           env_with_services 0 billing billing_state Hf))
             [orders_db; cache] (fun _ => "10.0.0.7"%string) eq_refl).
    intros h d Hd. reflexivity.
  - apply (proj2 (proj2 (add_services_from_cfg_appends_custom_services
                           cache_unresolved 0 billing billing_state Hf))
             [orders_db] cache [] (fun _ => "10.0.0.7"%string) eq_refl).
    + intros h d [<-|[]]. reflexivity.
    + intros h. reflexivity.
Defined.

(** X16: a discovery that succeeds beside the object 0. *)
Lemma discover_returns_new_complete_application_witness :
  let st' := (discover one_running_copy "dev" "staging" "billing"
                billing_state).2 in
  obj_dict billing_state !! 1 = None /\
  discovered one_running_copy "dev" "staging" "billing" (Some 1) st' /\
  (forall other a, fields_of billing_state other = Some a ->
                   fields_of st' other = Some a).
Proof.
  intros st'.
  apply (discover_returns_new_complete_application one_running_copy
           "dev" "staging" "billing" billing_state 1 st').
  vm_compute. reflexivity.
Defined.

(** X17: the application [billing] is discovered again. *)
Lemma rediscover_shares_the_new_fields_witness :
  let st2 := (discover one_running_copy "dev" "staging" "billing"
                (emit (undo_calls one_running_copy billing
                         [instance_a; instance_b]) billing_state)).2 in
  exists d,
    obj_dict st2 !! 1 = Some d /\
    rediscover one_running_copy 0 billing_state =
      (Ret tt, {| hist := hist st2; obj_dict := <[0 := d]> (obj_dict st2);
                  dicts := dicts st2 |}) /\
    1 ≠ 0 /\
    discovered one_running_copy "dev" "staging" "billing" (Some 0)
      {| hist := hist st2; obj_dict := <[0 := d]> (obj_dict st2);
         dicts := dicts st2 |}.
Proof.
  intros st2.
  apply (rediscover_shares_the_new_fields one_running_copy 0 billing
           [instance_a; instance_b] billing_state 1 st2).
  - reflexivity.
  - reflexivity.
  - vm_compute. reflexivity.
Defined.
